(** * Federal Reserve ETL: the data-source client layer

    A shallow embedding of the client layer of [federal_reserve_etl]:
    the error taxonomy ([utils/exceptions.py]), the retry decorator and the
    shared validators ([utils/error_handling.py]), the FRED and Haver clients
    ([data_sources/fred_client.py], [data_sources/haver_client.py]), the
    abstract base class ([data_sources/base.py]) and the factory
    ([data_sources/__init__.py]).

    Conventions of the model.
    - A Python [str] is a [string]; the case mappings and the character
      classes are the ASCII ones, so the model is exact on ASCII text.
    - A [datetime] is a number of microseconds since [datetime.min] (a [Z]);
      [timedelta.total_seconds()] of a difference is that difference.
    - A [float] number of seconds (delays, back-off factors) is a rational.
    - A raised exception is a value: every fallible operation returns a
      [result], and code that mutates the client threads the client through.
    - Logging has no effect on the results and is left out. *)

From Stdlib Require Import ZArith QArith Qround Ascii String.
From stdpp Require Import gmap strings list pretty.

Open Scope Z_scope.

(** ** Python strings *)

Module PyStr.

Definition code (a : ascii) : N := N_of_ascii a.

Definition in_range (lo hi : N) (a : ascii) : bool :=
  ((lo <=? code a) && (code a <=? hi))%N.

(** The characters [str.strip()] removes: tab, LF, VT, FF, CR, the four
    separators 0x1c-0x1f and the space. *)
Definition isspace_char (a : ascii) : bool :=
  in_range 9 13 a || in_range 28 31 a || (code a =? 32)%N.

Definition islower_char (a : ascii) : bool := in_range 97 122 a.
Definition isupper_char (a : ascii) : bool := in_range 65 90 a.
Definition isdigit_char (a : ascii) : bool := in_range 48 57 a.

Definition isalnum_char (a : ascii) : bool :=
  isdigit_char a || isupper_char a || islower_char a.

Definition upper_char (a : ascii) : ascii :=
  if islower_char a then ascii_of_N (code a - 32) else a.

Definition lower_char (a : ascii) : ascii :=
  if isupper_char a then ascii_of_N (code a + 32) else a.

Fixpoint map_chars (f : ascii -> ascii) (s : string) : string :=
  match s with
  | EmptyString => EmptyString
  | String a s' => String (f a) (map_chars f s')
  end.

Fixpoint forall_chars (p : ascii -> bool) (s : string) : bool :=
  match s with
  | EmptyString => true
  | String a s' => p a && forall_chars p s'
  end.

Fixpoint filter_chars (p : ascii -> bool) (s : string) : string :=
  match s with
  | EmptyString => EmptyString
  | String a s' =>
      if p a then String a (filter_chars p s') else filter_chars p s'
  end.

(** [s.upper()], [s.lower()] *)
Definition upper : string -> string := map_chars upper_char.
Definition lower : string -> string := map_chars lower_char.

(** [s.lstrip()] *)
Fixpoint lstrip (s : string) : string :=
  match s with
  | EmptyString => EmptyString
  | String a s' => if isspace_char a then lstrip s' else s
  end.

(** [s.rstrip()]: a character is kept when something after it is kept or
    when it is not white space. *)
Fixpoint rstrip (s : string) : string :=
  match s with
  | EmptyString => EmptyString
  | String a s' =>
      match rstrip s' with
      | EmptyString => if isspace_char a then EmptyString
                       else String a EmptyString
      | r => String a r
      end
  end.

(** [s.strip()] *)
Definition strip (s : string) : string := rstrip (lstrip s).

(** [len(s)] *)
Definition len (s : string) : Z := Z.of_nat (String.length s).

(** [bool(s)]: a string is true when it is not empty. *)
Definition truthy (s : string) : bool :=
  match s with EmptyString => false | _ => true end.

(** [s.isalnum()]: false on the empty string. *)
Definition isalnum (s : string) : bool :=
  truthy s && forall_chars isalnum_char s.

(** [s.replace(c, '')] for a one-character [c]. *)
Definition remove_char (c : ascii) (s : string) : string :=
  filter_chars (fun a => negb (Ascii.eqb a c)) s.

(** [sep.join(l)] *)
Fixpoint join (sep : string) (l : list string) : string :=
  match l with
  | [] => ""
  | [x] => x
  | x :: rest => x +:+ sep +:+ join sep rest
  end.

(** [repr(s)]: the string between single quotes, or between double quotes
    when it holds a single quote and no double quote; the quote in use and
    the backslash are escaped, and so are the control characters. *)
Definition single_quote : ascii := ascii_of_N 39.
Definition double_quote : ascii := ascii_of_N 34.
Definition backslash : ascii := ascii_of_N 92.

Fixpoint has_char (c : ascii) (s : string) : bool :=
  match s with
  | EmptyString => false
  | String a s' => Ascii.eqb a c || has_char c s'
  end.

Definition hex_digit (n : N) : ascii :=
  if (n <? 10)%N then ascii_of_N (48 + n) else ascii_of_N (87 + n).

Definition repr_char (quote a : ascii) : string :=
  if Ascii.eqb a quote || Ascii.eqb a backslash then
    String backslash (String a EmptyString)
  else if (code a =? 9)%N then String backslash "t"
  else if (code a =? 10)%N then String backslash "n"
  else if (code a =? 13)%N then String backslash "r"
  else if (code a <? 32)%N || (code a =? 127)%N then
    String backslash
      (String "x" (String (hex_digit (code a / 16))
                     (String (hex_digit (code a mod 16)) EmptyString)))
  else String a EmptyString.

Fixpoint repr_chars (quote : ascii) (s : string) : string :=
  match s with
  | EmptyString => String quote EmptyString
  | String a s' => repr_char quote a +:+ repr_chars quote s'
  end.

Definition repr (s : string) : string :=
  let quote := if has_char single_quote s && negb (has_char double_quote s)
               then double_quote else single_quote in
  String quote (repr_chars quote s).

(** [sub in s] *)
Fixpoint contains (sub s : string) : bool :=
  String.prefix sub s ||
  match s with
  | EmptyString => false
  | String _ s' => contains sub s'
  end.

End PyStr.

(** ** Python values that appear in contexts, keyword arguments and
    configuration dictionaries *)

Inductive pyval : Type :=
| PNone
| PInt (z : Z)
| PStr (s : string)
| PStrs (l : list string).

#[global] Instance pyval_eq_dec : EqDecision pyval.
Proof. solve_decision. Defined.

(** [bool(v)] *)
Definition py_truthy (v : pyval) : bool :=
  match v with
  | PNone => false
  | PInt z => negb (z =? 0)%Z
  | PStr s => PyStr.truthy s
  | PStrs l => match l with [] => false | _ => true end
  end.

(** [str(v)] of a value that is interpolated into a message; the entries
    of a list are rendered by [repr]. *)
Definition py_str (v : pyval) : string :=
  match v with
  | PNone => "None"
  | PInt z => pretty z
  | PStr s => s
  | PStrs l => "[" +:+ PyStr.join ", " (PyStr.repr <$> l) +:+ "]"
  end.

(** ** The error taxonomy ([utils/exceptions.py]) *)

Module Exceptions.

(** The classes of the hierarchy, and [Foreign] for every exception class
    outside it ([ValueError], [TypeError], the exceptions of [requests]). *)
Inductive exc_class : Type :=
| FederalReserveETLError
| ConnectionError
| AuthenticationError
| DataRetrievalError
| ValidationError
| ConfigurationError
| RateLimitError
| Foreign (name : string).

#[global] Instance exc_class_eq_dec : EqDecision exc_class.
Proof. solve_decision. Defined.

(** [issubclass(c, d)] for [d] in the hierarchy. *)
Definition issubclass (c d : exc_class) : bool :=
  match c, d with
  | Foreign n, Foreign m => bool_decide (n = m)
  | Foreign _, _ => false
  | _, FederalReserveETLError => true
  | RateLimitError, DataRetrievalError => true
  | _, _ => bool_decide (c = d)
  end.

(** An exception instance.  [__init__] of the base class stores exactly
    [message], [error_code] and [context]. *)
Record exc : Type := mk_exc {
  cls : exc_class;
  message : string;
  error_code : option string;
  context : gmap string pyval
}.

Definition isinstance (e : exc) (d : exc_class) : bool := issubclass (cls e) d.

Definition isinstance_any (e : exc) (ds : list exc_class) : bool :=
  existsb (isinstance e) ds.

(** The attributes an instance of the hierarchy answers to: the three
    instance attributes set by [FederalReserveETLError.__init__], the
    method [to_dict], and what [BaseException] provides. *)
Definition instance_attributes : list string :=
  ["message"; "error_code"; "context"; "to_dict"; "args"; "with_traceback"].

(** [hasattr(e, name)] *)
Definition hasattr (e : exc) (name : string) : bool :=
  bool_decide (name ∈ instance_attributes).

(** [FederalReserveETLError.__str__] *)
Definition str (e : exc) : string :=
  match error_code e with
  | Some c => if PyStr.truthy c then "[" +:+ c +:+ "] " +:+ message e
              else message e
  | None => message e
  end.

(** [d[k] = v] performed only [if v:] *)
Definition set_if_truthy (k : string) (v : option pyval)
    (ctx : gmap string pyval) : gmap string pyval :=
  match v with
  | Some v => if py_truthy v then <[k := v]> ctx else ctx
  | None => ctx
  end.

(** [d[k] = v] performed [if v is not None:] *)
Definition set_if_given (k : string) (v : option pyval)
    (ctx : gmap string pyval) : gmap string pyval :=
  match v with
  | Some PNone | None => ctx
  | Some v => <[k := v]> ctx
  end.

(** The constructors.  Each takes the keyword arguments of its
    [__init__]; [code] and [ctx] are the [error_code] and [context]
    keywords passed on to the base class ([ctx = ∅] when absent). *)

Definition new_FederalReserveETLError (msg : string) (code : option string)
    (ctx : gmap string pyval) : exc :=
  mk_exc FederalReserveETLError msg code ctx.

Definition new_ConnectionError (msg : string) (endpoint : option string)
    (status_code : option Z) (code : option string)
    (ctx : gmap string pyval) : exc :=
  mk_exc ConnectionError msg code
    (set_if_truthy "status_code" (PInt <$> status_code)
       (set_if_truthy "endpoint" (PStr <$> endpoint) ctx)).

Definition new_AuthenticationError (msg : string)
    (api_key_hint source : option string) (code : option string)
    (ctx : gmap string pyval) : exc :=
  mk_exc AuthenticationError msg code
    (set_if_truthy "source" (PStr <$> source)
       (set_if_truthy "api_key_hint" (PStr <$> api_key_hint) ctx)).

Definition data_context (variables : option (list string))
    (date_range : option (string * string)) (response_status : option Z)
    (ctx : gmap string pyval) : gmap string pyval :=
  set_if_truthy "response_status" (PInt <$> response_status)
    (set_if_truthy "date_range"
       ((fun '(a, b) => PStrs [a; b]) <$> date_range)
       (set_if_truthy "variables"
          (PStrs <$> variables) ctx)).

Definition new_DataRetrievalError (msg : string)
    (variables : option (list string))
    (date_range : option (string * string)) (response_status : option Z)
    (code : option string) (ctx : gmap string pyval) : exc :=
  mk_exc DataRetrievalError msg code
    (data_context variables date_range response_status ctx).

Definition new_ValidationError (msg : string) (field : option string)
    (expected actual : option pyval) (code : option string)
    (ctx : gmap string pyval) : exc :=
  mk_exc ValidationError msg code
    (set_if_given "actual" actual
       (set_if_given "expected" expected
          (set_if_truthy "field" (PStr <$> field) ctx))).

Definition new_ConfigurationError (msg : string)
    (config_key config_file : option string) (code : option string)
    (ctx : gmap string pyval) : exc :=
  mk_exc ConfigurationError msg code
    (set_if_truthy "config_file" (PStr <$> config_file)
       (set_if_truthy "config_key" (PStr <$> config_key) ctx)).

(** [RateLimitError.__init__] puts [limit], [reset_time] and
    [retry_after] into the context and hands the rest to
    [DataRetrievalError.__init__]; it sets no attribute of its own. *)
Definition new_RateLimitError (msg : string)
    (limit reset_time retry_after : option Z) (code : option string)
    (ctx : gmap string pyval) : exc :=
  mk_exc RateLimitError msg code
    (data_context None None None
       (set_if_truthy "retry_after" (PInt <$> retry_after)
          (set_if_truthy "reset_time" (PInt <$> reset_time)
             (set_if_truthy "limit" (PInt <$> limit) ctx)))).

(** An exception from outside the hierarchy, with its [str]. *)
Definition foreign (name msg : string) : exc :=
  mk_exc (Foreign name) msg None ∅.

End Exceptions.
Export Exceptions.

(** ** Results and stateful computations *)

Inductive result (A : Type) : Type :=
| Ok (a : A)
| Raise (e : exc).
Arguments Ok {A} a.
Arguments Raise {A} e.

Definition is_ok {A} (r : result A) : bool :=
  match r with Ok _ => true | Raise _ => false end.

Definition raises {A} (r : result A) (c : exc_class) : Prop :=
  match r with Ok _ => False | Raise e => cls e = c end.

(** A computation over a mutable state [S] that returns or raises.  What
    was written to the state before a raise stays written. *)
Definition M (S A : Type) : Type := S -> result A * S.

Definition ret {S A} (a : A) : M S A := fun s => (Ok a, s).
Definition throw {S A} (e : exc) : M S A := fun s => (Raise e, s).

Definition bind {S A B} (m : M S A) (k : A -> M S B) : M S B :=
  fun s => match m s with
           | (Ok a, s') => k a s'
           | (Raise e, s') => (Raise e, s')
           end.

(** [try: m  except Exception as e: h e] *)
Definition try_except {S A} (m : M S A) (h : exc -> M S A) : M S A :=
  fun s => match m s with
           | (Ok a, s') => (Ok a, s')
           | (Raise e, s') => h e s'
           end.

Definition get {S} : M S S := fun s => (Ok s, s).
Definition put {S} (s : S) : M S unit := fun _ => (Ok tt, s).
Definition modify {S} (f : S -> S) : M S unit := fun s => (Ok tt, f s).
Definition lift_result {S A} (r : result A) : M S A := fun s => (r, s).

Declare Scope py_scope.
Delimit Scope py_scope with py.
Notation "'do' x <- m ; k" := (bind m (fun x => k))
  (at level 10, x name, m at level 100, k at level 200) : py_scope.
Notation "'run' m ; k" := (bind m (fun _ => k))
  (at level 10, m at level 100, k at level 200) : py_scope.
Open Scope py_scope.

(** ** The outside world

    [time.sleep] and [datetime.now()] act on the world.  The clock is an
    arbitrary sequence of readings: the [n]-th call of [datetime.now()]
    returns [clock n].  Every [time.sleep(d)] that returns is recorded;
    a negative length is refused with a [ValueError].  Lengths are exact
    rationals: what a float or the time type of C cannot hold (a power
    beyond the largest float, a sleep of some 292 years) is left to the
    hypotheses of the theorems that let the length vary. *)

Record World : Type := mk_World {
  ticks : nat;          (* calls of datetime.now() so far *)
  sent : nat;           (* HTTP requests issued so far *)
  slept : list Q        (* arguments of time.sleep so far, oldest first *)
}.

Definition world0 : World := mk_World 0 0 [].

Definition time_sleep {S} (d : Q) : M (S * World) unit :=
  if Qle_bool 0 d then
    modify (fun '(s, w) => (s, mk_World (ticks w) (sent w) (slept w ++ [d])))
  else throw (foreign "ValueError" "sleep length must be non-negative").

Definition datetime_now {S} (clock : nat -> Z) : M (S * World) Z :=
  fun '(s, w) =>
    (Ok (clock (ticks w)), (s, mk_World (Datatypes.S (ticks w)) (sent w) (slept w))).

Definition count_request {S} : M (S * World) nat :=
  fun '(s, w) =>
    (Ok (sent w), (s, mk_World (ticks w) (Datatypes.S (sent w)) (slept w))).

(** Seconds as a rational, from microseconds. *)
Definition seconds (us : Z) : Q := us # 1000000.

(** [max(a, b)] on numbers: [b] only when it is strictly greater. *)
Definition py_max (a b : Q) : Q := if Qle_bool b a then a else b.

(** ** Calendar dates

    The day of an instant and its two renderings: [strftime('%Y-%m-%d')],
    for the years the date validator lets through (four digits), and
    [str(d.date())], the ISO form, whose year always has four digits. *)

Definition us_per_day : Z := 86400 * 1000000.

Module Calendar.

Definition day_of (t : Z) : Z := t / us_per_day.

(** Year, month and day of the day number [n] (0 is 0001-01-01). *)
Definition civil (n : Z) : Z * Z * Z :=
  let z := n + 306 in
  let era := z / 146097 in
  let doe := z - era * 146097 in
  let yoe := (doe - doe / 1460 + doe / 36524 - doe / 146096) / 365 in
  let doy := doe - (365 * yoe + yoe / 4 - yoe / 100) in
  let mp := (5 * doy + 2) / 153 in
  let d := doy - (153 * mp + 2) / 5 + 1 in
  let m := if mp <? 10 then mp + 3 else mp - 9 in
  let y := yoe + era * 400 + (if m <=? 2 then 1 else 0) in
  (y, m, d).

Definition two_digits (n : Z) : string :=
  if n <? 10 then "0" +:+ pretty n else pretty n.

Definition four_digits (n : Z) : string :=
  if n <? 10 then "000" +:+ pretty n
  else if n <? 100 then "00" +:+ pretty n
  else if n <? 1000 then "0" +:+ pretty n
  else pretty n.

Definition strftime (t : Z) : string :=
  let '(y, m, d) := civil (day_of t) in
  pretty y +:+ "-" +:+ two_digits m +:+ "-" +:+ two_digits d.

(** [str(dt.date())] *)
Definition isoformat (t : Z) : string :=
  let '(y, m, d) := civil (day_of t) in
  four_digits y +:+ "-" +:+ two_digits m +:+ "-" +:+ two_digits d.

End Calendar.

(** ** The retry decorator and the shared validators
    ([utils/error_handling.py]) *)

Module ErrorHandling.

Definition class_name (c : exc_class) : string :=
  match c with
  | FederalReserveETLError => "FederalReserveETLError"
  | ConnectionError => "ConnectionError"
  | AuthenticationError => "AuthenticationError"
  | DataRetrievalError => "DataRetrievalError"
  | ValidationError => "ValidationError"
  | ConfigurationError => "ConfigurationError"
  | RateLimitError => "RateLimitError"
  | Foreign n => n
  end.

Section handle_api_errors.
Context {S A : Type}.
Variables (retry_count : Z) (retry_delay backoff_factor : Q).
Variable retriable_exceptions : list exc_class.
(** [func.__name__], and [str(args)[:200]], [str(kwargs)[:200]] of the
    call. *)
Variables func_name args_repr kwargs_repr : string.
Variable func : M (S * World) A.

Definition wrapped_error (e : exc) : exc :=
  new_FederalReserveETLError
    ("Unexpected error in " +:+ func_name +:+ ": " +:+ str e)
    (Some "UNEXPECTED_ERROR")
    (<["original_exception" := PStr (class_name (cls e))]>
       (<["function_name" := PStr func_name]>
          (<["args" := PStr args_repr]>
             (<["kwargs" := PStr kwargs_repr]> ∅)))).

(** The delay slept after a retriable failure [e] of attempt number
    [attempt]: the exponential back-off, raised to the [retry_after] of
    the context when [e] is a [RateLimitError] that has an attribute
    [retry_after].  [max] of a number and a non-number is a
    [TypeError]. *)
Definition retry_sleep_time (attempt : Z) (e : exc) : result Q :=
  let delay := (retry_delay * backoff_factor ^ attempt)%Q in
  if isinstance e RateLimitError && hasattr e "retry_after" then
    match context e !! "retry_after" with
    | None => Ok (py_max delay delay)
    | Some (PInt n) => Ok (py_max delay (inject_Z n))
    | Some _ => Raise (foreign "TypeError" "'>' not supported")
    end
  else Ok delay.

(** The body of [for attempt in range(retry_count + 1)], with [n] the
    number of iterations left. *)
Fixpoint attempts (n : nat) (attempt : Z) (last_exception : option exc)
    : M (S * World) (option A) :=
  match n with
  | O =>
      (* after the loop *)
      match last_exception with
      | Some e => throw e
      | None => ret None
      end
  | Datatypes.S n' =>
      fun s =>
        match func s with
        | (Ok a, s') => (Ok (Some a), s')
        | (Raise e, s') =>
            if isinstance_any e retriable_exceptions then
              if attempt <? retry_count then
                (do delay <- lift_result (retry_sleep_time attempt e);
                 run time_sleep delay;
                 attempts n' (attempt + 1) (Some e)) s'
              else (Raise e, s')
            else if isinstance e FederalReserveETLError then (Raise e, s')
            else (Raise (wrapped_error e), s')
        end
  end.

(** [wrapper]: [None] is the fall-through of a loop that never ran. *)
Definition wrapper : M (S * World) (option A) :=
  attempts (Z.to_nat (retry_count + 1)) 0 None.

End handle_api_errors.

(** The default [retriable_exceptions]. *)
Definition default_retriable : list exc_class :=
  [ConnectionError; RateLimitError].

(** *** [validate_variable_codes] *)

(** The [variables] argument: one string or a list of entries. *)
Inductive variables_arg : Type :=
| OneVariable (s : string)
| VariableList (l : list pyval).

Definition var_list (variables : variables_arg) : list pyval :=
  match variables with
  | OneVariable s => [PStr s]
  | VariableList l => l
  end.

(** The loop over [var_list], with the two accumulators. *)
Fixpoint validate_loop (l : list pyval) (validated_vars invalid_vars : list string)
    : list string * list string :=
  match l with
  | [] => (validated_vars, invalid_vars)
  | PStr var :: rest =>
      let var_clean := PyStr.upper (PyStr.strip var) in
      if negb (PyStr.truthy var_clean) then
        validate_loop rest validated_vars
          (invalid_vars ++ ["'" +:+ var +:+ "' (empty)"])
      else if 50 <? PyStr.len var_clean then
        validate_loop rest validated_vars
          (invalid_vars ++ ["'" +:+ var +:+ "' (too long)"])
      else validate_loop rest (validated_vars ++ [var_clean]) invalid_vars
  | var :: rest =>
      validate_loop rest validated_vars
        (invalid_vars ++ [py_str var +:+ " (not string)"])
  end.

Definition validate_variable_codes (variables : variables_arg)
    : result (list string) :=
  let '(validated_vars, invalid_vars) :=
    validate_loop (var_list variables) [] [] in
  match invalid_vars with
  | _ :: _ =>
      let error_msg :=
        "Invalid variable codes: " +:+ PyStr.join ", " invalid_vars in
      Raise (new_ValidationError error_msg (Some "variables") None None
               (Some "INVALID_VARIABLES")
               (<["valid_variables" := PStrs validated_vars]>
                  (<["invalid_variables" := PStrs invalid_vars]> ∅)))
  | [] => Ok validated_vars
  end.

(** *** [validate_and_convert_dates] *)

(** A date argument.  A string comes with what
    [datetime.strptime(_, "%Y-%m-%d")] makes of it: the parsed instant, or
    [None] where it raises [ValueError]. *)
Inductive date_arg : Type :=
| DateString (parsed : option Z)
| DateTime (t : Z)
| DateNone.

(** [datetime(1900, 1, 1)] and [datetime(2030, 12, 31)] *)
Definition min_date : Z := 693595 * us_per_day.
Definition max_date : Z := 741441 * us_per_day.

Definition convert_date (d : date_arg) : result (option Z) :=
  match d with
  | DateString (Some t) => Ok (Some t)
  | DateString None =>
      (* the ValueError of strptime, converted by the except clause; its
         text, which ends the message and is the [actual] entry of the
         context, is not kept *)
      Raise (new_ValidationError "Invalid date format" (Some "date")
               (Some (PStr "%Y-%m-%d")) None (Some "INVALID_DATE_FORMAT") ∅)
  | DateTime t => Ok (Some t)
  | DateNone => Ok None
  end.

Definition validate_and_convert_dates (start_date end_date : date_arg)
    : result (Z * Z) :=
  match convert_date start_date with
  | Raise e => Raise e
  | Ok start =>
      match convert_date end_date with
      | Raise e => Raise e
      | Ok end_ =>
          match start, end_ with
          | Some start_dt, Some end_dt =>
              if end_dt <=? start_dt then
                Raise (new_ValidationError
                         "Start date must be before end date"
                         (Some "date_range")
                         (Some (PStr "start_date < end_date"))
                         (Some (PStr ("start_date="
                                        +:+ Calendar.isoformat start_dt
                                        +:+ ", end_date="
                                        +:+ Calendar.isoformat end_dt)))
                         (Some "INVALID_DATE_RANGE") ∅)
              else if (start_dt <? min_date) || (max_date <? end_dt) then
                Raise (new_ValidationError
                         "Dates must be between 1900-01-01 and 2030-12-31"
                         (Some "date_range")
                         (Some (PStr "1900-01-01 to 2030-12-31"))
                         (Some (PStr (Calendar.isoformat start_dt +:+ " to "
                                        +:+ Calendar.isoformat end_dt)))
                         (Some "DATE_OUT_OF_BOUNDS") ∅)
              else Ok (start_dt, end_dt)
          | _, _ =>
              (* comparing with None *)
              Raise (foreign "TypeError" "'>=' not supported")
          end
      end
  end.

End ErrorHandling.
Export ErrorHandling.

(** ** Python dictionaries that are iterated

    A [dict] keeps its keys in the order of their first insertion; setting
    an existing key replaces the value in place. *)

Module Dict.
Section dict.
Context {V : Type}.

Fixpoint set (k : string) (v : V) (d : list (string * V)) : list (string * V) :=
  match d with
  | [] => [(k, v)]
  | (k', v') :: rest =>
      if bool_decide (k' = k) then (k, v) :: rest
      else (k', v') :: set k v rest
  end.

Fixpoint lookup (k : string) (d : list (string * V)) : option V :=
  match d with
  | [] => None
  | (k', v') :: rest => if bool_decide (k' = k) then Some v' else lookup k rest
  end.

Definition keys (d : list (string * V)) : list string := d.*1.
End dict.
End Dict.

(** ** The part of pandas the clients use

    A [Timestamp] of the index is an instant ([Z]); a cell holds a number or
    NaN ([None]). *)

Module Pandas.

Definition cell : Type := option Q.

(** A [Series]: the index labels with their values, in order. *)
Definition Series : Type := list (Z * Q).

(** [pd.Series(dtype=float)] *)
Definition empty_Series : Series := [].

(** [pd.Series(values, index=dates)]: a [ValueError] when the two lists
    differ in length. *)
Definition new_Series (values : list Q) (index : list Z) : result Series :=
  if bool_decide (length values = length index) then Ok (zip index values)
  else Raise (foreign "ValueError"
                "Length of values does not match length of index").

(** [series.empty] *)
Definition Series_empty (s : Series) : bool :=
  match s with [] => true | _ => false end.

Definition Series_index (s : Series) : list Z := s.*1.
Definition Series_values (s : Series) : list Q := s.*2.

Definition Series_at (s : Series) (d : Z) : cell :=
  snd <$> List.find (fun p => bool_decide (fst p = d)) s.

(** [series.reindex(target)._values]: the values at the labels of
    [target], NaN where the series has none; a [ValueError] when the index
    of the series has duplicate labels. *)
Definition reindex (s : Series) (target : list Z) : result (list cell) :=
  if bool_decide (NoDup (Series_index s)) then Ok (Series_at s <$> target)
  else Raise (foreign "ValueError"
                "cannot reindex on an axis with duplicate labels").

(** A [DataFrame]: the row index and the columns in order. *)
Record DataFrame : Type := mk_DataFrame {
  index : list Z;
  columns : list (string * list cell)
}.

(** [pd.DataFrame()] *)
Definition empty_DataFrame : DataFrame := mk_DataFrame [] [].

(** [DataFrame._ensure_valid_index]: a frame without rows takes the index
    of the first non-empty series assigned to it. *)
Definition ensure_valid_index (df : DataFrame) (value : Series) : DataFrame :=
  match index df, value with
  | [], _ :: _ =>
      mk_DataFrame (Series_index value)
        ((fun '(k, _) => (k, replicate (length value) None)) <$> columns df)
  | _, _ => df
  end.

(** [_reindex_for_setitem]: the values as they are when the two indexes
    are equal or the frame has no rows, the series conformed to the index
    of the frame otherwise. *)
Definition reindex_for_setitem (value : Series) (df : DataFrame)
    : result (list cell) :=
  if bool_decide (Series_index value = index df) ||
     bool_decide (index df = [])
  then Ok (Some <$> Series_values value)
  else reindex value (index df).

(** [df[key] = value] for a series [value] *)
Definition setitem (df : DataFrame) (key : string) (value : Series)
    : result DataFrame :=
  let df := ensure_valid_index df value in
  match reindex_for_setitem value df with
  | Raise e => Raise e
  | Ok values => Ok (mk_DataFrame (index df) (Dict.set key values (columns df)))
  end.

Definition column_names (df : DataFrame) : list string := Dict.keys (columns df).

(** [df[key]] at the row labelled [d] (the first such row). *)
Definition at_ (df : DataFrame) (key : string) (d : Z) : option cell :=
  match Dict.lookup key (columns df) with
  | None => None
  | Some col =>
      match List.find (fun p => bool_decide (fst p = d)) (zip (index df) col) with
      | Some (_, c) => Some c
      | None => None
      end
  end.

End Pandas.
Export Pandas.

(** ** HTTP as the clients see it *)

Module Http.

(** What [session.get] does: raise one of the exceptions of [requests],
    or return a response with its status and, when the body is JSON, the
    decoded body. *)
Inductive reply (J : Type) : Type :=
| NoConnection (msg : string)   (* requests.exceptions.ConnectionError *)
| TimedOut (msg : string)       (* requests.exceptions.Timeout *)
| RequestError (msg : string)   (* another requests.exceptions.RequestException *)
| Response (status_code : Z) (body : option J).
Arguments NoConnection {J} msg.
Arguments TimedOut {J} msg.
Arguments RequestError {J} msg.
Arguments Response {J} status_code body.

(** [response.raise_for_status()] raises [HTTPError] on 4xx and 5xx. *)
Definition is_http_error (status_code : Z) : bool :=
  (400 <=? status_code) && (status_code <? 600).

(** The text of the [HTTPError], cut short: requests writes the status,
    the kind of error, the reason phrase the server sent and the URL of
    the request; only the status is kept here. *)
Definition http_error_text (status_code : Z) : string :=
  pretty status_code +:+ " Error".

(** A series request: [session.get], [raise_for_status], [json].  The
    result is the status with the decoded body, or the text and the response status of
    the [RequestException] raised on the way. *)
Definition fetch_json {J} (r : reply J) : (string * option Z) + (Z * J) :=
  match r with
  | NoConnection msg | TimedOut msg | RequestError msg => inl (msg, None)
  | Response status_code body =>
      if is_http_error status_code
      then inl (http_error_text status_code, Some status_code)
      else match body with
           | Some data => inr (status_code, data)
           | None => inl ("Expecting value", None)   (* JSONDecodeError *)
           end
  end.

End Http.
Export Http.

(** ** The [with] statement

    [with mgr: body].  [enter] is [mgr.__enter__()], [exit] is
    [mgr.__exit__(..)] applied to the exception that left the body, if any,
    and returns the truth value of what [__exit__] returns.  When
    [__enter__] raises, neither the body nor [__exit__] runs.  When the body
    raises, the exception is raised again after [__exit__] unless
    [__exit__] returned a true value; an exception of [__exit__] itself
    replaces it.  The result is [None] when the body was cut short and the
    exception suppressed. *)

Definition with_ {S A} (enter : M S unit) (exit : option exc -> M S bool)
    (body : M S A) : M S (option A) :=
  fun s =>
    match enter s with
    | (Raise e, s1) => (Raise e, s1)
    | (Ok _, s1) =>
        match body s1 with
        | (Ok a, s2) =>
            match exit None s2 with
            | (Ok _, s3) => (Ok (Some a), s3)
            | (Raise e', s3) => (Raise e', s3)
            end
        | (Raise e, s2) =>
            match exit (Some e) s2 with
            | (Ok suppress, s3) =>
                if suppress then (Ok None, s3) else (Raise e, s3)
            | (Raise e', s3) => (Raise e', s3)
            end
        end
    end.

(** ** What the two clients share *)

Module Common.

(** The common metadata record. *)
Record VariableMetadata : Type := mk_metadata {
  md_code : string;
  md_name : string;
  md_description : string;
  md_units : string;
  md_frequency : string;
  md_source : string;
  md_category : string;
  md_start_date : string;
  md_end_date : string
}.

(** [k in d] for an optional key *)
Definition present {A} (o : option A) : bool :=
  match o with Some _ => true | None => false end.

Definition the_self {S} : M (S * World) S := fun '(s, w) => (Ok s, (s, w)).
Definition update_self {S} (f : S -> S) : M (S * World) unit :=
  fun '(s, w) => (Ok tt, (f s, w)).

(** The typed configuration dictionary ([DataSourceConfig]); [None] is a
    missing key.  [retry_config] is stored by the constructors and never
    read, and is left out. *)
Record DataSourceConfig : Type := mk_config {
  cfg_base_url : option string;
  cfg_rate_limit : option Z;
  cfg_timeout : option Z;
  cfg_api_key : option string;
  cfg_username : option string;
  cfg_password : option string
}.

Definition empty_config : DataSourceConfig :=
  mk_config None None None None None None.

(** A call [f(a1, .., an, **kwargs)]: the arguments are bound before the
    body of [f] runs, and a keyword of [kwargs] that names a parameter
    already filled by position is refused with [TypeError].  [parameters]
    are the names filled by position, the receiver [self] included.  The
    message names one of the clashing keywords (the first one in the order
    of the dictionary, here the first one in the order of the parameters). *)
Definition multiple_values (func_name : string) (parameters : list string)
    (kwargs : gmap string pyval) : option exc :=
  match filter (fun p => present (kwargs !! p)) parameters with
  | [] => None
  | p :: _ =>
      Some (foreign "TypeError"
              (func_name +:+ "() got multiple values for argument '" +:+ p
                 +:+ "'"))
  end.

Definition call_with_keywords {S A} (func_name : string)
    (parameters : list string) (kwargs : gmap string pyval)
    (body : M S A) : M S A :=
  match multiple_values func_name parameters kwargs with
  | Some e => throw e
  | None => body
  end.

(** The loop [for variable in variable_list] of the two [get_data]
    methods, which is the same text in both clients.  [attempt] is the
    body of the [try] up to the fetched series (the rate limiter, then the
    fetch); [all_data] and [failed_variables] are the two accumulators. *)
Section loops.
Context {S : Type}.
Variable attempt : string -> M (S * World) Series.

Definition collect_one (variable : string)
    (all_data : list (string * Series)) (failed_variables : list string)
    : M (S * World) (list (string * Series) * list string) :=
  try_except
    (do series_data <- attempt variable;
     if negb (Series_empty series_data)
     then ret (Dict.set variable series_data all_data, failed_variables)
     else ret (all_data, failed_variables ++ [variable]))
    (fun _ => ret (all_data, failed_variables ++ [variable])).

Fixpoint collect (variable_list : list string)
    (all_data : list (string * Series)) (failed_variables : list string)
    : M (S * World) (list (string * Series) * list string) :=
  match variable_list with
  | [] => ret (all_data, failed_variables)
  | variable :: rest =>
      do acc <- collect_one variable all_data failed_variables;
      collect rest acc.1 acc.2
  end.
End loops.

(** [combined_df = pd.DataFrame()] followed by the loop
    [combined_df[variable] = series] over [all_data.items()]. *)
Fixpoint combine (items : list (string * Series)) (combined_df : DataFrame)
    : result DataFrame :=
  match items with
  | [] => Ok combined_df
  | (variable, series) :: rest =>
      match setitem combined_df variable series with
      | Raise e => Raise e
      | Ok df => combine rest df
      end
  end.

(** The loop of the two [get_metadata] methods; [fetch] is the body of
    the [try]. *)
Section metadata_loop.
Context {S : Type}.
Variable fetch : string -> gmap string VariableMetadata ->
                 M (S * World) (gmap string VariableMetadata).

Fixpoint metadata_loop (variable_list : list string)
    (metadata : gmap string VariableMetadata)
    : M (S * World) (gmap string VariableMetadata) :=
  match variable_list with
  | [] => ret metadata
  | variable :: rest =>
      do metadata <- try_except (fetch variable metadata)
                       (fun _ => ret metadata);
      metadata_loop rest metadata
  end.
End metadata_loop.

End Common.
Export Common.

(** ** The FRED client ([data_sources/fred_client.py]) *)

Module Fred.

(** One entry of ["observations"].  The [date] and [value] fields with
    what the parsers make of them. *)
Inductive date_field : Type :=
| DateMissing            (* no such key: KeyError *)
| DateBad                (* pd.to_datetime raises ValueError *)
| DateOk (d : Z).

Inductive value_field : Type :=
| ValueMissing           (* no such key: KeyError *)
| ValueDot               (* the string '.' *)
| ValueBad               (* float() raises ValueError *)
| ValueNull              (* JSON null: float() raises TypeError *)
| ValueNum (q : Q).

Record observation : Type := mk_observation {
  date : date_field;
  value : value_field
}.

(** One entry of ["seriess"]; [None] is a missing key. *)
Record SeriesInfo : Type := mk_series_info {
  title : option string;
  notes : option string;
  units : option string;
  frequency : option string;
  group : option string;
  observation_start : option string;
  observation_end : option string
}.

(** A decoded JSON object of the API; [None] is a missing key. *)
Record json : Type := mk_json {
  error_message : option string;
  observations : option (list observation);
  seriess : option (list SeriesInfo)
}.

(** The instance.  [session] is [true] for an open session and [false]
    for [None]; [source_name] is the attribute of the base class. *)
Record FREDDataSource : Type := mk_FRED {
  source_name : string;
  api_key : string;
  base_url : string;
  rate_limit : Z;
  timeout : Z;
  session : bool;
  is_connected : bool;
  last_request_time : Z;
  requests_this_minute : Z;
  minute_window_start : Z
}.

Definition set_session (b : bool) (self : FREDDataSource) : FREDDataSource :=
  mk_FRED (source_name self) (api_key self) (base_url self) (rate_limit self)
    (timeout self) b (is_connected self) (last_request_time self)
    (requests_this_minute self) (minute_window_start self).

Definition set_is_connected (b : bool) (self : FREDDataSource) : FREDDataSource :=
  mk_FRED (source_name self) (api_key self) (base_url self) (rate_limit self)
    (timeout self) (session self) b (last_request_time self)
    (requests_this_minute self) (minute_window_start self).

Definition set_last_request_time (t : Z) (self : FREDDataSource) : FREDDataSource :=
  mk_FRED (source_name self) (api_key self) (base_url self) (rate_limit self)
    (timeout self) (session self) (is_connected self) t
    (requests_this_minute self) (minute_window_start self).

Definition set_requests_this_minute (n : Z) (self : FREDDataSource) : FREDDataSource :=
  mk_FRED (source_name self) (api_key self) (base_url self) (rate_limit self)
    (timeout self) (session self) (is_connected self) (last_request_time self)
    n (minute_window_start self).

Definition set_minute_window_start (t : Z) (self : FREDDataSource) : FREDDataSource :=
  mk_FRED (source_name self) (api_key self) (base_url self) (rate_limit self)
    (timeout self) (session self) (is_connected self) (last_request_time self)
    (requests_this_minute self) t.

(** [_validate_api_key] *)
Definition _validate_api_key (api_key : pyval) : result string :=
  match api_key with
  | PStr k =>
      if negb (PyStr.truthy k) then
        Raise (new_ValidationError "FRED API key must be a non-empty string"
                 (Some "api_key") (Some (PStr "non-empty string"))
                 (Some (PStr "str")) None ∅)
      else if negb (PyStr.len k =? 32) ||
              negb (PyStr.isalnum (PyStr.remove_char "-" k)) then
        Raise (new_ValidationError
                 "FRED API key must be 32 character alphanumeric string"
                 (Some "api_key") (Some (PStr "32 character alphanumeric"))
                 (Some (PStr ("length " +:+ pretty (PyStr.len k)))) None ∅)
      else Ok k
  | v =>
      Raise (new_ValidationError "FRED API key must be a non-empty string"
               (Some "api_key") (Some (PStr "non-empty string"))
               (Some (PStr (match v with PNone => "NoneType" | PInt _ => "int"
                                    | _ => "list" end))) None ∅)
  end.

(** [__init__]: the base class sets [source_name] to ["Unknown Source"];
    the client sets the rest. *)
Definition __init__ (api_key : pyval) (config : option DataSourceConfig)
    : result FREDDataSource :=
  match _validate_api_key api_key with
  | Raise e => Raise e
  | Ok key =>
      let config := default empty_config config in
      Ok (mk_FRED "Unknown Source" key
            (default "https://api.stlouisfed.org/fred" (cfg_base_url config))
            (default 120 (cfg_rate_limit config))
            (default 30 (cfg_timeout config))
            false false 0 0 0)
  end.

(** [f"{x:.1f}"] of a positive number of seconds given in microseconds:
    rounded to tenths, ties to even.  The number is the exact one; the
    float of the code may lie a rounding error beside it, and so round the
    other way where the exact number is a tie. *)
Definition format_1f (us : Z) : string :=
  let q := us / 100000 in
  let r := us mod 100000 in
  let tenths := if 2 * r <? 100000 then q
                else if 100000 <? 2 * r then q + 1
                else if Z.even q then q else q + 1 in
  pretty (tenths / 10) +:+ "." +:+ pretty (tenths mod 10).

Definition minute : Z := 60 * 1000000.
Definition half_second : Z := 500000.

Section client.
(** The clock and the server: the reply to the [n]-th request, by URL
    and parameters. *)
Variable clock : nat -> Z.
Variable http : nat -> string -> gmap string pyval -> reply json.

Definition session_get (url : string) (params : gmap string pyval)
    : M (FREDDataSource * World) (reply json) :=
  do self <- the_self;
  if session self then
    do n <- count_request;
    ret (http n url params)
  else throw (foreign "AttributeError"
                "'NoneType' object has no attribute 'get'").

(** [_enforce_rate_limit] *)
Definition _enforce_rate_limit : M (FREDDataSource * World) unit :=
  do now <- datetime_now clock;
  do self <- the_self;
  (* Reset counter if we're in a new minute window *)
  run (if minute <=? now - minute_window_start self then
         update_self (fun self =>
           set_requests_this_minute 0 (set_minute_window_start now self))
       else ret tt);
  do self <- the_self;
  (* Check if we're at the rate limit *)
  run (if rate_limit self <=? requests_this_minute self then
         let seconds_to_wait := minute - (now - minute_window_start self) in
         if 0 <? seconds_to_wait then
           throw (new_RateLimitError
                    ("FRED API rate limit exceeded. Wait " +:+
                     format_1f seconds_to_wait +:+ " seconds")
                    (Some (rate_limit self)) None
                    (Some (Z.quot seconds_to_wait 1000000 + 1)) None ∅)
         else ret tt
       else ret tt);
  (* Ensure minimum time between requests (0.5 seconds) *)
  let time_since_last := now - last_request_time self in
  run (if time_since_last <? half_second then
         time_sleep ((1 # 2) - seconds time_since_last)%Q
       else ret tt);
  run update_self (fun self =>
        set_requests_this_minute (requests_this_minute self + 1) self);
  do now' <- datetime_now clock;
  update_self (set_last_request_time now').


(** The loop of [_fetch_series_observations] over the observations, in
    the order of its statements: [obs['date']], [obs['value']], the
    test for ['.'], [dates.append(pd.to_datetime(..))], then
    [values.append(float(..))].  [KeyError] and [ValueError] skip the
    entry; a [TypeError] leaves the function. *)
Fixpoint parse_observations (obs : list observation)
    (dates : list Z) (values : list Q) : result (list Z * list Q) :=
  match obs with
  | [] => Ok (dates, values)
  | o :: rest =>
      match date o with
      | DateMissing => parse_observations rest dates values
      | date_str =>
          match value o with
          | ValueMissing => parse_observations rest dates values
          | ValueDot => parse_observations rest dates values
          | value_str =>
              match date_str with
              | DateOk d =>
                  let dates := dates ++ [d] in
                  match value_str with
                  | ValueNum q => parse_observations rest dates (values ++ [q])
                  | ValueNull =>
                      Raise (foreign "TypeError"
                               "float() argument must be a string or a real number")
                  | _ => parse_observations rest dates values
                  end
              | _ => parse_observations rest dates values
              end
          end
      end
  end.

Definition set_opt (k : string) (v : option pyval)
    (d : gmap string pyval) : gmap string pyval :=
  match v with Some v => <[k := v]> d | None => d end.

(** [_fetch_series_observations] *)
Definition _fetch_series_observations (series_id start_date end_date : string)
    (kwargs : gmap string pyval) : M (FREDDataSource * World) Series :=
  do self <- the_self;
  let url := base_url self +:+ "/series/observations" in
  let params : gmap string pyval :=
    set_opt "units" (kwargs !! "transformation")
      (set_opt "aggregation_method" (kwargs !! "aggregation_method")
         (set_opt "frequency" (kwargs !! "frequency")
            (<["api_key" := PStr (api_key self)]>
               (<["series_id" := PStr series_id]>
                  (<["observation_start" := PStr start_date]>
                     (<["observation_end" := PStr end_date]>
                        (<["file_type" := PStr "json"]>
                           (<["sort_order" := PStr "asc"]> ∅)))))))) in
  do r <- session_get url params;
  match fetch_json r with
  | inl (msg, status) =>
      (* except requests.exceptions.RequestException *)
      throw (new_DataRetrievalError
               ("Failed to fetch FRED series " +:+ series_id +:+ ": " +:+ msg)
               (Some [series_id]) None status None ∅)
  | inr (status_code, data) =>
      match observations data with
      | None =>
          throw (new_DataRetrievalError
                   ("Invalid FRED API response format for series " +:+ series_id)
                   (Some [series_id]) None (Some status_code) None ∅)
      | Some [] => ret empty_Series
      | Some obs =>
          do parsed <- lift_result (parse_observations obs [] []);
          let '(dates, values) := parsed in
          match dates with
          | [] => ret empty_Series
          | _ => lift_result (new_Series values dates)
          end
      end
  end.

(** [get_data] *)
Definition get_data (variables : variables_arg) (start_date end_date : date_arg)
    (kwargs : gmap string pyval) : M (FREDDataSource * World) DataFrame :=
  do self <- the_self;
  if negb (is_connected self) then
    throw (new_ConnectionError
             "Not connected to FRED API. Call connect() first."
             None None None ∅)
  else
    do variable_list <- lift_result (validate_variable_codes variables);
    do dates <- lift_result (validate_and_convert_dates start_date end_date);
    let start_str := Calendar.strftime dates.1 in
    let end_str := Calendar.strftime dates.2 in
    do acc <- collect
                (fun variable =>
                   run _enforce_rate_limit;
                   call_with_keywords "FREDDataSource._fetch_series_observations"
                     ["self"; "series_id"; "start_date"; "end_date"] kwargs
                     (_fetch_series_observations variable start_str end_str
                        kwargs))
                variable_list [] [];
    match acc.1 with
    | [] =>
        throw (new_DataRetrievalError
                 "No data retrieved for any requested variables"
                 (Some variable_list) (Some (start_str, end_str)) None None ∅)
    | all_data => lift_result (combine all_data empty_DataFrame)
    end.

(** [validate_response] on a decoded JSON object *)
Definition validate_response (response_data : json) : result bool :=
  match error_message response_data with
  | Some msg =>
      Raise (new_ValidationError ("FRED API error: " +:+ msg)
               (Some "api_response") None (Some (PStr msg)) None ∅)
  | None =>
      match observations response_data with
      | Some (first_obs :: _) =>
          match date first_obs, value first_obs with
          | DateMissing, _ =>
              Raise (new_ValidationError
                       "FRED observation missing required field: date"
                       (Some "observation_structure")
                       (Some (PStrs ["date"; "value"])) None None ∅)
          | _, ValueMissing =>
              Raise (new_ValidationError
                       "FRED observation missing required field: value"
                       (Some "observation_structure")
                       (Some (PStrs ["date"; "value"])) None None ∅)
          | _, _ => Ok true
          end
      | _ => Ok true
      end
  end.

Definition metadata_of (variable : string) (series_info : SeriesInfo)
    : VariableMetadata :=
  mk_metadata variable
    (default "" (title series_info))
    (default "" (notes series_info))
    (default "" (units series_info))
    (default "" (frequency series_info))
    "FRED"
    (default "" (group series_info))
    (default "" (observation_start series_info))
    (default "" (observation_end series_info)).

(** One iteration of the loop of [get_metadata], inside its [try]. *)
Definition fetch_metadata (variable : string) (metadata : gmap string VariableMetadata)
    : M (FREDDataSource * World) (gmap string VariableMetadata) :=
  run _enforce_rate_limit;
  do self <- the_self;
  let url := base_url self +:+ "/series" in
  let params : gmap string pyval :=
    <["api_key" := PStr (api_key self)]>
      (<["series_id" := PStr variable]>
         (<["file_type" := PStr "json"]> ∅)) in
  do r <- session_get url params;
  match fetch_json r with
  | inl (msg, _) => throw (foreign "RequestException" msg)
  | inr (_, data) =>
      run lift_result (validate_response data);
      match seriess data with
      | Some (series_info :: _) =>
          ret (<[variable := metadata_of variable series_info]> metadata)
      | _ => ret metadata
      end
  end.

(** [get_metadata] *)
Definition get_metadata (variables : variables_arg)
    : M (FREDDataSource * World) (gmap string VariableMetadata) :=
  do self <- the_self;
  if negb (is_connected self) then
    throw (new_ConnectionError
             "Not connected to FRED API. Call connect() first."
             None None None ∅)
  else
    do variable_list <- lift_result (validate_variable_codes variables);
    metadata_loop fetch_metadata variable_list ∅.

(** [get_variable_metadata] *)
Definition get_variable_metadata (variable : string)
    : M (FREDDataSource * World) VariableMetadata :=
  do metadata_dict <- get_metadata (VariableList [PStr variable]);
  match metadata_dict !! variable with
  | Some m => ret m
  | None =>
      throw (new_DataRetrievalError
               ("No metadata found for variable " +:+ variable)
               (Some [variable]) None None None ∅)
  end.

(** [f"{self.api_key[:4]}...{self.api_key[-4:]}"] *)
Definition api_key_hint (key : string) : string :=
  String.substring 0 4 key +:+ "..." +:+
  String.substring (String.length key - 4) 4 key.

(** The body of [connect], before the decorator. *)
Definition connect_body : M (FREDDataSource * World) bool :=
  (* self.session = requests.Session() *)
  run update_self (set_session true);
  do self <- the_self;
  let test_url := base_url self +:+ "/series" in
  let test_params : gmap string pyval :=
    <["api_key" := PStr (api_key self)]>
      (<["series_id" := PStr "FEDFUNDS"]>
         (<["limit" := PInt 1]> (<["file_type" := PStr "json"]> ∅))) in
  do r <- session_get test_url test_params;
  match r with
  | NoConnection msg =>
      throw (new_ConnectionError ("Failed to connect to FRED API: " +:+ msg)
               (Some (base_url self)) None None ∅)
  | TimedOut msg =>
      throw (new_ConnectionError ("Connection timeout to FRED API: " +:+ msg)
               (Some (base_url self)) None None ∅)
  | RequestError msg => throw (foreign "RequestException" msg)
  | Response status_code body =>
      run (if status_code =? 400 then
             match body with
             | None => throw (foreign "JSONDecodeError" "Expecting value")
             | Some error_data =>
                 match error_message error_data with
                 | Some m =>
                     if PyStr.contains "api_key" (PyStr.lower m) then
                       throw (new_AuthenticationError
                                ("Invalid FRED API key: " +:+ m)
                                (Some (api_key_hint (api_key self)))
                                (Some "FRED") None ∅)
                     else ret tt
                 | None => ret tt
                 end
             end
           else ret tt);
      if is_http_error status_code then
        (* except requests.exceptions.HTTPError *)
        if status_code =? 401 then
          throw (new_AuthenticationError
                   "FRED API authentication failed - check API key"
                   (Some (api_key_hint (api_key self))) (Some "FRED") None ∅)
        else
          throw (new_ConnectionError
                   ("HTTP error connecting to FRED API: " +:+
                    http_error_text status_code)
                   (Some (base_url self)) (Some status_code) None ∅)
      else
        (* Initialize rate limiting *)
        do now <- datetime_now clock;
        run update_self (set_minute_window_start now);
        run update_self (set_requests_this_minute 1);
        do now' <- datetime_now clock;
        run update_self (set_last_request_time now');
        run update_self (set_is_connected true);
        ret true
  end.

(** [connect], decorated with
    [@handle_api_errors(retry_count=3, retry_delay=1.0, backoff_factor=2.0)] *)
Definition connect : M (FREDDataSource * World) (option bool) :=
  wrapper 3 1 2 default_retriable "connect" "(FREDDataSource(...),)" "{}"
    connect_body.

(** [disconnect] *)
Definition disconnect : M (FREDDataSource * World) unit :=
  run update_self (set_session false);
  update_self (set_is_connected false).

(** [__enter__] and [__exit__]; [__exit__] returns [None]. *)
Definition __enter__ : M (FREDDataSource * World) unit :=
  run connect; ret tt.

Definition __exit__ (exc_val : option exc) : M (FREDDataSource * World) bool :=
  run disconnect; ret false.


End client.
End Fred.

(** ** The Haver client ([data_sources/haver_client.py]) *)

Module Haver.

(** The [date] or [period] text of an entry, with what [pd.to_datetime]
    makes of it: parsed at once, parsed only with [format='%Y-%m'], or
    not at all ([ValueError]). *)
Inductive date_text : Type :=
| DateIso (d : Z)
| DateYearMonth (d : Z)
| DateUnparsable.

Inductive value_text : Type :=
| ValueNum (q : Q)
| ValueBad.             (* float() raises ValueError or TypeError *)

(** One entry of ["data"]; [None] is a missing key or a JSON null. *)
Record entry : Type := mk_entry {
  e_date : option date_text;
  e_period : option date_text;
  e_time : bool;                    (* the key 'time' is present *)
  e_value : option value_text
}.

Record MetaInfo : Type := mk_meta_info {
  name : option string;
  description : option string;
  units : option string;
  frequency : option string;
  category : option string;
  start_date : option string;
  end_date : option string
}.

(** A decoded JSON object of the API; [None] is a missing key. *)
Record json : Type := mk_json {
  error : option string;
  data : option (list entry);
  metadata : option MetaInfo
}.

Record HaverDataSource : Type := mk_Haver {
  source_name : string;
  username : string;
  password : string;
  base_url : string;
  rate_limit : Z;
  timeout : Z;
  session : bool;
  is_connected : bool;
  last_request_time : Z;
  min_request_interval : Q
}.

Definition set_session (b : bool) (self : HaverDataSource) : HaverDataSource :=
  mk_Haver (source_name self) (username self) (password self) (base_url self)
    (rate_limit self) (timeout self) b (is_connected self)
    (last_request_time self) (min_request_interval self).

Definition set_is_connected (b : bool) (self : HaverDataSource) : HaverDataSource :=
  mk_Haver (source_name self) (username self) (password self) (base_url self)
    (rate_limit self) (timeout self) (session self) b
    (last_request_time self) (min_request_interval self).

Definition set_last_request_time (t : Z) (self : HaverDataSource) : HaverDataSource :=
  mk_Haver (source_name self) (username self) (password self) (base_url self)
    (rate_limit self) (timeout self) (session self) (is_connected self)
    t (min_request_interval self).

Definition type_name (v : pyval) : string :=
  match v with
  | PNone => "NoneType"
  | PInt _ => "int"
  | PStr _ => "str"
  | PStrs _ => "list"
  end.

(** [_validate_username] *)
Definition _validate_username (username : pyval) : result string :=
  match username with
  | PStr u =>
      if negb (PyStr.truthy u) then
        Raise (new_ValidationError "Haver username must be a non-empty string"
                 (Some "username") (Some (PStr "non-empty string"))
                 (Some (PStr "str")) None ∅)
      else if PyStr.len (PyStr.strip u) <? 3 then
        Raise (new_ValidationError
                 "Haver username must be at least 3 characters long"
                 (Some "username") (Some (PStr "minimum 3 characters"))
                 (Some (PStr ("length " +:+ pretty (PyStr.len (PyStr.strip u)))))
                 None ∅)
      else Ok (PyStr.strip u)
  | v =>
      Raise (new_ValidationError "Haver username must be a non-empty string"
               (Some "username") (Some (PStr "non-empty string"))
               (Some (PStr (type_name v))) None ∅)
  end.

(** [_validate_password] *)
Definition _validate_password (password : pyval) : result string :=
  match password with
  | PStr p =>
      if negb (PyStr.truthy p) then
        Raise (new_ValidationError "Haver password must be a non-empty string"
                 (Some "password") (Some (PStr "non-empty string"))
                 (Some (PStr "str")) None ∅)
      else if PyStr.len p <? 6 then
        Raise (new_ValidationError
                 "Haver password must be at least 6 characters long"
                 (Some "password") (Some (PStr "minimum 6 characters"))
                 (Some (PStr ("length " +:+ pretty (PyStr.len p)))) None ∅)
      else Ok p
  | v =>
      Raise (new_ValidationError "Haver password must be a non-empty string"
               (Some "password") (Some (PStr "non-empty string"))
               (Some (PStr (type_name v))) None ∅)
  end.

(** [__init__]: the base class sets [source_name] to ["Unknown Source"];
    [1.0 / self.rate_limit] is a [ZeroDivisionError] for a limit of zero. *)
Definition __init__ (username password : pyval)
    (config : option DataSourceConfig) : result HaverDataSource :=
  match _validate_username username with
  | Raise e => Raise e
  | Ok u =>
      match _validate_password password with
      | Raise e => Raise e
      | Ok p =>
          let config := default empty_config config in
          let rate_limit := default 10 (cfg_rate_limit config) in
          if rate_limit =? 0 then
            Raise (foreign "ZeroDivisionError" "float division by zero")
          else
            Ok (mk_Haver "Unknown Source" u p
                  (default "https://api.haver.com/v1" (cfg_base_url config))
                  rate_limit
                  (default 45 (cfg_timeout config))
                  false false 0 (1 / inject_Z rate_limit)%Q)
      end
  end.

Section client.
Variable clock : nat -> Z.
Variable http : nat -> string -> gmap string pyval -> reply json.

Definition session_get (url : string) (params : gmap string pyval)
    : M (HaverDataSource * World) (reply json) :=
  do self <- the_self;
  if session self then
    do n <- count_request;
    ret (http n url params)
  else throw (foreign "AttributeError"
                "'NoneType' object has no attribute 'get'").

(** [_enforce_rate_limit]: it sleeps and never raises. *)
Definition _enforce_rate_limit : M (HaverDataSource * World) unit :=
  do now <- datetime_now clock;
  do self <- the_self;
  let time_since_last := seconds (now - last_request_time self) in
  run (if negb (Qle_bool (min_request_interval self) time_since_last) then
         let sleep_time := (min_request_interval self - time_since_last)%Q in
         time_sleep sleep_time
       else ret tt);
  do now' <- datetime_now clock;
  update_self (set_last_request_time now').

(** The loop of [_fetch_series_data] over the entries. *)
Fixpoint parse_entries (series_data : list entry)
    (dates : list Z) (values : list Q) : list Z * list Q :=
  match series_data with
  | [] => (dates, values)
  | entry :: rest =>
      let date_str :=
        match e_date entry with
        | Some d => Some d
        | None => e_period entry
        end in
      match date_str, e_value entry with
      | None, _ | _, None => parse_entries rest dates values
      | Some DateUnparsable, _ => parse_entries rest dates values
      | Some (DateIso d), Some value | Some (DateYearMonth d), Some value =>
          let dates := dates ++ [d] in
          match value with
          | ValueNum q => parse_entries rest dates (values ++ [q])
          | ValueBad => parse_entries rest dates values
          end
      end
  end.

Definition set_opt (k : string) (v : option pyval)
    (d : gmap string pyval) : gmap string pyval :=
  match v with Some v => <[k := v]> d | None => d end.

(** [_fetch_series_data] *)
Definition _fetch_series_data (series_code database start_date end_date : string)
    (kwargs : gmap string pyval) : M (HaverDataSource * World) Series :=
  do self <- the_self;
  let url := base_url self +:+ "/data/" +:+ database +:+ "/" +:+ series_code in
  let params : gmap string pyval :=
    set_opt "transformation" (kwargs !! "transformation")
      (set_opt "frequency" (kwargs !! "frequency")
         (<["start_date" := PStr start_date]>
            (<["end_date" := PStr end_date]>
               (<["format" := PStr "json"]> ∅)))) in
  do r <- session_get url params;
  match fetch_json r with
  | inl (msg, status) =>
      throw (new_DataRetrievalError
               ("Failed to fetch Haver series " +:+ series_code +:+ ": " +:+ msg)
               (Some [series_code]) None status None ∅)
  | inr (status_code, response) =>
      match data response with
      | None =>
          throw (new_DataRetrievalError
                   ("Invalid Haver API response format for series " +:+ series_code)
                   (Some [series_code]) None (Some status_code) None ∅)
      | Some [] => ret empty_Series
      | Some series_data =>
          let '(dates, values) := parse_entries series_data [] [] in
          match dates with
          | [] => ret empty_Series
          | _ => lift_result (new_Series values dates)
          end
      end
  end.

(** [get_data] *)
Definition get_data (variables : variables_arg) (start_date end_date : date_arg)
    (kwargs : gmap string pyval) : M (HaverDataSource * World) DataFrame :=
  do self <- the_self;
  if negb (is_connected self) then
    throw (new_ConnectionError
             "Not connected to Haver Analytics API. Call connect() first."
             None None None ∅)
  else
    do variable_list <- lift_result (validate_variable_codes variables);
    do dates <- lift_result (validate_and_convert_dates start_date end_date);
    let start_str := Calendar.strftime dates.1 in
    let end_str := Calendar.strftime dates.2 in
    let database := default "USECON" (py_str <$> kwargs !! "database") in
    do acc <- collect
                (fun variable =>
                   run _enforce_rate_limit;
                   call_with_keywords "HaverDataSource._fetch_series_data"
                     ["self"; "series_code"; "database"; "start_date"; "end_date"]
                     kwargs
                     (_fetch_series_data variable database start_str end_str
                        kwargs))
                variable_list [] [];
    match acc.1 with
    | [] =>
        throw (new_DataRetrievalError
                 "No data retrieved for any requested variables"
                 (Some variable_list) (Some (start_str, end_str)) None None ∅)
    | all_data => lift_result (combine all_data empty_DataFrame)
    end.

(** [validate_response] on a decoded JSON object *)
Definition validate_response (response_data : json) : result bool :=
  match error response_data with
  | Some error_msg =>
      Raise (new_ValidationError ("Haver API error: " +:+ error_msg)
               (Some "api_response") None (Some (PStr error_msg)) None ∅)
  | None =>
      match data response_data with
      | Some (first_entry :: _) =>
          let has_date :=
            present (e_date first_entry) || present (e_period first_entry)
            || e_time first_entry in
          let has_value := present (e_value first_entry) in
          if negb (has_date && has_value) then
            Raise (new_ValidationError
                     "Haver data entry missing date/value fields"
                     (Some "data_structure")
                     (Some (PStr "date and value fields")) None None ∅)
          else Ok true
      | _ => Ok true
      end
  end.

Definition metadata_of (variable : string) (meta_info : MetaInfo)
    : VariableMetadata :=
  mk_metadata variable
    (default "" (name meta_info))
    (default "" (description meta_info))
    (default "" (units meta_info))
    (default "" (frequency meta_info))
    "Haver"
    (default "" (category meta_info))
    (default "" (start_date meta_info))
    (default "" (end_date meta_info)).

(** One iteration of the loop of [get_metadata], inside its [try]. *)
Definition fetch_metadata (variable : string)
    (metadata_ : gmap string VariableMetadata)
    : M (HaverDataSource * World) (gmap string VariableMetadata) :=
  run _enforce_rate_limit;
  do self <- the_self;
  let url := base_url self +:+ "/metadata/" +:+ variable in
  do r <- session_get url ∅;
  match fetch_json r with
  | inl (msg, _) => throw (foreign "RequestException" msg)
  | inr (_, response) =>
      run lift_result (validate_response response);
      match metadata response with
      | Some meta_info =>
          ret (<[variable := metadata_of variable meta_info]> metadata_)
      | None => ret metadata_
      end
  end.

(** [get_metadata] *)
Definition get_metadata (variables : variables_arg)
    : M (HaverDataSource * World) (gmap string VariableMetadata) :=
  do self <- the_self;
  if negb (is_connected self) then
    throw (new_ConnectionError
             "Not connected to Haver Analytics API. Call connect() first."
             None None None ∅)
  else
    do variable_list <- lift_result (validate_variable_codes variables);
    metadata_loop fetch_metadata variable_list ∅.

(** [get_variable_metadata] *)
Definition get_variable_metadata (variable : string)
    : M (HaverDataSource * World) VariableMetadata :=
  do metadata_dict <- get_metadata (VariableList [PStr variable]);
  match metadata_dict !! variable with
  | Some m => ret m
  | None =>
      throw (new_DataRetrievalError
               ("No metadata found for variable " +:+ variable)
               (Some [variable]) None None None ∅)
  end.

(** The body of [connect], before the decorator. *)
Definition connect_body : M (HaverDataSource * World) bool :=
  run update_self (set_session true);
  do self <- the_self;
  let hint := username self +:+ ":***" in
  do r <- session_get (base_url self +:+ "/databases") ∅;
  match r with
  | NoConnection msg =>
      throw (new_ConnectionError
               ("Failed to connect to Haver Analytics API: " +:+ msg)
               (Some (base_url self)) None None ∅)
  | TimedOut msg =>
      throw (new_ConnectionError
               ("Connection timeout to Haver Analytics API: " +:+ msg)
               (Some (base_url self)) None None ∅)
  | RequestError msg => throw (foreign "RequestException" msg)
  | Response status_code body =>
      if status_code =? 401 then
        throw (new_AuthenticationError "Invalid Haver Analytics credentials"
                 (Some hint) (Some "Haver") None ∅)
      else if status_code =? 403 then
        throw (new_AuthenticationError
                 "Haver Analytics access denied - check subscription status"
                 (Some hint) (Some "Haver") None ∅)
      else if is_http_error status_code then
        throw (new_ConnectionError
                 ("HTTP error connecting to Haver Analytics API: " +:+
                  http_error_text status_code)
                 (Some (base_url self)) (Some status_code) None ∅)
      else
        do now <- datetime_now clock;
        run update_self (set_last_request_time now);
        run update_self (set_is_connected true);
        ret true
  end.

(** [connect], decorated with
    [@handle_api_errors(retry_count=3, retry_delay=2.0, backoff_factor=2.0)] *)
Definition connect : M (HaverDataSource * World) (option bool) :=
  wrapper 3 2 2 default_retriable "connect" "(HaverDataSource(...),)" "{}"
    connect_body.

(** [disconnect] *)
Definition disconnect : M (HaverDataSource * World) unit :=
  run update_self (set_session false);
  update_self (set_is_connected false).

(** [__enter__] and [__exit__]; [__exit__] returns [None]. *)
Definition __enter__ : M (HaverDataSource * World) unit :=
  run connect; ret tt.

Definition __exit__ (exc_val : option exc) : M (HaverDataSource * World) bool :=
  run disconnect; ret false.

End client.
End Haver.

(** ** The abstract base class ([data_sources/base.py])

    [connect] and [disconnect] are abstract; the context-manager methods
    are inherited by every client that does not define its own. *)

Module DataSource.
Section base.
Context {S : Type}.
Variable connect : M (S * World) (option bool).
Variable disconnect : M (S * World) unit.

Definition __enter__ : M (S * World) unit :=
  run connect; ret tt.

(** [__exit__] returns [False]. *)
Definition __exit__ (exc_val : option exc) : M (S * World) bool :=
  run disconnect; ret false.

End base.
End DataSource.

(** ** The factory ([data_sources/__init__.py]) *)

Module Factory.

Inductive source_class : Type :=
| FREDDataSource
| HaverDataSource.

#[global] Instance source_class_eq_dec : EqDecision source_class.
Proof. solve_decision. Defined.

Inductive instance : Type :=
| FredInstance (self : Fred.FREDDataSource)
| HaverInstance (self : Haver.HaverDataSource).

Definition class_of (i : instance) : source_class :=
  match i with
  | FredInstance _ => FREDDataSource
  | HaverInstance _ => HaverDataSource
  end.

Definition DATA_SOURCE_REGISTRY : list (string * source_class) :=
  [ ("fred", FREDDataSource);
    ("haver", HaverDataSource);
    ("FRED", FREDDataSource);
    ("HAVER", HaverDataSource);
    ("Haver", HaverDataSource);
    ("Fred", FREDDataSource) ].

(** [sorted(set(l))] on strings *)
Fixpoint insert_sorted (x : string) (l : list string) : list string :=
  match l with
  | [] => [x]
  | y :: rest =>
      match String.compare x y with
      | Lt => x :: l
      | Eq => l
      | Gt => y :: insert_sorted x rest
      end
  end.

Definition sorted_set (l : list string) : list string :=
  foldr insert_sorted [] l.

(** [repr] of a list of strings *)
Definition repr_list (l : list string) : string :=
  "[" +:+ PyStr.join ", " ((fun s => "'" +:+ s +:+ "'") <$> l) +:+ "]".

Definition available_sources : list string :=
  sorted_set (PyStr.lower <$> Dict.keys DATA_SOURCE_REGISTRY).

(** [a or b] *)
Definition py_or (a b : pyval) : pyval := if py_truthy a then a else b.

Definition get_or_none (kwargs : gmap string pyval) (k : string) : pyval :=
  default PNone (kwargs !! k).

Definition str_or_none (o : option string) : pyval :=
  match o with Some s => PStr s | None => PNone end.

(** A call [cls(.., **kwargs_clean)] with a keyword the constructor does
    not have is a [TypeError]. *)
Definition unexpected_keyword (kwargs_clean : gmap string pyval) : option exc :=
  match map_to_list kwargs_clean with
  | [] => None
  | (k, _) :: _ =>
      Some (foreign "TypeError"
              ("__init__() got an unexpected keyword argument '" +:+ k +:+ "'"))
  end.

Section factory.
(** [os.environ] *)
Variable environ : gmap string string.

Definition getenv (k : string) : pyval := str_or_none (environ !! k).

(** [_create_fred_source] *)
Definition _create_fred_source (config : DataSourceConfig)
    (kwargs : gmap string pyval) : result instance :=
  let api_key :=
    py_or (py_or (get_or_none kwargs "api_key") (str_or_none (cfg_api_key config)))
      (getenv "FRED_API_KEY") in
  if negb (py_truthy api_key) then
    Raise (new_ConfigurationError
             "FRED API key is required. Provide via api_key parameter or FRED_API_KEY environment variable"
             (Some "api_key") None None ∅)
  else
    let kwargs_clean := delete "api_key" kwargs in
    match unexpected_keyword kwargs_clean with
    | Some e => Raise e
    | None =>
        match Fred.__init__ api_key (Some config) with
        | Raise e => Raise e
        | Ok self => Ok (FredInstance self)
        end
    end.

(** [_create_haver_source] *)
Definition _create_haver_source (config : DataSourceConfig)
    (kwargs : gmap string pyval) : result instance :=
  let username :=
    py_or (py_or (get_or_none kwargs "username") (str_or_none (cfg_username config)))
      (getenv "HAVER_USERNAME") in
  let password :=
    py_or (py_or (get_or_none kwargs "password") (str_or_none (cfg_password config)))
      (getenv "HAVER_PASSWORD") in
  if negb (py_truthy username) then
    Raise (new_ConfigurationError
             "Haver username is required. Provide via username parameter or HAVER_USERNAME environment variable"
             (Some "username") None None ∅)
  else if negb (py_truthy password) then
    Raise (new_ConfigurationError
             "Haver password is required. Provide via password parameter or HAVER_PASSWORD environment variable"
             (Some "password") None None ∅)
  else
    let kwargs_clean := delete "password" (delete "username" kwargs) in
    match unexpected_keyword kwargs_clean with
    | Some e => Raise e
    | None =>
        match Haver.__init__ username password (Some config) with
        | Raise e => Raise e
        | Ok self => Ok (HaverInstance self)
        end
    end.

(** [create_data_source] *)
Definition create_data_source (source_type : pyval)
    (config : option DataSourceConfig) (kwargs : gmap string pyval)
    : result instance :=
  match source_type with
  | PStr source_type_str =>
      if negb (PyStr.truthy source_type_str) then
        Raise (new_ConfigurationError "source_type must be a non-empty string"
                 (Some "source_type") None None ∅)
      else
        (* Normalize source type *)
        let source_key := PyStr.strip source_type_str in
        match Dict.lookup source_key DATA_SOURCE_REGISTRY with
        | None =>
            Raise (new_ConfigurationError
                     ("Unsupported data source: '" +:+ source_type_str +:+
                      "'. Available sources: " +:+ repr_list available_sources)
                     (Some "source_type") None None ∅)
        | Some source_class =>
            let final_config := default empty_config config in
            let created :=
              match source_class with
              | FREDDataSource => _create_fred_source final_config kwargs
              | HaverDataSource => _create_haver_source final_config kwargs
              end in
            match created with
            | Ok i => Ok i
            | Raise e =>
                (* except Exception as e *)
                Raise (new_ConfigurationError
                         ("Failed to create data source '" +:+ source_type_str +:+
                          "': " +:+ str e)
                         (Some "source_instantiation") None None ∅)
            end
        end
  | _ =>
      Raise (new_ConfigurationError "source_type must be a non-empty string"
               (Some "source_type") None None ∅)
  end.

End factory.
End Factory.

(** * Scenarios

    Test doubles and drivers used to state the properties: sequences of
    calls, clocks and servers. *)

Module Scenarios.


(** A clock that starts at [t0] and advances by [step] microseconds from
    one reading to the next. *)
Definition steady_clock (t0 step : Z) : nat -> Z :=
  fun n => t0 + step * Z.of_nat n.

(** The instant 2023-01-01 00:00:00. *)
Definition jan_1_2023 : Z := 738520 * us_per_day.

Definition a_key : string := "12345678901234567890123456789012".

(** A FRED server that answers every request with an empty 200 response. *)
Definition fred_ok : nat -> string -> gmap string pyval -> reply Fred.json :=
  fun _ _ _ => Response 200 (Some (Fred.mk_json None None None)).

(** A FRED client as [FREDDataSource(api_key=a_key, config={'rate_limit':
    limit})] leaves it. *)
Definition fred_client (limit : Z) : Fred.FREDDataSource :=
  Fred.mk_FRED "Unknown Source" a_key "https://api.stlouisfed.org/fred"
    limit 30 false false 0 0 0.

(** One more reading of the clock. *)
Definition tick (w : World) : World := mk_World (S (ticks w)) (sent w) (slept w).

(** The exception of a full window, raised at the reading [now]. *)
Definition limit_error (self : Fred.FREDDataSource) (now : Z) : exc :=
  let seconds_to_wait := Fred.minute - (now - Fred.minute_window_start self) in
  new_RateLimitError
    ("FRED API rate limit exceeded. Wait " +:+ Fred.format_1f seconds_to_wait
     +:+ " seconds")
    (Some (Fred.rate_limit self)) None
    (Some (Z.quot seconds_to_wait 1000000 + 1)) None ∅.

(** What a request that is let through leaves behind, given the window
    start and the count it found after the reset test. *)
Definition admitted (clock : nat -> Z) (self : Fred.FREDDataSource) (w : World)
    (start count : Z) : Fred.FREDDataSource * World :=
  let now := clock (ticks w) in
  (Fred.set_last_request_time (clock (S (ticks w)))
     (Fred.set_requests_this_minute (count + 1)
        (Fred.set_minute_window_start start self)),
   mk_World (S (S (ticks w))) (sent w)
     (if now - Fred.last_request_time self <? Fred.half_second
      then slept w ++ [((1 # 2) - seconds (now - Fred.last_request_time self))%Q]
      else slept w)).

End Scenarios.

Module RetryScenarios.

(** An operation that fails with the exceptions of a list, one call after
    the other, and then returns [a].  Its state is the number of calls made
    so far and the failures still to come. *)
Definition flaky {A} (a : A) : M ((nat * list exc) * World) A :=
  fun '((calls, failures), w) =>
    match failures with
    | e :: rest => (Raise e, ((S calls, rest), w))
    | [] => (Ok a, ((S calls, []), w))
    end.

(** The delays [retry_delay * backoff_factor ^ i] for [i = first, ..,
    first + n - 1]. *)
Definition backoff_delays (retry_delay backoff_factor : Q) (first n : nat) : list Q :=
  (fun i => (retry_delay * backoff_factor ^ Z.of_nat i)%Q) <$> seq first n.

(** The largest float, and the longest sleep the time type of C holds
    (2^63 - 1 nanoseconds), in seconds. *)
Definition float_max : Q := inject_Z (2 ^ 1024 - 2 ^ 971).
Definition sleep_max : Q := 9223372036854775807 # 1000000000.

(** The back-off delay of attempt [attempt] can be computed and slept:
    the power is within the floats, and the delay is a length that
    [time.sleep] accepts. *)
Definition sleepable (retry_delay backoff_factor : Q) (attempt : nat) : Prop :=
  (- float_max <= backoff_factor ^ Z.of_nat attempt)%Q /\
  (backoff_factor ^ Z.of_nat attempt <= float_max)%Q /\
  (0 <= retry_delay * backoff_factor ^ Z.of_nat attempt)%Q /\
  (retry_delay * backoff_factor ^ Z.of_nat attempt <= sleep_max)%Q.

(** [RateLimitError("slow down", limit=120, retry_after=60)] *)
Definition rate_limited : exc :=
  new_RateLimitError "slow down" (Some 120) None (Some 60) None ∅.

End RetryScenarios.

(** * The validation of variable codes, in the words of the specification *)

Module VariableCodes.

(** The uppercase-trimmed form of a code. *)
Definition normal_form (s : string) : string := PyStr.upper (PyStr.strip s).

(** Why an entry is invalid, if it is: not a string, empty once trimmed,
    or longer than 50 characters once trimmed. *)
Definition complaint (v : pyval) : option string :=
  match v with
  | PStr s =>
      if bool_decide (normal_form s = "") then Some ("'" +:+ s +:+ "' (empty)")
      else if bool_decide (50 < PyStr.len (normal_form s))
           then Some ("'" +:+ s +:+ "' (too long)")
           else None
  | v => Some (py_str v +:+ " (not string)")
  end.

(** The normal form of a valid entry. *)
Definition accepted (v : pyval) : option string :=
  match v, complaint v with
  | PStr s, None => Some (normal_form s)
  | _, _ => None
  end.

(** The characters of a code according to the data model: letters, digits,
    underscore and hyphen. *)
Definition code_char (a : ascii) : bool :=
  PyStr.isalnum_char a || Ascii.eqb a "_" || Ascii.eqb a "-".

End VariableCodes.

(** * The factory, in the words of the specification *)

Module FactoryScenarios.
Import Factory.

(** The spellings under which a client class is registered. *)
Definition spellings (c : source_class) : list string :=
  match c with
  | FREDDataSource => ["fred"; "FRED"; "Fred"]
  | HaverDataSource => ["haver"; "HAVER"; "Haver"]
  end.

(** The keyword arguments [username=u, password=p]. *)
Definition credentials (u p : string) : gmap string pyval :=
  <["username" := PStr u]> (<["password" := PStr p]> ∅).

(** The exception for an identifier that is not registered. *)
Definition unsupported (source_type : string) : exc :=
  new_ConfigurationError
    ("Unsupported data source: '" +:+ source_type +:+
     "'. Available sources: ['fred', 'haver']")
    (Some "source_type") None None ∅.

End FactoryScenarios.

(** * Scoped acquisition: what leaves the scope *)

Module Scope.

(** What a [with] block yields when [__exit__] does not suppress: the
    result of the body, or the exception that left it. *)
Definition outcome {A} (body_result : result A) : result (option A) :=
  match body_result with
  | Ok a => Ok (Some a)
  | Raise e => Raise e
  end.

End Scope.

(** * Sources that do not have a variable *)

Module Absent.

(** A reply of the FRED [series] endpoint that describes a series: a
    response without an error status whose ["seriess"] list has an entry. *)
Definition fred_describes (r : reply Fred.json) : bool :=
  match r with
  | Response status_code (Some data) =>
      negb (is_http_error status_code) &&
      match Fred.seriess data with Some (_ :: _) => true | _ => false end
  | _ => false
  end.

(** The FRED source does not have the series [v]: no request for [v]
    gets a reply that describes a series. *)
Definition fred_absent (http : nat -> string -> gmap string pyval -> reply Fred.json)
    (v : string) : Prop :=
  forall n url params,
    params !! "series_id" = Some (PStr v) ->
    fred_describes (http n url params) = false.

(** A reply of the Haver [metadata] endpoint that describes a series. *)
Definition haver_describes (r : reply Haver.json) : bool :=
  match r with
  | Response status_code (Some data) =>
      negb (is_http_error status_code) && present (Haver.metadata data)
  | _ => false
  end.

(** The Haver source does not have the series [v]. *)
Definition haver_absent (http : nat -> string -> gmap string pyval -> reply Haver.json)
    (v : string) : Prop :=
  forall n base_url params,
    haver_describes (http n (base_url +:+ "/metadata/" +:+ v) params) = false.

(** A variable code: a string that validation accepts and leaves as it
    is. *)
Definition is_variable_code (v : string) : Prop :=
  validate_variable_codes (VariableList [PStr v]) = Ok [v].

(** A connected FRED client and a connected Haver client. *)
Definition connected_fred : Fred.FREDDataSource :=
  Fred.set_is_connected true (Fred.set_session true (Scenarios.fred_client 120)).

Definition haver_client : Haver.HaverDataSource :=
  Haver.mk_Haver "Unknown Source" "test_user" "test_password"
    "https://api.haver.com/v1" 10 45 false false 0 (1 / inject_Z 10)%Q.

Definition connected_haver : Haver.HaverDataSource :=
  Haver.set_is_connected true (Haver.set_session true haver_client).

(** A FRED server that has the one series [known]: a request for it gets
    a description, any other request a 400. *)
Definition fred_knows (known : string)
    : nat -> string -> gmap string pyval -> reply Fred.json :=
  fun _ _ params =>
    if bool_decide (params !! "series_id" = Some (PStr known)) then
      Response 200
        (Some (Fred.mk_json None None
                 (Some [Fred.mk_series_info (Some "Federal Funds Effective Rate")
                          None (Some "Percent") (Some "Monthly") None
                          (Some "1954-07-01") None])))
    else
      Response 400
        (Some (Fred.mk_json (Some "Bad Request.  The series does not exist.")
                 None None)).

(** A Haver server that has nothing: every request gets a 404. *)
Definition haver_empty : nat -> string -> gmap string pyval -> reply Haver.json :=
  fun _ _ _ => Response 404 None.

End Absent.

(** * Which variables yield data *)

Module DataScenarios.

(** The body of the [try] of each client's loop: the rate limiter, then
    the call of the fetch with the keyword arguments of [get_data]. *)
Definition fred_attempt (clock : nat -> Z)
    (http : nat -> string -> gmap string pyval -> reply Fred.json)
    (start_str end_str : string) (kwargs : gmap string pyval)
    : string -> M (Fred.FREDDataSource * World) Series :=
  fun variable =>
    run Fred._enforce_rate_limit clock;
    call_with_keywords "FREDDataSource._fetch_series_observations"
      ["self"; "series_id"; "start_date"; "end_date"] kwargs
      (Fred._fetch_series_observations http variable start_str end_str kwargs).

Definition haver_attempt (clock : nat -> Z)
    (http : nat -> string -> gmap string pyval -> reply Haver.json)
    (database start_str end_str : string) (kwargs : gmap string pyval)
    : string -> M (Haver.HaverDataSource * World) Series :=
  fun variable =>
    run Haver._enforce_rate_limit clock;
    call_with_keywords "HaverDataSource._fetch_series_data"
      ["self"; "series_code"; "database"; "start_date"; "end_date"] kwargs
      (Haver._fetch_series_data http variable database start_str end_str
         kwargs).

(** The variables that yield data in one call, in the order in which they
    are asked for, each with its series: those whose attempt returns a
    series that is not empty. *)
Fixpoint yielded {S} (attempt : string -> M (S * World) Series)
    (variable_list : list string) (s : S * World) : list (string * Series) :=
  match variable_list with
  | [] => []
  | variable :: rest =>
      match attempt variable s with
      | (Ok series, s') =>
          if Series_empty series then yielded attempt rest s'
          else (variable, series) :: yielded attempt rest s'
      | (Raise _, s') => yielded attempt rest s'
      end
  end.

(** The dictionary [all_data] after the series of [Y] were stored in [d],
    one after the other. *)
Definition stored (Y d : list (string * Series)) : list (string * Series) :=
  fold_left (fun d '(v, sr) => Dict.set v sr d) Y d.

(** The series of [all_data] can be put into one table by the assignments
    [combined_df[variable] = series]: the first one gives the table its
    index, and each later one either has that very index or has no date
    twice (so that it can be conformed to that index). *)
Definition conforming (all_data : list (string * Series)) : Prop :=
  match all_data with
  | [] => True
  | (_, first) :: rest =>
      Forall (fun p => Series_index p.2 = Series_index first \/
                       NoDup (Series_index p.2)) rest
  end.


(** The date range of January 2023 and three days of it. *)
Definition jan_2_2023 : Z := 738521 * us_per_day.
Definition jan_3_2023 : Z := 738522 * us_per_day.
Definition jan_4_2023 : Z := 738523 * us_per_day.
Definition jan_31_2023 : Z := 738550 * us_per_day.

(** A FRED server with a monthly and a daily series: [FEDFUNDS] has one
    observation, on the first of the month; [DGS10] has none on the first
    and second (a holiday, reported as ['.']) and one on each of the third
    and fourth.  Every other series is unknown. *)
Definition fred_two_series
    : nat -> string -> gmap string pyval -> reply Fred.json :=
  fun _ _ params =>
    match params !! "series_id" with
    | Some (PStr id) =>
        if bool_decide (id = "FEDFUNDS") then
          Response 200
            (Some (Fred.mk_json None
                     (Some [Fred.mk_observation (Fred.DateOk Scenarios.jan_1_2023)
                              (Fred.ValueNum (433 # 100))])
                     None))
        else if bool_decide (id = "DGS10") then
          Response 200
            (Some (Fred.mk_json None
                     (Some [Fred.mk_observation (Fred.DateOk jan_2_2023) Fred.ValueDot;
                            Fred.mk_observation (Fred.DateOk jan_3_2023)
                              (Fred.ValueNum (379 # 100));
                            Fred.mk_observation (Fred.DateOk jan_4_2023)
                              (Fred.ValueNum (369 # 100))])
                     None))
        else
          Response 400
            (Some (Fred.mk_json (Some "Bad Request.  The series does not exist.")
                     None None))
    | _ => Response 400 None
    end.


(** A Haver server with the one series [GDP], reported by period; every
    other request gets a 404. *)
Definition haver_one_series
    : nat -> string -> gmap string pyval -> reply Haver.json :=
  fun _ url _ =>
    if bool_decide (url = "https://api.haver.com/v1/data/USECON/GDP") then
      Response 200
        (Some (Haver.mk_json None
                 (Some [Haver.mk_entry None
                          (Some (Haver.DateYearMonth Scenarios.jan_1_2023))
                          false (Some (Haver.ValueNum (26813 # 1)))])
                 None))
    else Response 404 None.

End DataScenarios.

(** ** The concrete methods of the base class ([data_sources/base.py])

    [DataSource] has its own rate limiter, which the two clients override,
    a report of its state, and a connection test written over the abstract
    [connect] and [disconnect]. *)

Module BaseClass.

(** The attributes the limiter uses. *)
Record DataSourceState : Type := mk_state {
  rate_limit : Z;
  _last_request_time : option Z;
  _request_count : Z
}.

Definition set__last_request_time (t : option Z) (self : DataSourceState)
    : DataSourceState :=
  mk_state (rate_limit self) t (_request_count self).

Definition set__request_count (n : Z) (self : DataSourceState)
    : DataSourceState :=
  mk_state (rate_limit self) (_last_request_time self) n.

(** [timedelta.seconds] of a difference given in microseconds: the seconds
    within the day, the days being counted apart (and downwards for a
    negative difference). *)
Definition timedelta_seconds (us : Z) : Z := (us / 1000000) mod 86400.

(** The result of [get_rate_limit_status]. *)
Record RateLimitStatus : Type := mk_status {
  limit : Z;
  used : Z;
  remaining : Z;
  reset_time : option Z
}.

(** [get_rate_limit_status] *)
Definition get_rate_limit_status (self : DataSourceState) : RateLimitStatus :=
  mk_status (rate_limit self) (_request_count self)
    (Z.max 0 (rate_limit self - _request_count self)) None.

Section limiter.
Variable clock : nat -> Z.

(** [_enforce_rate_limit] *)
Definition _enforce_rate_limit : M (DataSourceState * World) unit :=
  do now <- datetime_now clock;
  do self <- the_self;
  (* Reset counter if more than a minute has passed *)
  run (if match _last_request_time self with
          | None => true
          | Some last => Fred.minute <? now - last
          end
       then
         run update_self (set__request_count 0);
         update_self (set__last_request_time (Some now))
       else ret tt);
  do self <- the_self;
  (* If we're at the rate limit, wait until next minute *)
  run (if rate_limit self <=? _request_count self then
         match _last_request_time self with
         | None =>
             throw (foreign "TypeError"
                      "unsupported operand type(s) for -")
         | Some last =>
             let wait_time := 60 - timedelta_seconds (now - last) in
             if 0 <? wait_time then
               run time_sleep (inject_Z wait_time);
               run update_self (set__request_count 0);
               do now' <- datetime_now clock;
               update_self (set__last_request_time (Some now'))
             else ret tt
         end
       else ret tt);
  update_self (fun self => set__request_count (_request_count self + 1) self).

End limiter.

Section test_connection.
Context {S : Type}.
(** [connect] as the clients have it, decorated: it returns [True] or,
    through the decorator, [None]. *)
Variable connect : M (S * World) (option bool).
Variable disconnect : M (S * World) unit.

(** [test_connection] *)
Definition test_connection : M (S * World) bool :=
  try_except
    (do connected <- connect;
     if match connected with Some true => true | _ => false end then
       run disconnect;
       ret true
     else ret false)
    (fun _ => ret false).

End test_connection.
End BaseClass.

(** ** [ErrorContext] ([utils/error_handling.py])

    The context manager reads the clock on entry and again on exit; on the
    error path it runs the cleanup function, if there is one, inside a
    [try] of its own, and it never suppresses the exception. *)

Module ErrorContext.
Section context.
Context {U : Type}.
Variable clock : nat -> Z.
(** The state is the attribute [start_time] with the state of the caller,
    on which the cleanup function acts. *)
Variable cleanup_func : option (M ((option Z * U) * World) unit).

Definition __enter__ : M ((option Z * U) * World) unit :=
  do now <- datetime_now clock;
  update_self (fun self => (Some now, self.2)).

Definition __exit__ (exc_val : option exc) : M ((option Z * U) * World) bool :=
  do self <- the_self;
  do duration <- match self.1 with
                 | Some start_time =>
                     do now <- datetime_now clock;
                     ret (Some (now - start_time))
                 | None => ret None
                 end;
  match exc_val with
  | None => ret false
  | Some _ =>
      run match cleanup_func with
          | Some cleanup => try_except cleanup (fun _ => ret tt)
          | None => ret tt
          end;
      ret false
  end.

End context.
End ErrorContext.

(** ** More of the registry ([data_sources/__init__.py]) *)

Module Registry.
Import Factory.

Definition __name__ (c : source_class) : string :=
  match c with
  | FREDDataSource => "FREDDataSource"
  | HaverDataSource => "HaverDataSource"
  end.

(** [get_available_sources] *)
Definition get_available_sources : list (string * string) :=
  fold_left
    (fun unique_sources '(key, cls) =>
       if bool_decide (PyStr.lower key ∈ Dict.keys unique_sources)
       then unique_sources
       else Dict.set (PyStr.lower key) (__name__ cls) unique_sources)
    DATA_SOURCE_REGISTRY [].

(** [DATA_SOURCE_REGISTRY.get(k, d)] *)
Definition registry_get (k : string) (d : option source_class)
    : option source_class :=
  match Dict.lookup k DATA_SOURCE_REGISTRY with
  | Some c => Some c
  | None => d
  end.

(** [validate_source_config]; [config.get(k, d)] is [d] for a missing
    key. *)
Definition validate_source_config (source_type : string)
    (config : DataSourceConfig) : result bool :=
  if negb (bool_decide (PyStr.lower source_type ∈ Dict.keys get_available_sources))
  then
    Raise (new_ConfigurationError ("Unknown source type: " +:+ source_type)
             None None None ∅)
  else
    let source_class :=
      registry_get source_type
        (Dict.lookup (PyStr.lower source_type) DATA_SOURCE_REGISTRY) in
    match source_class with
    | Some FREDDataSource =>
        let api_key :=
          default "test-key-32-characters-long-test" (cfg_api_key config) in
        match Fred._validate_api_key (PStr api_key) with
        | Raise e => Raise e
        | Ok _ => Ok true
        end
    | Some HaverDataSource =>
        let username := default "testuser" (cfg_username config) in
        let password := default "testpass" (cfg_password config) in
        match Haver._validate_username (PStr username) with
        | Raise e => Raise e
        | Ok _ =>
            match Haver._validate_password (PStr password) with
            | Raise e => Raise e
            | Ok _ => Ok true
            end
        end
    | None => Ok true
    end.

End Registry.

(** ** The command line ([extract_fed_data.py]) *)

Module Cli.

(** [s.split(sep)] for a one-character [sep] *)
Fixpoint split (sep : ascii) (s : string) : list string :=
  match s with
  | EmptyString => [EmptyString]
  | String a s' =>
      if Ascii.eqb a sep then EmptyString :: split sep s'
      else match split sep s' with
           | first :: rest => String a first :: rest
           | [] => [String a EmptyString]
           end
  end.

(** The loop of [parse_variables] over the cleaned codes: the first code
    that is too long or has a character outside letters, digits, [_] and
    [-] ends the call. *)
Fixpoint basic_validation (variables : list string) : option exc :=
  match variables with
  | [] => None
  | var :: rest =>
      if 50 <? PyStr.len var then
        Some (new_ValidationError ("Variable code too long: " +:+ var)
                (Some "variable_length") None None None ∅)
      else if negb (PyStr.isalnum
                      (PyStr.remove_char "-" (PyStr.remove_char "_" var))) then
        Some (new_ValidationError ("Invalid variable code format: " +:+ var)
                (Some "variable_format") None None None ∅)
      else basic_validation rest
  end.

(** [parse_variables] *)
Definition parse_variables (variable_string : string) : result (list string) :=
  if negb (PyStr.truthy variable_string) ||
     negb (PyStr.truthy (PyStr.strip variable_string)) then
    Raise (new_ValidationError "Variable list cannot be empty"
             (Some "variables") None None None ∅)
  else
    (* Split by comma and clean up *)
    let variables :=
      (fun var => PyStr.upper (PyStr.strip var)) <$> split "," variable_string in
    let variables := filter (fun var => PyStr.truthy var = true) variables in
    match variables with
    | [] =>
        Raise (new_ValidationError "No valid variable codes found"
                 (Some "variables") None None None ∅)
    | _ =>
        match basic_validation variables with
        | Some e => Raise e
        | None => Ok variables
        end
    end.

End Cli.

(** ** Servers, as [connect] sees them *)

Module ConnectScenarios.

(** One more request sent. *)
Definition bump (w : World) : World :=
  mk_World (ticks w) (S (sent w)) (slept w).

(** A reply that [connect] reports as a [ConnectionError]: no connection,
    a timeout, or a server error. *)
Definition unavailable {J} (r : reply J) : Prop :=
  match r with
  | NoConnection _ | TimedOut _ => True
  | Response status_code _ => 500 <= status_code < 600
  | RequestError _ => False
  end.

(** A server that cannot be reached, and one that refuses the
    credentials. *)
Definition down {J} : nat -> string -> gmap string pyval -> reply J :=
  fun _ _ _ => NoConnection "Connection refused".

(** A server that refuses the connection of every other request and
    answers the rest with a 503. *)
Definition flaky_server {J} : nat -> string -> gmap string pyval -> reply J :=
  fun n _ _ =>
    if Nat.even n then NoConnection "Connection refused"
    else Response 503 None.

Definition refusing {J} (status_code : Z)
    : nat -> string -> gmap string pyval -> reply J :=
  fun _ _ _ => Response status_code None.

End ConnectScenarios.

(** ** Observations, as the parsers see them *)

Module ParseScenarios.

(** The point of a FRED observation whose date and value both parse. *)
Definition numeric (o : Fred.observation) : option (Z * Q) :=
  match Fred.date o, Fred.value o with
  | Fred.DateOk d, Fred.ValueNum q => Some (d, q)
  | _, _ => None
  end.

(** A FRED observation with a date that parses and a value that is
    neither a number nor ['.']. *)
Definition poisons (o : Fred.observation) : bool :=
  match Fred.date o, Fred.value o with
  | Fred.DateOk _, (Fred.ValueBad | Fred.ValueNull) => true
  | _, _ => false
  end.

(** The date text of a Haver entry: ['date'], or ['period'] when ['date']
    is missing. *)
Definition date_str (e : Haver.entry) : option Haver.date_text :=
  match Haver.e_date e with
  | Some d => Some d
  | None => Haver.e_period e
  end.

Definition parsed_date (t : Haver.date_text) : option Z :=
  match t with
  | Haver.DateIso d | Haver.DateYearMonth d => Some d
  | Haver.DateUnparsable => None
  end.

(** The point of a Haver entry whose date and value both parse. *)
Definition haver_numeric (e : Haver.entry) : option (Z * Q) :=
  match date_str e ≫= parsed_date, Haver.e_value e with
  | Some d, Some (Haver.ValueNum q) => Some (d, q)
  | _, _ => None
  end.

(** A Haver entry with a date that parses and a value that does not. *)
Definition haver_poisons (e : Haver.entry) : bool :=
  match date_str e ≫= parsed_date, Haver.e_value e with
  | Some _, Some Haver.ValueBad => true
  | _, _ => false
  end.

(** A server that answers every request with the same response. *)
Definition always {J} (status_code : Z) (body : J)
    : nat -> string -> gmap string pyval -> reply J :=
  fun _ _ _ => Response status_code (Some body).

End ParseScenarios.

(** ** Columns *)

Module TableScenarios.

(** The column a series becomes in a table that has the rows [idx]: its
    value at each of those dates, NaN where it has none. *)
Definition conformed (idx : list Z) (p : string * Series)
    : string * list cell :=
  (p.1, Series_at p.2 <$> idx).

End TableScenarios.

(** ** Where a credential comes from *)

Module CredentialScenarios.

(** A configuration dictionary with the key ['api_key']. *)
Definition with_api_key (k : option string) (config : DataSourceConfig)
    : DataSourceConfig :=
  mk_config (cfg_base_url config) (cfg_rate_limit config) (cfg_timeout config)
    k (cfg_username config) (cfg_password config).

(** A configuration dictionary with the key ['rate_limit']. *)
Definition with_rate_limit (r : Z) (config : DataSourceConfig)
    : DataSourceConfig :=
  mk_config (cfg_base_url config) (Some r) (cfg_timeout config)
    (cfg_api_key config) (cfg_username config) (cfg_password config).

(** The environment with or without [FRED_API_KEY]. *)
Definition fred_env (k : option string) : gmap string string :=
  match k with
  | Some k => <["FRED_API_KEY" := k]> ∅
  | None => ∅
  end.

(** The keyword arguments [api_key=k], or none. *)
Definition fred_kwargs (k : option string) : gmap string pyval :=
  match k with
  | Some k => <["api_key" := PStr k]> ∅
  | None => ∅
  end.

(** [a or b or c] on optional strings: the first that is given and not
    empty. *)
Definition first_given (l : list (option string)) : option string :=
  List.find (fun o => match o with Some s => PyStr.truthy s | None => false end) l
  ≫= id.

End CredentialScenarios.

(** ** Strings without white space *)

Module Spaces.

(** No character of [s] is one that [strip] removes. *)
Definition no_space (s : string) : bool :=
  PyStr.forall_chars (fun a => negb (PyStr.isspace_char a)) s.

End Spaces.

(** * Properties *)

(** ** Sleeping *)

Module Sleep.

Lemma time_sleep_returns {S} (d : Q) (s : S) (w : World) :
  (0 <= d)%Q ->
  time_sleep d (s, w)
  = (Ok tt, (s, mk_World (ticks w) (sent w) (slept w ++ [d]))).
Proof.
  intros Hd. unfold time_sleep.
  rewrite (proj2 (Qle_bool_iff 0 d) Hd). reflexivity.
Qed.

Lemma time_sleep_refuses {S} (d : Q) (s : S * World) :
  (d < 0)%Q ->
  time_sleep d s
  = (Raise (foreign "ValueError" "sleep length must be non-negative"), s).
Proof.
  intros Hd. unfold time_sleep.
  destruct (Qle_bool 0 d) eqn:E; [|reflexivity].
  apply Qle_bool_iff in E. exfalso. exact (Qlt_not_le _ _ Hd E).
Qed.

(** The spacing sleep of the FRED limiter is not negative. *)
Lemma spacing_nonneg (us : Z) :
  us < 500000 -> (0 <= (1 # 2) - seconds us)%Q.
Proof. intros H. unfold seconds, Qle, Qminus, Qplus, Qopp. cbn. lia. Qed.

Lemma whole_seconds_nonneg (n : Z) : 0 <= n -> (0 <= inject_Z n)%Q.
Proof. intros H. unfold Qle, inject_Z. cbn. lia. Qed.

End Sleep.

(** ** The FRED rate limiter *)

Module FredLimiter.
Import Fred Scenarios.

Ltac run_monad :=
  unfold bind, ret, throw, try_except, the_self, update_self, datetime_now,
    lift_result, count_request; simpl.

Lemma raise_in_window clock self w :
  clock (ticks w) - minute_window_start self < minute ->
  rate_limit self <= requests_this_minute self ->
  _enforce_rate_limit clock (self, w) =
    (Raise (limit_error self (clock (ticks w))), (self, tick w)).
Proof.
  intros Hwin Hfull. unfold _enforce_rate_limit, limit_error. run_monad.
  destruct (minute <=? _) eqn:E; [lia|]. simpl.
  destruct (rate_limit self <=? _) eqn:E2; [|lia].
  destruct (0 <? _) eqn:E3; [|lia].
  reflexivity.
Qed.

Lemma ok_in_window clock self w :
  clock (ticks w) - minute_window_start self < minute ->
  requests_this_minute self < rate_limit self ->
  _enforce_rate_limit clock (self, w) =
    (Ok tt, admitted clock self w (minute_window_start self)
              (requests_this_minute self)).
Proof.
  intros Hwin Hroom. unfold _enforce_rate_limit, admitted. run_monad.
  destruct (minute <=? _) eqn:E; [lia|]. simpl.
  destruct (rate_limit self <=? _) eqn:E2; [lia|]. simpl.
  destruct self; simpl in *.
  destruct (Z.ltb_spec (clock (ticks w) - last_request_time0) half_second);
    [rewrite Sleep.time_sleep_returns by (apply Sleep.spacing_nonneg; assumption)|];
    reflexivity.
Qed.

Lemma ok_new_window clock self w :
  minute <= clock (ticks w) - minute_window_start self ->
  0 < rate_limit self ->
  _enforce_rate_limit clock (self, w) =
    (Ok tt, admitted clock self w (clock (ticks w)) 0).
Proof.
  intros Hwin Hpos. unfold _enforce_rate_limit, admitted. run_monad.
  destruct (minute <=? _) eqn:E; [|lia]. simpl.
  destruct (rate_limit self <=? 0) eqn:E2; [lia|]. simpl.
  destruct self; simpl in *.
  destruct (Z.ltb_spec (clock (ticks w) - last_request_time0) half_second);
    [rewrite Sleep.time_sleep_returns by (apply Sleep.spacing_nonneg; assumption)|];
    reflexivity.
Qed.

(** With a limit of zero or less, a call read in a new window raises
    after the reset. *)
Lemma raise_new_window clock self w :
  minute <= clock (ticks w) - minute_window_start self ->
  rate_limit self <= 0 ->
  exists e,
    _enforce_rate_limit clock (self, w) =
      (Raise e,
       (set_requests_this_minute 0
          (set_minute_window_start (clock (ticks w)) self), tick w)) /\
    cls e = RateLimitError.
Proof.
  intros Hwin Hlim. unfold _enforce_rate_limit. run_monad.
  destruct (minute <=? _) eqn:E; [|lia]. simpl.
  destruct (rate_limit self <=? 0) eqn:E2; [|lia].
  rewrite Z.sub_diag, Z.sub_0_r.
  change (0 <? minute) with true. cbv iota.
  eexists. split; reflexivity.
Qed.

#[local] Arguments Nat.mul : simpl never.
#[local] Arguments Z.mul : simpl never.





(** C10, as amended: a raise of the limiter is a [RateLimitError].  Read
    less than 60 seconds after the window start, it leaves the client
    exactly as it was (the world has one more clock reading).  Read 60
    seconds or more after the window start, which happens only with a limit
    of zero or less, it comes after the window reset: the counter is 0 and
    the window starts at the reading, the time of the last request being
    kept.  So with a positive limit every raise falls inside the window and
    leaves the client as it was. *)
Theorem raise_leaves_state clock self w e s' :
  _enforce_rate_limit clock (self, w) = (Raise e, s') ->
  cls e = RateLimitError /\
  (clock (ticks w) - minute_window_start self < minute ->
     s' = (self, tick w)) /\
  (minute <= clock (ticks w) - minute_window_start self ->
     rate_limit self <= 0 /\
     s' = (set_requests_this_minute 0
             (set_minute_window_start (clock (ticks w)) self), tick w)) /\
  (0 < rate_limit self ->
     clock (ticks w) - minute_window_start self < minute /\
     s' = (self, tick w)).
Proof.
  intros Hrun.
  destruct (Z_lt_le_dec (clock (ticks w) - minute_window_start self) minute)
    as [Hin | Hout].
  - destruct (Z_lt_le_dec (requests_this_minute self) (rate_limit self))
      as [Hroom | Hfull].
    + rewrite ok_in_window in Hrun by assumption. discriminate.
    + rewrite raise_in_window in Hrun by assumption.
      injection Hrun as <- <-.
      split; [reflexivity|]. split; [reflexivity|].
      split; [lia|]. intros _. split; [assumption | reflexivity].
  - destruct (Z_lt_le_dec 0 (rate_limit self)) as [Hpos | Hlim].
    + rewrite ok_new_window in Hrun by assumption. discriminate.
    + destruct (raise_new_window clock self w Hout Hlim) as (e0 & He0 & Hcls).
      rewrite He0 in Hrun. injection Hrun as <- <-.
      split; [assumption|]. split; [lia|].
      split; [intros _; split; [assumption | reflexivity] | lia].
Qed.

Lemma raise_leaves_state_witness :
  let clock := steady_clock jan_1_2023 1000000 in
  let self := set_requests_this_minute 2
                (set_minute_window_start jan_1_2023 (fred_client 2)) in
  exists e,
    _enforce_rate_limit clock (self, world0) = (Raise e, (self, tick world0)) /\
    cls e = RateLimitError.
Proof.
  intros clock self.
  destruct (_enforce_rate_limit clock (self, world0)) as [[u | e] s'] eqn:Hrun;
    [vm_compute in Hrun; discriminate|].
  destruct (raise_leaves_state clock self world0 e s' Hrun)
    as (Hcls & _ & _ & Hpos).
  destruct Hpos as [_ ->]; [vm_compute; reflexivity|].
  exists e. split; [reflexivity | assumption].
Defined.

(** C10 as stated fails: a client configured with [rate_limit = 0] that
    connects and asks the limiter two clock readings later, 122 seconds
    after the probe, gets [RateLimitError], and the raise comes after the
    window reset, so the counter has gone from 1 to 0 and the window start
    has moved. *)
Lemma raise_after_reset_changes_state :
  let clock := steady_clock jan_1_2023 61000000 in
  let connected := Fred.connect clock fred_ok (fred_client 0, world0) in
  let limited := _enforce_rate_limit clock connected.2 in
  fred_client 0 =
    match Fred.__init__ (PStr a_key)
            (Some (mk_config None (Some 0) None None None None)) with
    | Ok self => self
    | Raise _ => fred_client 1
    end /\
  connected.1 = Ok (Some true) /\
  raises limited.1 RateLimitError /\
  requests_this_minute connected.2.1 = 1 /\
  requests_this_minute limited.2.1 = 0 /\
  minute_window_start connected.2.1 = jan_1_2023 /\
  minute_window_start limited.2.1 = jan_1_2023 + 122000000.
Proof. vm_compute. repeat split; reflexivity. Qed.
End FredLimiter.

(** ** The retry decorator *)

Module Retry.
Import RetryScenarios.

(** No instance of the hierarchy has an attribute [retry_after]: the value
    lives in the context only. *)
Lemma no_retry_after_attribute e : hasattr e "retry_after" = false.
Proof. reflexivity. Qed.

Section wrapper.
Context {A : Type}.
Variables (retry_count : Z) (retry_delay backoff_factor : Q).
Variable retriable_exceptions : list exc_class.
Variables func_name args_repr kwargs_repr : string.

(** The delay slept is the exponential back-off, whatever the failure. *)
Lemma retry_sleep_time_is_backoff attempt e :
  retry_sleep_time retry_delay backoff_factor attempt e
  = Ok (retry_delay * backoff_factor ^ attempt)%Q.
Proof.
  unfold retry_sleep_time. rewrite no_retry_after_attribute, andb_false_r.
  reflexivity.
Qed.

Lemma attempts_flaky (a : A) (failures : list exc) :
  forall (n i calls : nat) (w : World) (last : option exc),
  Forall (fun e => isinstance_any e retriable_exceptions = true) failures ->
  (forall j, (i <= j < i + length failures)%nat ->
     sleepable retry_delay backoff_factor j) ->
  (length failures < n)%nat ->
  Z.of_nat i + Z.of_nat (length failures) <= retry_count ->
  attempts retry_count retry_delay backoff_factor retriable_exceptions
    func_name args_repr kwargs_repr (flaky a) n (Z.of_nat i) last
    ((calls, failures), w)
  = (Ok (Some a),
     ((S (calls + length failures), []),
      mk_World (ticks w) (sent w)
        (slept w ++ backoff_delays retry_delay backoff_factor i (length failures)))).
Proof.
  induction failures as [|e rest IH];
    intros n i calls w last Hall Hsleep Hn Hcount.
  - destruct n as [|n]; [simpl in Hn; lia|].
    simpl. rewrite Nat.add_0_r, app_nil_r. destruct w; reflexivity.
  - destruct n as [|n]; [simpl in Hn; lia|].
    inversion Hall as [|? ? He Hrest]; subst.
    cbn [attempts flaky]. rewrite He.
    simpl length in Hcount, Hsleep.
    destruct (Z.of_nat i <? retry_count) eqn:E; [|lia].
    unfold bind, lift_result. rewrite retry_sleep_time_is_backoff.
    rewrite Sleep.time_sleep_returns by (apply (Hsleep i); lia).
    cbn [fst snd].
    replace (Z.of_nat i + 1) with (Z.of_nat (S i)) by lia.
    rewrite IH; [| assumption | intros j Hj; apply Hsleep; lia
                 | simpl in Hn; lia | lia].
    cbn [ticks sent slept length].
    unfold backoff_delays. cbn [seq fmap list_fmap].
    rewrite <- app_assoc. cbn [app].
    replace (S (S calls + length rest)) with (S (calls + S (length rest))) by lia.
    reflexivity.
Qed.

(** An operation that fails with retriable errors no more than
    [retry_count] times and then succeeds: the wrapper returns its result
    after as many retries as there were failures, and has slept
    [retry_delay * backoff_factor ^ i] after the failure of attempt [i]. *)
Lemma retries_then_succeeds (a : A) (failures : list exc) (w : World) :
  Forall (fun e => isinstance_any e retriable_exceptions = true) failures ->
  (forall j, (j < length failures)%nat ->
     sleepable retry_delay backoff_factor j) ->
  Z.of_nat (length failures) <= retry_count ->
  wrapper retry_count retry_delay backoff_factor retriable_exceptions
    func_name args_repr kwargs_repr (flaky a) ((0%nat, failures), w)
  = (Ok (Some a),
     ((S (length failures), []),
      mk_World (ticks w) (sent w)
        (slept w ++ backoff_delays retry_delay backoff_factor 0 (length failures)))).
Proof.
  intros Hall Hsleep Hcount. unfold wrapper.
  apply (attempts_flaky a failures _ 0%nat 0%nat w None Hall);
    [intros j Hj; apply Hsleep; lia | lia | lia].
Qed.

(** Two retriable failures, then success: three calls, two sleeps. *)
Lemma two_failures_then_success (a : A) (e1 e2 : exc) (w : World) :
  isinstance_any e1 retriable_exceptions = true ->
  isinstance_any e2 retriable_exceptions = true ->
  sleepable retry_delay backoff_factor 0 ->
  sleepable retry_delay backoff_factor 1 ->
  2 <= retry_count ->
  wrapper retry_count retry_delay backoff_factor retriable_exceptions
    func_name args_repr kwargs_repr (flaky a) ((0%nat, [e1; e2]), w)
  = (Ok (Some a),
     ((3%nat, []),
      mk_World (ticks w) (sent w)
        (slept w ++ [(retry_delay * backoff_factor ^ 0)%Q;
                     (retry_delay * backoff_factor ^ 1)%Q]))).
Proof.
  intros H1 H2 Hs0 Hs1 Hcount.
  apply (retries_then_succeeds a [e1; e2] w); [| |simpl; lia].
  - repeat constructor; assumption.
  - intros [|[|j]] Hj; [assumption | assumption | simpl in Hj; lia].
Qed.

End wrapper.

(** The delays of the default schedules are valid lengths. *)
Lemma sleepable_by_computation (retry_delay backoff_factor : Q) (attempt : nat) :
  Qle_bool (- float_max) (backoff_factor ^ Z.of_nat attempt) = true ->
  Qle_bool (backoff_factor ^ Z.of_nat attempt) float_max = true ->
  Qle_bool 0 (retry_delay * backoff_factor ^ Z.of_nat attempt) = true ->
  Qle_bool (retry_delay * backoff_factor ^ Z.of_nat attempt) sleep_max = true ->
  sleepable retry_delay backoff_factor attempt.
Proof.
  intros H1 H2 H3 H4. repeat split; apply Qle_bool_iff; assumption.
Qed.

(** C3 at a failing input: the operation fails once with a
    [RateLimitError] whose context carries [retry_after = 60] and then
    succeeds, under [retry_delay = 1.0] and [backoff_factor = 2.0].  The
    wrapper sleeps the back-off delay of one second, not the 60 seconds of
    the hint: [hasattr(e, 'retry_after')] is false, because
    [RateLimitError.__init__] stores the hint in the context only. *)
Lemma retry_after_hint_ignored :
  context rate_limited !! "retry_after" = Some (PInt 60) /\
  isinstance rate_limited RateLimitError = true /\
  wrapper 3 1 2 default_retriable "fetch" "()" "{}" (flaky "done")
    ((0%nat, [rate_limited]), world0)
  = (Ok (Some "done"), ((2%nat, []), mk_World 0 0 [(1 * 2 ^ 0)%Q])) /\
  ((1 * 2 ^ 0)%Q < 60)%Q.
Proof.
  split; [reflexivity|]. split; [reflexivity|]. split.
  - apply (retries_then_succeeds (A := string) 3 1 2 default_retriable
             "fetch" "()" "{}" "done" [rate_limited] world0).
    + repeat constructor.
    + intros [|j] Hj; [|simpl in Hj; lia].
      apply sleepable_by_computation; vm_compute; reflexivity.
    + simpl. lia.
  - reflexivity.
Qed.
End Retry.

(** ** The validation of variable codes *)

Module ValidateVariableCodes.
Import VariableCodes.

Lemma truthy_empty s : PyStr.truthy s = negb (bool_decide (s = "")).
Proof. destruct s; reflexivity. Qed.

Lemma validate_loop_spec l : forall validated_vars invalid_vars,
  validate_loop l validated_vars invalid_vars
  = (validated_vars ++ omap accepted l, invalid_vars ++ omap complaint l).
Proof.
  induction l as [|v l IH]; intros validated_vars invalid_vars.
  - simpl. rewrite !app_nil_r. reflexivity.
  - destruct v as [ | z | s | ss ];
      try (cbn [validate_loop omap list_omap accepted complaint];
           rewrite IH, <- app_assoc; reflexivity).
    cbn [validate_loop omap list_omap accepted complaint].
    fold (normal_form s). rewrite truthy_empty, negb_involutive.
    destruct (bool_decide (normal_form s = "")).
    + rewrite IH, <- app_assoc. reflexivity.
    + destruct (50 <? PyStr.len (normal_form s)) eqn:E.
      * rewrite bool_decide_true by lia.
        rewrite IH, <- app_assoc. reflexivity.
      * rewrite bool_decide_false by lia.
        rewrite IH, <- app_assoc. reflexivity.
Qed.

(** C6, as amended: the validator returns the uppercase-trimmed forms of
    the entries, in order, when every entry is valid; an entry is invalid
    when it is not a string, or is empty or longer than 50 characters once
    trimmed (the character set is not looked at); with an invalid entry
    the validator raises [ValidationError], and the message lists every
    invalid entry, in order. *)
Theorem validate_variable_codes_spec (variables : variables_arg) :
  validate_variable_codes variables =
    match omap complaint (var_list variables) with
    | [] => Ok (omap accepted (var_list variables))
    | invalid_vars =>
        Raise (new_ValidationError
                 ("Invalid variable codes: " +:+ PyStr.join ", " invalid_vars)
                 (Some "variables") None None (Some "INVALID_VARIABLES")
                 (<["valid_variables" := PStrs (omap accepted (var_list variables))]>
                    (<["invalid_variables" := PStrs invalid_vars]> ∅)))
    end.
Proof.
  unfold validate_variable_codes. rewrite validate_loop_spec. simpl.
  destruct (omap complaint (var_list variables)); reflexivity.
Qed.

(** When every entry is a valid string, the result is the list of the
    normal forms. *)
Lemma valid_codes_are_normalized (codes : list string) :
  Forall (fun s => complaint (PStr s) = None) codes ->
  validate_variable_codes (VariableList (PStr <$> codes))
  = Ok (normal_form <$> codes).
Proof.
  intros Hall. unfold validate_variable_codes, var_list.
  rewrite validate_loop_spec. cbn [app].
  assert (Hc : omap complaint (PStr <$> codes) = []).
  { induction Hall as [|s l Hs _ IH]; [reflexivity|].
    cbn [fmap list_fmap omap list_omap]. rewrite Hs. exact IH. }
  assert (Ha : omap accepted (PStr <$> codes) = normal_form <$> codes).
  { clear Hc. induction Hall as [|s l Hs _ IH]; [reflexivity|].
    cbn [fmap list_fmap omap list_omap]. unfold accepted at 1. rewrite Hs.
    f_equal. exact IH. }
  rewrite Hc, Ha. reflexivity.
Qed.

(** C6 as stated fails: ["FED$FUNDS"] has a character outside letters,
    digits, underscore and hyphen, and the validator returns it. *)
Lemma charset_is_not_checked :
  PyStr.forall_chars code_char "FED$FUNDS" = false /\
  validate_variable_codes (VariableList [PStr "FED$FUNDS"]) = Ok ["FED$FUNDS"].
Proof. split; reflexivity. Qed.

End ValidateVariableCodes.

(** ** The factory *)

Module FactoryProps.
Import Factory FactoryScenarios.

Lemma registry_lookup key :
  Dict.lookup key DATA_SOURCE_REGISTRY =
    if bool_decide (key ∈ spellings FREDDataSource) then Some FREDDataSource
    else if bool_decide (key ∈ spellings HaverDataSource) then Some HaverDataSource
    else None.
Proof.
  unfold DATA_SOURCE_REGISTRY, spellings. cbn [Dict.lookup].
  repeat match goal with
  | |- context [bool_decide (?a = key)] =>
      destruct (bool_decide_reflect (a = key)) as [<- | ?]; [reflexivity|]
  end.
  rewrite !bool_decide_false; [reflexivity | |];
    rewrite !elem_of_cons, elem_of_nil; intuition congruence.
Qed.

Lemma lower_of_spelling c key :
  key ∈ spellings c ->
  PyStr.lower key = match c with
                    | FREDDataSource => "fred"
                    | HaverDataSource => "haver"
                    end.
Proof.
  destruct c; unfold spellings; rewrite !elem_of_cons, elem_of_nil;
    intros [-> | [-> | [-> | []]]]; reflexivity.
Qed.

Lemma spelling_lookup c key :
  key ∈ spellings c -> Dict.lookup key DATA_SOURCE_REGISTRY = Some c.
Proof.
  destruct c; unfold spellings; rewrite !elem_of_cons, elem_of_nil;
    intros [-> | [-> | [-> | []]]]; reflexivity.
Qed.

Lemma spelling_nonempty c s : PyStr.strip s ∈ spellings c -> PyStr.truthy s = true.
Proof.
  destruct s; [|reflexivity].
  destruct c; unfold spellings; cbn; rewrite !elem_of_cons, elem_of_nil;
    intuition discriminate.
Qed.

Lemma long_is_truthy u n : 0 < n -> n <= PyStr.len u -> PyStr.truthy u = true.
Proof. destruct u; [unfold PyStr.len; simpl; lia | reflexivity]. Qed.

Lemma stripped_long_is_truthy u n :
  0 < n -> n <= PyStr.len (PyStr.strip u) -> PyStr.truthy u = true.
Proof. destruct u; [unfold PyStr.len; simpl; lia | reflexivity]. Qed.

Lemma credentials_lookup u p :
  get_or_none (credentials u p) "username" = PStr u /\
  get_or_none (credentials u p) "password" = PStr p /\
  delete "password" (delete "username" (credentials u p)) = ∅.
Proof.
  unfold get_or_none, credentials. split; [|split].
  - rewrite lookup_insert_eq. reflexivity.
  - rewrite lookup_insert_ne by done. rewrite lookup_insert_eq. reflexivity.
  - rewrite delete_insert_eq, delete_insert_ne by done.
    rewrite delete_insert_eq, !delete_empty. reflexivity.
Qed.

Lemma fred_source_class environ config kwargs i :
  _create_fred_source environ config kwargs = Ok i ->
  class_of i = FREDDataSource.
Proof.
  unfold _create_fred_source.
  destruct (negb _); [discriminate|].
  destruct (unexpected_keyword _); [discriminate|].
  destruct (Fred.__init__ _ _); [|discriminate].
  intros [= <-]. reflexivity.
Qed.

Lemma haver_source_class environ config kwargs i :
  _create_haver_source environ config kwargs = Ok i ->
  class_of i = HaverDataSource.
Proof.
  unfold _create_haver_source.
  destruct (negb _); [discriminate|].
  destruct (negb _); [discriminate|].
  destruct (unexpected_keyword _); [discriminate|].
  destruct (Haver.__init__ _ _ _); [|discriminate].
  intros [= <-]. reflexivity.
Qed.

(** C5, as amended: the factory trims the identifier and looks it up
    among the registered spellings (lower case, upper case, capitalized).
    For such a spelling the result is an instance of the corresponding
    class or a [ConfigurationError]; with a user name of at least three
    characters once trimmed and a password of at least six, a Haver
    spelling gives a Haver client holding the trimmed user name and the
    password, not connected; a non-empty identifier whose trimmed
    lower-case form is neither ["fred"] nor ["haver"] raises
    [ConfigurationError] with a message that lists the available
    sources. *)
Theorem create_data_source_registered environ :
  (forall c s config kwargs,
     PyStr.strip s ∈ spellings c ->
     match create_data_source environ (PStr s) config kwargs with
     | Ok i => class_of i = c
     | Raise e => cls e = ConfigurationError
     end) /\
  (forall s u p,
     PyStr.strip s ∈ spellings HaverDataSource ->
     3 <= PyStr.len (PyStr.strip u) ->
     6 <= PyStr.len p ->
     exists self,
       create_data_source environ (PStr s) None (credentials u p)
         = Ok (HaverInstance self) /\
       Haver.username self = PyStr.strip u /\
       Haver.password self = p /\
       Haver.is_connected self = false) /\
  (forall s config kwargs,
     s <> "" ->
     PyStr.lower (PyStr.strip s) ∉ ["fred"; "haver"] ->
     create_data_source environ (PStr s) config kwargs = Raise (unsupported s)).
Proof.
  split; [|split].
  - intros c s config kwargs Hs.
    unfold create_data_source.
    rewrite (spelling_nonempty c s Hs). cbn [negb].
    rewrite (spelling_lookup c _ Hs).
    destruct c.
    + destruct (_create_fred_source _ _ _) eqn:E;
        [exact (fred_source_class _ _ _ _ E) | reflexivity].
    + destruct (_create_haver_source _ _ _) eqn:E;
        [exact (haver_source_class _ _ _ _ E) | reflexivity].
  - intros s u p Hs Hu Hp.
    unfold create_data_source.
    rewrite (spelling_nonempty _ s Hs). cbn [negb].
    rewrite (spelling_lookup _ _ Hs).
    unfold _create_haver_source.
    destruct (credentials_lookup u p) as (-> & -> & ->).
    pose proof (stripped_long_is_truthy u 3 ltac:(lia) Hu) as Htu.
    pose proof (long_is_truthy p 6 ltac:(lia) Hp) as Htp.
    unfold py_or. cbn [py_truthy]. rewrite Htu, Htp. cbn [negb py_truthy].
    rewrite Htu, Htp. cbn [negb].
    unfold unexpected_keyword. rewrite map_to_list_empty.
    unfold Haver.__init__, Haver._validate_username, Haver._validate_password.
    rewrite Htu, Htp. cbn [negb].
    destruct (PyStr.len (PyStr.strip u) <? 3) eqn:E1; [lia|].
    destruct (PyStr.len p <? 6) eqn:E2; [lia|].
    cbn. rewrite Htu, Htp. cbn.
    eexists. split; [reflexivity|]. cbn. auto.
  - intros s config kwargs Hne Hunknown.
    unfold create_data_source.
    assert (Ht : PyStr.truthy s = true) by (destruct s; [congruence | reflexivity]).
    rewrite Ht. cbn [negb].
    rewrite registry_lookup.
    rewrite !bool_decide_false; [reflexivity | |].
    + intros Hin. apply Hunknown.
      rewrite (lower_of_spelling _ _ Hin), !elem_of_cons. auto.
    + intros Hin. apply Hunknown.
      rewrite (lower_of_spelling _ _ Hin), !elem_of_cons. auto.
Qed.

Lemma create_data_source_registered_witness :
  (exists self,
     create_data_source ∅ (PStr " Haver ") None
       (credentials "test_user" "test_password") = Ok (HaverInstance self) /\
     Haver.username self = "test_user") /\
  create_data_source ∅ (PStr "quandl") None ∅ = Raise (unsupported "quandl") /\
  match create_data_source ∅ (PStr "FRED") None ∅ with
  | Ok i => class_of i = FREDDataSource
  | Raise e => cls e = ConfigurationError
  end.
Proof.
  destruct (create_data_source_registered ∅) as (Hclass & Hhaver & Hunknown).
  split; [|split].
  - destruct (Hhaver " Haver " "test_user" "test_password")
      as (self & Hrun & Hu & _).
    + change (PyStr.strip " Haver ") with "Haver". unfold spellings.
      rewrite !elem_of_cons. auto.
    + vm_compute. discriminate.
    + vm_compute. discriminate.
    + exists self. split; assumption.
  - apply Hunknown.
    + discriminate.
    + change (PyStr.lower (PyStr.strip "quandl")) with "quandl".
      rewrite !elem_of_cons, elem_of_nil. intuition discriminate.
  - apply (Hclass FREDDataSource "FRED" None ∅).
    change (PyStr.strip "FRED") with "FRED". unfold spellings.
    rewrite !elem_of_cons. auto.
Defined.

(** C5 as stated fails on its own example: [create("HAVER",
    username="u", password="p")] raises [ConfigurationError], because the
    constructor rejects a user name shorter than three characters and the
    factory wraps the rejection. *)
Lemma short_credentials_are_rejected :
  exists e,
    create_data_source ∅ (PStr "HAVER") None (credentials "u" "p") = Raise e /\
    cls e = ConfigurationError /\
    message e = "Failed to create data source 'HAVER': Haver username must be at least 3 characters long".
Proof. eexists. split; [vm_compute; reflexivity|]. split; reflexivity. Qed.

(** Two more facts about what the factory returns: a spelling outside the
    six registered ones is not resolved, and a client carries the
    [source_name] of the base class. *)
Lemma mixed_case_is_not_registered :
  exists e,
    create_data_source ∅ (PStr "fReD") None
      (<["api_key" := PStr "12345678901234567890123456789012"]> ∅) = Raise e /\
    cls e = ConfigurationError /\
    message e = "Unsupported data source: 'fReD'. Available sources: ['fred', 'haver']".
Proof. eexists. split; [vm_compute; reflexivity|]. split; reflexivity. Qed.

Lemma haver_source_name :
  exists self,
    create_data_source ∅ (PStr "HAVER") None
      (credentials "test_user" "test_password") = Ok (HaverInstance self) /\
    Haver.source_name self = "Unknown Source".
Proof. eexists. split; [vm_compute; reflexivity|]. reflexivity. Qed.
End FactoryProps.

(** ** Scoped acquisition *)

Module ScopedAcquisition.
Import Scope Scenarios.

(** A [with] block that was entered, around an [__exit__] that returns a
    false value and establishes [P]: [P] holds afterwards and the result is
    that of the body. *)
Lemma with_entered {S A} (P : S -> Prop) (enter : M S unit)
    (exit : option exc -> M S bool) (body : M S A) (s s1 : S) :
  enter s = (Ok tt, s1) ->
  (forall ev s2, exists s3, exit ev s2 = (Ok false, s3) /\ P s3) ->
  P (with_ enter exit body s).2 /\
  (with_ enter exit body s).1 = outcome (body s1).1.
Proof.
  intros Henter Hexit. unfold with_. rewrite Henter.
  destruct (body s1) as [[a | e] s2]; cbn [fst outcome].
  - destruct (Hexit None s2) as (s3 & -> & HP). split; [exact HP | reflexivity].
  - destruct (Hexit (Some e) s2) as (s3 & -> & HP). split; [exact HP | reflexivity].
Qed.

Lemma fred_exit ev s :
  exists s3, Fred.__exit__ ev s = (Ok false, s3) /\
             Fred.is_connected s3.1 = false /\ Fred.session s3.1 = false.
Proof. destruct s as [self w]. eexists. split; [reflexivity|]. split; reflexivity. Qed.

Lemma haver_exit ev s :
  exists s3, Haver.__exit__ ev s = (Ok false, s3) /\
             Haver.is_connected s3.1 = false /\ Haver.session s3.1 = false.
Proof. destruct s as [self w]. eexists. split; [reflexivity|]. split; reflexivity. Qed.

(** C8: a [with] block on a client that was entered (its [connect]
    returned) ends with the client disconnected, whether the body returns
    or raises, and an exception of the body leaves the block; for the FRED
    client, for the Haver client, and for the methods of the base class
    around any [disconnect] that returns and clears the flag. *)
Theorem disconnect_on_every_exit :
  (forall A clock http (body : M (Fred.FREDDataSource * World) A) s s1,
     Fred.__enter__ clock http s = (Ok tt, s1) ->
     let out := with_ (Fred.__enter__ clock http) Fred.__exit__ body s in
     Fred.is_connected out.2.1 = false /\ out.1 = outcome (body s1).1) /\
  (forall A clock http (body : M (Haver.HaverDataSource * World) A) s s1,
     Haver.__enter__ clock http s = (Ok tt, s1) ->
     let out := with_ (Haver.__enter__ clock http) Haver.__exit__ body s in
     Haver.is_connected out.2.1 = false /\ out.1 = outcome (body s1).1) /\
  (forall S A (is_connected : S -> bool) connect disconnect
          (body : M (S * World) A) s s1,
     (forall s2, exists s3, disconnect s2 = (Ok tt, s3) /\ is_connected s3.1 = false) ->
     DataSource.__enter__ connect s = (Ok tt, s1) ->
     let out := with_ (DataSource.__enter__ connect)
                  (DataSource.__exit__ disconnect) body s in
     is_connected out.2.1 = false /\ out.1 = outcome (body s1).1).
Proof.
  split; [|split].
  - intros A clock http body s s1 Henter out.
    apply (with_entered (fun s => Fred.is_connected s.1 = false) _ _ body s s1 Henter).
    intros ev s2. destruct (fred_exit ev s2) as (s3 & H & Hc & _). eauto.
  - intros A clock http body s s1 Henter out.
    apply (with_entered (fun s => Haver.is_connected s.1 = false) _ _ body s s1 Henter).
    intros ev s2. destruct (haver_exit ev s2) as (s3 & H & Hc & _). eauto.
  - intros S A is_connected connect disconnect body s s1 Hdis Henter out.
    apply (with_entered (fun s => is_connected s.1 = false) _ _ body s s1 Henter).
    intros ev s2. destruct (Hdis s2) as (s3 & H & Hc).
    exists s3. split; [|exact Hc].
    unfold DataSource.__exit__, bind, ret. rewrite H. reflexivity.
Qed.

Lemma disconnect_on_every_exit_witness :
  let clock := steady_clock jan_1_2023 1000000 in
  let failure := foreign "ValueError" "Test exception" in
  let out := with_ (Fred.__enter__ clock fred_ok) Fred.__exit__
               (throw (A := unit) failure) (fred_client 120, world0) in
  Fred.is_connected out.2.1 = false /\ out.1 = Raise failure.
Proof.
  intros clock failure out.
  destruct disconnect_on_every_exit as (Hfred & _ & _).
  apply (Hfred unit clock fred_ok (throw failure) (fred_client 120, world0)
           (Fred.__enter__ clock fred_ok (fred_client 120, world0)).2).
  vm_compute. reflexivity.
Defined.
End ScopedAcquisition.

(** ** Metadata *)

Module Metadata.
Import Absent VariableCodes.

(** The loop leaves a key alone when no iteration touches it. *)
Lemma loop_preserves_key {S} (fetch : string -> gmap string VariableMetadata ->
                                      M (S * World) (gmap string VariableMetadata))
    (k : string) (vs : list string) :
  (forall u, u ∈ vs -> forall m s m' s',
     fetch u m s = (Ok m', s') -> m' !! k = m !! k) ->
  forall m s, exists m' s',
    metadata_loop fetch vs m s = (Ok m', s') /\ m' !! k = m !! k.
Proof.
  induction vs as [|u vs IH]; intros Hfetch m s.
  - exists m, s. split; reflexivity.
  - cbn [metadata_loop]. unfold bind, try_except.
    destruct (fetch u m s) as [[m1 | e] s1] eqn:E.
    + destruct (IH (fun u' Hu' => Hfetch u' (list_elem_of_further _ _ _ Hu')) m1 s1)
        as (m' & s' & Hrun & Hk).
      exists m', s'. split; [exact Hrun|].
      rewrite Hk. eapply Hfetch; [apply list_elem_of_here | exact E].
    + unfold ret.
      destruct (IH (fun u' Hu' => Hfetch u' (list_elem_of_further _ _ _ Hu')) m s1)
        as (m' & s' & Hrun & Hk).
      exists m', s'. split; assumption.
Qed.

Section fred.
Variable clock : nat -> Z.
Variable http : nat -> string -> gmap string pyval -> reply Fred.json.

(** One iteration either leaves the mapping as it is or sets the key of
    its variable, and it sets it only on a reply that describes a series
    to a request for that variable. *)
Lemma fred_fetch_metadata u m s m' s' :
  Fred.fetch_metadata clock http u m s = (Ok m', s') ->
  m' = m \/
  (exists x n url params,
     m' = <[u := x]> m /\ params !! "series_id" = Some (PStr u) /\
     fred_describes (http n url params) = true).
Proof.
  unfold Fred.fetch_metadata. unfold bind at 1.
  destruct (Fred._enforce_rate_limit clock s) as [[[] | e] [self1 w1]];
    [|discriminate].
  unfold bind at 1. unfold the_self at 1.
  unfold bind at 1. unfold Fred.session_get.
  unfold bind at 1. unfold the_self at 1.
  destruct (Fred.session self1); [|discriminate].
  unfold bind, count_request, ret, throw, lift_result.
  match goal with |- context [http ?a ?b ?c] =>
    set (n := a); set (url := b); set (params := c) end.
  assert (Hp : params !! "series_id" = Some (PStr u)).
  { subst params. rewrite lookup_insert_ne by done. apply lookup_insert_eq. }
  destruct (http n url params) as [msg | msg | msg | status body] eqn:Hreply;
    cbn [fetch_json]; try discriminate.
  destruct (is_http_error status) eqn:Hst; [discriminate|].
  destruct body as [data|]; [|discriminate].
  destruct (Fred.validate_response data); [|discriminate].
  destruct (Fred.seriess data) as [[|info rest]|] eqn:Hs;
    intros [= <- <-]; auto.
  right. exists (Fred.metadata_of u info), n, url, params.
  split; [reflexivity|]. split; [exact Hp|].
  rewrite Hreply. cbn. rewrite Hst, Hs. reflexivity.
Qed.

(** With a key that no reply describes, or that is not among the
    variables asked for, [get_metadata] returns a mapping without it. *)
Lemma fred_get_metadata_omits self w variables variable_list k :
  Fred.is_connected self = true ->
  validate_variable_codes variables = Ok variable_list ->
  fred_absent http k \/ k ∉ variable_list ->
  exists m s',
    Fred.get_metadata clock http variables (self, w) = (Ok m, s') /\
    m !! k = None.
Proof.
  intros Hconn Hvalid Hk.
  unfold Fred.get_metadata. unfold bind at 1. unfold the_self at 1.
  rewrite Hconn. cbn [negb]. unfold bind at 1, lift_result at 1.
  rewrite Hvalid.
  destruct (loop_preserves_key (Fred.fetch_metadata clock http) k variable_list)
    with (m := (∅ : gmap string VariableMetadata)) (s := (self, w))
    as (m & s' & Hrun & Hlookup).
  - intros u Hu m0 s0 m1 s1 Hfetch.
    destruct (fred_fetch_metadata _ _ _ _ _ Hfetch)
      as [-> | (x & n & url & params & -> & Hp & Hd)]; [reflexivity|].
    apply lookup_insert_ne. intros <-.
    destruct Hk as [Habs | Hnot]; [|exact (Hnot Hu)].
    rewrite (Habs n url params Hp) in Hd. discriminate.
  - exists m, s'. split; [exact Hrun|]. rewrite Hlookup. apply lookup_empty.
Qed.

Lemma fred_get_variable_metadata_raises self w v variable_list :
  Fred.is_connected self = true ->
  validate_variable_codes (VariableList [PStr v]) = Ok variable_list ->
  fred_absent http v \/ v ∉ variable_list ->
  exists e s',
    Fred.get_variable_metadata clock http v (self, w) = (Raise e, s') /\
    cls e = DataRetrievalError.
Proof.
  intros Hconn Hvalid Hk.
  destruct (fred_get_metadata_omits self w _ _ v Hconn Hvalid Hk)
    as (m & s' & Hrun & Hnone).
  unfold Fred.get_variable_metadata, bind. rewrite Hrun, Hnone.
  eexists _, _. split; reflexivity.
Qed.
End fred.

Section haver.
Variable clock : nat -> Z.
Variable http : nat -> string -> gmap string pyval -> reply Haver.json.

Lemma haver_fetch_metadata u m s m' s' :
  Haver.fetch_metadata clock http u m s = (Ok m', s') ->
  m' = m \/
  (exists x n base_url params,
     m' = <[u := x]> m /\
     haver_describes (http n (base_url +:+ "/metadata/" +:+ u) params) = true).
Proof.
  unfold Haver.fetch_metadata. unfold bind at 1.
  destruct (Haver._enforce_rate_limit clock s) as [[[] | e] [self1 w1]];
    [|discriminate].
  unfold bind at 1. unfold the_self at 1.
  unfold bind at 1. unfold Haver.session_get.
  unfold bind at 1. unfold the_self at 1.
  destruct (Haver.session self1); [|discriminate].
  unfold bind, count_request, ret, throw, lift_result.
  match goal with |- context [http ?a _ ?c] =>
    set (n := a); set (params := c) end.
  destruct (http n _ params) as [msg | msg | msg | status body] eqn:Hreply;
    cbn [fetch_json]; try discriminate.
  destruct (is_http_error status) eqn:Hst; [discriminate|].
  destruct body as [data|]; [|discriminate].
  destruct (Haver.validate_response data); [|discriminate].
  destruct (Haver.metadata data) as [info|] eqn:Hs;
    intros [= <- <-]; auto.
  right. exists (Haver.metadata_of u info), n, (Haver.base_url self1), params.
  split; [reflexivity|].
  rewrite Hreply. cbn. rewrite Hst, Hs. reflexivity.
Qed.

Lemma haver_get_metadata_omits self w variables variable_list k :
  Haver.is_connected self = true ->
  validate_variable_codes variables = Ok variable_list ->
  haver_absent http k \/ k ∉ variable_list ->
  exists m s',
    Haver.get_metadata clock http variables (self, w) = (Ok m, s') /\
    m !! k = None.
Proof.
  intros Hconn Hvalid Hk.
  unfold Haver.get_metadata. unfold bind at 1. unfold the_self at 1.
  rewrite Hconn. cbn [negb]. unfold bind at 1, lift_result at 1.
  rewrite Hvalid.
  destruct (loop_preserves_key (Haver.fetch_metadata clock http) k variable_list)
    with (m := (∅ : gmap string VariableMetadata)) (s := (self, w))
    as (m & s' & Hrun & Hlookup).
  - intros u Hu m0 s0 m1 s1 Hfetch.
    destruct (haver_fetch_metadata _ _ _ _ _ Hfetch)
      as [-> | (x & n & base & params & -> & Hd)]; [reflexivity|].
    apply lookup_insert_ne. intros <-.
    destruct Hk as [Habs | Hnot]; [|exact (Hnot Hu)].
    rewrite (Habs n base params) in Hd. discriminate.
  - exists m, s'. split; [exact Hrun|]. rewrite Hlookup. apply lookup_empty.
Qed.

Lemma haver_get_variable_metadata_raises self w v variable_list :
  Haver.is_connected self = true ->
  validate_variable_codes (VariableList [PStr v]) = Ok variable_list ->
  haver_absent http v \/ v ∉ variable_list ->
  exists e s',
    Haver.get_variable_metadata clock http v (self, w) = (Raise e, s') /\
    cls e = DataRetrievalError.
Proof.
  intros Hconn Hvalid Hk.
  destruct (haver_get_metadata_omits self w _ _ v Hconn Hvalid Hk)
    as (m & s' & Hrun & Hnone).
  unfold Haver.get_variable_metadata, bind. rewrite Hrun, Hnone.
  eexists _, _. split; reflexivity.
Qed.
End haver.

(** C7: on a connected client, for a variable code [v] that the source
    does not have, [get_variable_metadata(v)] raises [DataRetrievalError],
    while [get_metadata] on a valid list containing [v] returns a mapping
    without the key [v]; for the FRED client and for the Haver client. *)
Theorem metadata_asymmetry :
  (forall clock http self w v variables variable_list,
     Fred.is_connected self = true ->
     is_variable_code v ->
     fred_absent http v ->
     validate_variable_codes variables = Ok variable_list ->
     PStr v ∈ var_list variables ->
     (exists e s',
        Fred.get_variable_metadata clock http v (self, w) = (Raise e, s') /\
        cls e = DataRetrievalError) /\
     (exists m s',
        Fred.get_metadata clock http variables (self, w) = (Ok m, s') /\
        m !! v = None)) /\
  (forall clock http self w v variables variable_list,
     Haver.is_connected self = true ->
     is_variable_code v ->
     haver_absent http v ->
     validate_variable_codes variables = Ok variable_list ->
     PStr v ∈ var_list variables ->
     (exists e s',
        Haver.get_variable_metadata clock http v (self, w) = (Raise e, s') /\
        cls e = DataRetrievalError) /\
     (exists m s',
        Haver.get_metadata clock http variables (self, w) = (Ok m, s') /\
        m !! v = None)).
Proof.
  split.
  - intros clock http self w v variables variable_list Hconn Hcode Habs Hvalid _.
    split.
    + exact (fred_get_variable_metadata_raises clock http self w v [v]
               Hconn Hcode (or_introl Habs)).
    + exact (fred_get_metadata_omits clock http self w variables variable_list v
               Hconn Hvalid (or_introl Habs)).
  - intros clock http self w v variables variable_list Hconn Hcode Habs Hvalid _.
    split.
    + exact (haver_get_variable_metadata_raises clock http self w v [v]
               Hconn Hcode (or_introl Habs)).
    + exact (haver_get_metadata_omits clock http self w variables variable_list v
               Hconn Hvalid (or_introl Habs)).
Qed.

Lemma metadata_asymmetry_witness :
  let clock := Scenarios.steady_clock Scenarios.jan_1_2023 1000000 in
  ((exists e s',
      Fred.get_variable_metadata clock (fred_knows "FEDFUNDS") "NOSUCH"
        (connected_fred, world0) = (Raise e, s') /\
      cls e = DataRetrievalError) /\
   (exists m s',
      Fred.get_metadata clock (fred_knows "FEDFUNDS")
        (VariableList [PStr "FEDFUNDS"; PStr "NOSUCH"]) (connected_fred, world0)
      = (Ok m, s') /\
      m !! "NOSUCH" = None)) /\
  ((exists e s',
      Haver.get_variable_metadata clock haver_empty "GDP"
        (connected_haver, world0) = (Raise e, s') /\
      cls e = DataRetrievalError) /\
   (exists m s',
      Haver.get_metadata clock haver_empty
        (VariableList [PStr "GDP"; PStr "CPI"]) (connected_haver, world0)
      = (Ok m, s') /\
      m !! "GDP" = None)).
Proof.
  intros clock. destruct metadata_asymmetry as (Hfred & Hhaver). split.
  - apply (Hfred clock (fred_knows "FEDFUNDS") connected_fred world0 "NOSUCH"
             (VariableList [PStr "FEDFUNDS"; PStr "NOSUCH"]) ["FEDFUNDS"; "NOSUCH"]).
    + reflexivity.
    + reflexivity.
    + intros n url params Hp. unfold fred_knows. rewrite Hp. reflexivity.
    + reflexivity.
    + cbn. rewrite !elem_of_cons. auto.
  - apply (Hhaver clock haver_empty connected_haver world0 "GDP"
             (VariableList [PStr "GDP"; PStr "CPI"]) ["GDP"; "CPI"]).
    + reflexivity.
    + reflexivity.
    + intros n base params. reflexivity.
    + reflexivity.
    + cbn. rewrite !elem_of_cons. auto.
Defined.

Lemma validate_single v :
  validate_variable_codes (VariableList [PStr v]) =
    match complaint (PStr v) with
    | None => Ok [normal_form v]
    | Some c =>
        Raise (new_ValidationError ("Invalid variable codes: " +:+ c)
                 (Some "variables") None None (Some "INVALID_VARIABLES")
                 (<["valid_variables" := PStrs []]>
                    (<["invalid_variables" := PStrs [c]]> ∅)))
    end.
Proof.
  unfold validate_variable_codes.
  rewrite ValidateVariableCodes.validate_loop_spec.
  cbn [var_list omap list_omap app]. unfold accepted.
  destruct (complaint (PStr v)); reflexivity.
Qed.

(** C9, as amended: on a connected FRED client, for every input [v] that
    differs from its uppercase-trimmed form, [get_variable_metadata(v)]
    raises whatever the source returns: [ValidationError] when [v] is
    empty or longer than 50 characters once trimmed, [DataRetrievalError]
    otherwise, because the mapping is keyed by the normal form and looked
    up with [v]. *)
Theorem unnormalized_input_raises clock http self w v :
  Fred.is_connected self = true ->
  v <> normal_form v ->
  exists e s',
    Fred.get_variable_metadata clock http v (self, w) = (Raise e, s') /\
    cls e = match complaint (PStr v) with
            | None => DataRetrievalError
            | Some _ => ValidationError
            end.
Proof.
  intros Hconn Hne.
  pose proof (validate_single v) as Hvalid.
  destruct (complaint (PStr v)) as [c|].
  - unfold Fred.get_variable_metadata, Fred.get_metadata.
    unfold bind at 1. unfold bind at 1. unfold the_self at 1.
    rewrite Hconn. cbn [negb]. unfold bind at 1, lift_result at 1.
    rewrite Hvalid. eexists _, _. split; reflexivity.
  - apply (fred_get_variable_metadata_raises clock http self w v [normal_form v]
             Hconn Hvalid).
    right. rewrite list_elem_of_singleton. exact Hne.
Qed.

Lemma unnormalized_input_raises_witness :
  exists e s',
    Fred.get_variable_metadata
      (Scenarios.steady_clock Scenarios.jan_1_2023 1000000)
      (fred_knows "FEDFUNDS") "fedfunds" (connected_fred, world0)
    = (Raise e, s') /\
    cls e = DataRetrievalError.
Proof.
  apply (unnormalized_input_raises
           (Scenarios.steady_clock Scenarios.jan_1_2023 1000000)
           (fred_knows "FEDFUNDS") connected_fred world0 "fedfunds").
  - reflexivity.
  - discriminate.
Defined.

(** C9 as stated fails: a blank string differs from its normal form (the
    empty string), and [get_variable_metadata] on a connected client
    raises [ValidationError], which is not a [DataRetrievalError]. *)
Lemma blank_input_raises_validation_error :
  " " <> normal_form " " /\
  issubclass ValidationError DataRetrievalError = false /\
  raises
    (Fred.get_variable_metadata
       (Scenarios.steady_clock Scenarios.jan_1_2023 1000000)
       (fred_knows "FEDFUNDS") " " (connected_fred, world0)).1
    ValidationError.
Proof. split; [discriminate|]. split; reflexivity. Qed.
End Metadata.

(** ** [get_data] *)

Module GetData.
Import DataScenarios.

Section loop.
Context {S : Type}.
Variable attempt : string -> M (S * World) Series.

(** The loop never raises; it stores the series of the variables that
    yield data. *)
Lemma collect_stores variable_list : forall all_data failed s,
  exists failed' s',
    collect attempt variable_list all_data failed s
    = (Ok (stored (yielded attempt variable_list s) all_data, failed'), s').
Proof.
  induction variable_list as [|v rest IH]; intros all_data failed s.
  - exists failed, s. reflexivity.
  - cbn [collect yielded]. unfold bind at 1. unfold collect_one, try_except, bind.
    destruct (attempt v s) as [[series | e] s1].
    + destruct (Series_empty series); cbn [negb ret fst snd].
      * destruct (IH all_data (failed ++ [v]) s1) as (f' & s' & ->). eauto.
      * destruct (IH (Dict.set v series all_data) failed s1) as (f' & s' & ->).
        eauto.
    + cbn [ret fst snd].
      destruct (IH all_data (failed ++ [v]) s1) as (f' & s' & ->). eauto.
Qed.


Lemma yielded_in_list variable_list : forall s v,
  v ∈ (yielded attempt variable_list s).*1 -> v ∈ variable_list.
Proof.
  induction variable_list as [|u rest IH]; intros s v; cbn [yielded].
  - cbn. intros H. exact H.
  - destruct (attempt u s) as [[series | e] s1].
    + destruct (Series_empty series).
      * intros H. right. exact (IH _ _ H).
      * cbn. rewrite !elem_of_cons. intros [-> | H]; [auto|]. right.
        exact (IH _ _ H).
    + intros H. right. exact (IH _ _ H).
Qed.
End loop.

(** *** Dictionaries *)

Lemma dict_set_keys {V} k (v : V) d :
  Dict.keys (Dict.set k v d) =
    if bool_decide (k ∈ Dict.keys d) then Dict.keys d else Dict.keys d ++ [k].
Proof.
  unfold Dict.keys. induction d as [|[k' v'] d IH]; cbn.
  - rewrite bool_decide_false; [reflexivity | apply not_elem_of_nil].
  - destruct (bool_decide_reflect (k' = k)) as [-> | Hne].
    + rewrite bool_decide_true by apply list_elem_of_here. reflexivity.
    + cbn. rewrite IH.
      destruct (bool_decide_reflect (k ∈ d.*1)) as [Hin | Hnin].
      * rewrite bool_decide_true by (right; exact Hin). reflexivity.
      * rewrite bool_decide_false; [reflexivity|].
        rewrite elem_of_cons. intros [-> | H]; [congruence | exact (Hnin H)].
Qed.





(** *** The table *)

Lemma ensure_valid_index_names df sr :
  column_names (ensure_valid_index df sr) = column_names df.
Proof.
  unfold ensure_valid_index, column_names, Dict.keys.
  destruct (index df); [|reflexivity]. destruct sr; [reflexivity|].
  cbn [columns]. rewrite <- list_fmap_compose.
  apply list_fmap_ext. intros _ [k c] _. reflexivity.
Qed.

Lemma reindex_for_setitem_ok sr df :
  NoDup (Series_index sr) -> exists values, reindex_for_setitem sr df = Ok values.
Proof.
  intros Hnd. unfold reindex_for_setitem, reindex.
  destruct (_ || _); [eauto|].
  rewrite bool_decide_true by exact Hnd. eauto.
Qed.

Lemma setitem_ok df k sr :
  NoDup (Series_index sr) ->
  exists df',
    setitem df k sr = Ok df' /\
    index df' = index (ensure_valid_index df sr) /\
    column_names df' =
      if bool_decide (k ∈ column_names df) then column_names df
      else column_names df ++ [k].
Proof.
  intros Hnd. unfold setitem.
  destruct (reindex_for_setitem_ok sr (ensure_valid_index df sr) Hnd)
    as (values & ->).
  eexists. split; [reflexivity|]. split; [reflexivity|].
  unfold column_names at 1. cbn [columns].
  rewrite dict_set_keys. fold (column_names (ensure_valid_index df sr)).
  rewrite ensure_valid_index_names. reflexivity.
Qed.

Lemma combine_ok items : forall df,
  Forall (fun p => NoDup (Series_index p.2)) items ->
  NoDup items.*1 ->
  (forall k, k ∈ items.*1 -> k ∉ column_names df) ->
  exists df',
    combine items df = Ok df' /\
    column_names df' = column_names df ++ items.*1.
Proof.
  induction items as [|[k sr] items IH]; intros df Hall Hnd Hfresh.
  - exists df. cbn. rewrite app_nil_r. split; reflexivity.
  - inversion Hall as [|? ? Hsr Hall']; subst.
    cbn [fmap list_fmap fst] in Hnd. apply NoDup_cons in Hnd as [Hk Hnd].
    cbn [combine].
    destruct (setitem_ok df k sr Hsr) as (df1 & -> & _ & Hnames).
    rewrite bool_decide_false in Hnames
      by (apply Hfresh; apply list_elem_of_here).
    destruct (IH df1 Hall' Hnd) as (df' & Hrun & Hnames').
    { intros k' Hk'. rewrite Hnames, elem_of_app, list_elem_of_singleton.
      intros [H | ->]; [|exact (Hk Hk')].
      apply (Hfresh k'); [right; exact Hk' | exact H]. }
    exists df'. split; [exact Hrun|].
    rewrite Hnames', Hnames, <- app_assoc. reflexivity.
Qed.

(** The table takes the index of the first series assigned to it and keeps
    it: a later series is conformed to that index. *)
Lemma setitem_keeps_index df k sr df' :
  index df <> [] -> setitem df k sr = Ok df' -> index df' = index df.
Proof.
  intros Hne. unfold setitem.
  assert (He : ensure_valid_index df sr = df).
  { unfold ensure_valid_index. destruct (index df); [congruence | reflexivity]. }
  rewrite He. destruct (reindex_for_setitem sr df); [|discriminate].
  intros [= <-]. reflexivity.
Qed.

Lemma combine_keeps_index items : forall df df',
  index df <> [] -> combine items df = Ok df' -> index df' = index df.
Proof.
  induction items as [|[k sr] items IH]; intros df df' Hne; cbn [combine].
  - intros [= <-]. reflexivity.
  - destruct (setitem df k sr) as [df1|] eqn:E; [|discriminate].
    intros Hrun. pose proof (setitem_keeps_index _ _ _ _ Hne E) as Hi.
    rewrite (IH df1 df'); [exact Hi | congruence | exact Hrun].
Qed.

Lemma combine_index_is_first k sr items df :
  Series_empty sr = false ->
  combine ((k, sr) :: items) empty_DataFrame = Ok df ->
  index df = Series_index sr.
Proof.
  intros Hne. cbn [combine].
  destruct (setitem empty_DataFrame k sr) as [df1|] eqn:E; [|discriminate].
  assert (Hi : index df1 = Series_index sr).
  { destruct sr as [|p sr]; [discriminate|].
    unfold setitem, ensure_valid_index, reindex_for_setitem in E.
    cbn [index empty_DataFrame columns] in E.
    rewrite bool_decide_true in E by reflexivity.
    cbn [orb] in E. injection E as <-. reflexivity. }
  intros Hrun.
  assert (Hidx : index df1 <> []).
  { rewrite Hi. destruct sr; [discriminate Hne | discriminate]. }
  rewrite (combine_keeps_index _ _ _ Hidx Hrun). exact Hi.
Qed.






(** Series without a repeated date conform. *)
Lemma distinct_dates_conform (all_data : list (string * Series)) :
  Forall (fun p => NoDup (Series_index p.2)) all_data -> conforming all_data.
Proof.
  destruct all_data as [|[k first] rest]; [constructor|].
  intros H. apply Forall_cons in H as [_ H]. cbn [conforming].
  eapply Forall_impl; [exact H|]. intros p Hp. right. exact Hp.
Qed.







(** The same on the Haver client: [GDP] is known and [NOSUCH] is not. *)
Lemma haver_partial_success :
  let out :=
    Haver.get_data (Scenarios.steady_clock Scenarios.jan_1_2023 1000000)
      haver_one_series (VariableList [PStr "gdp"; PStr "NOSUCH"])
      (DateString (Some Scenarios.jan_1_2023)) (DateString (Some jan_31_2023))
      ∅ (Absent.connected_haver, world0) in
  out.1 = Ok (mk_DataFrame [Scenarios.jan_1_2023]
                [("GDP", [Some (26813 # 1)])]).
Proof. vm_compute. reflexivity. Qed.

(** A keyword argument that names a parameter of the fetch already
    filled by position fails every variable inside the [try]: with
    [database="USECON"] on Haver, or [series_id="DGS10"] on FRED, a call
    for a known series sends no request and raises
    [DataRetrievalError]. *)
Lemma keyword_clash_fails_every_variable :
  let clock := Scenarios.steady_clock Scenarios.jan_1_2023 1000000 in
  let haver :=
    Haver.get_data clock haver_one_series (VariableList [PStr "gdp"])
      (DateString (Some Scenarios.jan_1_2023)) (DateString (Some jan_31_2023))
      (<["database" := PStr "USECON"]> ∅) (Absent.connected_haver, world0) in
  let fred :=
    Fred.get_data clock fred_two_series (VariableList [PStr "FEDFUNDS"])
      (DateString (Some Scenarios.jan_1_2023)) (DateString (Some jan_31_2023))
      (<["series_id" := PStr "DGS10"]> ∅) (Absent.connected_fred, world0) in
  (raises haver.1 DataRetrievalError /\ sent haver.2.2 = sent world0) /\
  (raises fred.1 DataRetrievalError /\ sent fred.2.2 = sent world0).
Proof. vm_compute. repeat split; reflexivity. Qed.

(** C1 at a failing input: [get_data(["FEDFUNDS", "DGS10"], "2023-01-01",
    "2023-01-31")] against a server with a monthly [FEDFUNDS] (one
    observation, on the first) and a daily [DGS10] (observations on the
    third and fourth).  Both variables yield data; the table has the one
    row of the first series, the column [DGS10] holds NaN there, and the
    dates of [DGS10] are not in the index. *)
Lemma later_series_dates_are_dropped :
  let clock := Scenarios.steady_clock Scenarios.jan_1_2023 1000000 in
  let out :=
    Fred.get_data clock fred_two_series
      (VariableList [PStr "FEDFUNDS"; PStr "DGS10"])
      (DateString (Some Scenarios.jan_1_2023)) (DateString (Some jan_31_2023))
      ∅ (Absent.connected_fred, world0) in
  yielded (fred_attempt clock fred_two_series "2023-01-01" "2023-01-31" ∅)
    ["FEDFUNDS"; "DGS10"] (Absent.connected_fred, world0)
  = [("FEDFUNDS", [(Scenarios.jan_1_2023, 433 # 100)]);
     ("DGS10", [(jan_3_2023, 379 # 100); (jan_4_2023, 369 # 100)])] /\
  out.1 = Ok (mk_DataFrame [Scenarios.jan_1_2023]
                [("FEDFUNDS", [Some (433 # 100)]); ("DGS10", [None])]).
Proof. split; vm_compute; reflexivity. Qed.

(** In general the index of the table is the index of the first series
    stored, so the dates of the other series that are not among them are
    lost. *)
Lemma table_index_is_first_series k sr items df :
  Series_empty sr = false ->
  combine ((k, sr) :: items) empty_DataFrame = Ok df ->
  index df = Series_index sr.
Proof. apply combine_index_is_first. Qed.
End GetData.

(** ** More on the retry decorator *)

Module RetryMore.
Import RetryScenarios.

Section wrapper.
Context {S A : Type}.
Variables (retry_count : Z) (retry_delay backoff_factor : Q).
Variable retriable_exceptions : list exc_class.
Variables func_name args_repr kwargs_repr : string.

#[local] Abbreviation wrap func :=
  (wrapper retry_count retry_delay backoff_factor retriable_exceptions
     func_name args_repr kwargs_repr func).

(** X4: A negative [retry_count] makes [range(retry_count + 1)] empty: the
    operation is never called and the wrapper returns [None]. *)
Theorem negative_retry_count_skips_the_call (func : M (S * World) A) s :
  retry_count < 0 ->
  wrap func s = (Ok None, s).
Proof.
  intros Hneg. unfold wrapper.
  replace (Z.to_nat (retry_count + 1)) with 0%nat by lia. reflexivity.
Qed.

(** X2: A failure that is not retriable ends the call at once, with the state
    the one call left (nothing slept): a failure of the hierarchy is raised
    unchanged, any other exception is replaced by a
    [FederalReserveETLError] with code [UNEXPECTED_ERROR] that names the
    original class. *)
Theorem non_retriable_failure_ends_the_call (func : M (S * World) A) s e s' :
  0 <= retry_count ->
  func s = (Raise e, s') ->
  isinstance_any e retriable_exceptions = false ->
  wrap func s =
    (Raise (if isinstance e FederalReserveETLError then e
            else wrapped_error func_name args_repr kwargs_repr e), s') /\
  cls (wrapped_error func_name args_repr kwargs_repr e) = FederalReserveETLError /\
  error_code (wrapped_error func_name args_repr kwargs_repr e)
    = Some "UNEXPECTED_ERROR" /\
  context (wrapped_error func_name args_repr kwargs_repr e) !! "original_exception"
    = Some (PStr (class_name (cls e))).
Proof.
  intros Hcount Hfunc Hnot. split; [|split; [reflexivity | split; reflexivity]].
  unfold wrapper.
  destruct (Z.to_nat (retry_count + 1)) as [|n] eqn:En; [lia|].
  cbn [attempts]. rewrite Hfunc, Hnot.
  destruct (isinstance e FederalReserveETLError); reflexivity.
Qed.

End wrapper.

Section flaky.
Context {A : Type}.
Variables (retry_count : Z) (retry_delay backoff_factor : Q).
Variable retriable_exceptions : list exc_class.
Variables func_name args_repr kwargs_repr : string.

Lemma attempts_exhaust (a : A) (before : list exc) :
  forall (n i calls : nat) (w : World) (last : option exc) (e : exc)
         (rest : list exc),
  Forall (fun e => isinstance_any e retriable_exceptions = true) (before ++ [e]) ->
  (forall j, (i <= j < i + length before)%nat ->
     sleepable retry_delay backoff_factor j) ->
  n = S (length before) ->
  Z.of_nat i + Z.of_nat (length before) = retry_count ->
  attempts retry_count retry_delay backoff_factor retriable_exceptions
    func_name args_repr kwargs_repr (flaky a) n (Z.of_nat i) last
    ((calls, before ++ e :: rest), w)
  = (Raise e,
     ((S (calls + length before), rest),
      mk_World (ticks w) (sent w)
        (slept w ++ backoff_delays retry_delay backoff_factor i (length before)))).
Proof.
  induction before as [|f before IH];
    intros n i calls w last e rest Hall Hsleep Hn Hcount.
  - subst n. cbn [app length] in *. cbn [attempts flaky].
    apply Forall_cons in Hall as [He _]. rewrite He.
    destruct (Z.of_nat i <? retry_count) eqn:E; [lia|].
    rewrite Nat.add_0_r, app_nil_r. destruct w; reflexivity.
  - destruct n as [|n]; [discriminate|].
    cbn [length] in Hn, Hcount, Hsleep. injection Hn as Hn.
    cbn [app] in Hall. apply Forall_cons in Hall as [Hf Hrest].
    cbn [app attempts flaky]. rewrite Hf.
    destruct (Z.of_nat i <? retry_count) eqn:E; [|lia].
    unfold bind, lift_result. rewrite Retry.retry_sleep_time_is_backoff.
    rewrite Sleep.time_sleep_returns by (apply (Hsleep i); lia).
    cbn [fst snd].
    replace (Z.of_nat i + 1) with (Z.of_nat (S i)) by lia.
    rewrite (IH n (S i));
      [| assumption | intros j Hj; apply Hsleep; lia | assumption | lia].
    cbn [ticks sent slept length].
    unfold backoff_delays. cbn [seq fmap list_fmap].
    rewrite <- app_assoc. cbn [app].
    replace (S (S calls + length before)) with (S (calls + S (length before)))
      by lia.
    reflexivity.
Qed.

(** X1: An operation that keeps failing with retriable errors, under a
    schedule whose delays can be computed and slept (none negative, none
    beyond what a float or [time.sleep] holds), is called
    [retry_count + 1] times; the wrapper sleeps the back-off delay after
    each failure but the last, and raises the last failure unchanged. *)
Theorem exhausted_retries_raise_the_last_failure (a : A) (before : list exc)
    (e : exc) (rest : list exc) (w : World) :
  Forall (fun e => isinstance_any e retriable_exceptions = true) (before ++ [e]) ->
  (forall j, (j < length before)%nat ->
     sleepable retry_delay backoff_factor j) ->
  Z.of_nat (length before) = retry_count ->
  wrapper retry_count retry_delay backoff_factor retriable_exceptions
    func_name args_repr kwargs_repr (flaky a) ((0%nat, before ++ e :: rest), w)
  = (Raise e,
     ((S (length before), rest),
      mk_World (ticks w) (sent w)
        (slept w ++ backoff_delays retry_delay backoff_factor 0 (length before)))).
Proof.
  intros Hall Hsleep Hcount. unfold wrapper.
  apply (attempts_exhaust a before _ 0%nat 0%nat w None e rest Hall);
    [intros j Hj; apply Hsleep; lia | lia | lia].
Qed.

(** X3: An operation that fails [k <= retry_count] times with retriable
    errors and then returns, under a schedule whose first [k] delays can
    be computed and slept (none negative, none beyond what a float or
    [time.sleep] holds): the wrapper returns that result after [k + 1]
    calls, and the [i]-th sleep lasted [retry_delay * backoff_factor ^ i]. *)
Theorem success_after_retries (a : A) (failures : list exc) (w : World) :
  Forall (fun e => isinstance_any e retriable_exceptions = true) failures ->
  (forall j, (j < length failures)%nat ->
     sleepable retry_delay backoff_factor j) ->
  Z.of_nat (length failures) <= retry_count ->
  let out := wrapper retry_count retry_delay backoff_factor retriable_exceptions
               func_name args_repr kwargs_repr (flaky a)
               ((0%nat, failures), w) in
  out.1 = Ok (Some a) /\
  out.2.1.1 = S (length failures) /\
  slept out.2.2 = slept w ++ backoff_delays retry_delay backoff_factor 0
                               (length failures) /\
  length (backoff_delays retry_delay backoff_factor 0 (length failures))
    = length failures.
Proof.
  intros Hall Hsleep Hcount out. subst out. unfold wrapper.
  rewrite (Retry.attempts_flaky retry_count retry_delay backoff_factor
             retriable_exceptions func_name args_repr kwargs_repr a failures
             _ 0%nat 0%nat w None Hall)
    by (try lia; intros j Hj; apply Hsleep; lia).
  cbn. repeat split.
  unfold backoff_delays. rewrite length_fmap, length_seq. reflexivity.
Qed.

End flaky.

Lemma negative_retry_count_witness :
  wrapper (-1) 1 2 default_retriable "f" "()" "{}" (flaky "done")
    ((0%nat, []), world0) = (Ok None, ((0%nat, []), world0)).
Proof. apply negative_retry_count_skips_the_call. lia. Defined.

Lemma non_retriable_failure_witness :
  let e := new_ValidationError "bad input" None None None None ∅ in
  wrapper 3 1 2 default_retriable "f" "()" "{}" (flaky "done")
    ((0%nat, [e]), world0) = (Raise e, ((1%nat, []), world0)).
Proof.
  intros e.
  apply (non_retriable_failure_ends_the_call 3 1 2 default_retriable
           "f" "()" "{}" (flaky "done") ((0%nat, [e]), world0) e
           ((1%nat, []), world0)); [lia | reflexivity | reflexivity].
Defined.

Lemma exhausted_retries_witness :
  let e := new_ConnectionError "unreachable" None None None ∅ in
  wrapper 3 1 2 default_retriable "f" "()" "{}" (flaky "done")
    ((0%nat, [e; e; e; e; e]), world0)
  = (Raise e, ((4%nat, [e]),
               mk_World 0 0 (backoff_delays 1 2 0 3))).
Proof.
  intros e.
  apply (exhausted_retries_raise_the_last_failure 3 1 2 default_retriable
           "f" "()" "{}" "done" [e; e; e] e [e] world0).
  - repeat constructor.
  - intros [|[|[|j]]] Hj; try (simpl in Hj; lia);
      apply Retry.sleepable_by_computation; vm_compute; reflexivity.
  - reflexivity.
Defined.

Lemma success_after_retries_witness :
  let e := new_ConnectionError "unreachable" None None None ∅ in
  (wrapper 3 1 2 default_retriable "f" "()" "{}" (flaky "done")
     ((0%nat, [e; e]), world0)).1 = Ok (Some "done").
Proof.
  intros e.
  apply (success_after_retries 3 1 2 default_retriable "f" "()" "{}"
           "done" [e; e] world0).
  - repeat constructor.
  - intros [|[|j]] Hj; try (simpl in Hj; lia);
      apply Retry.sleepable_by_computation; vm_compute; reflexivity.
  - simpl. lia.
Defined.
End RetryMore.

(** ** Dates, and what the clients check before they send anything *)

Module InputChecks.

(** X5: For two dates that are given (strings that parse, or datetimes),
    [validate_and_convert_dates] returns them unchanged exactly when the
    start is strictly before the end and both lie between 1900-01-01 and
    2030-12-31 (midnight); an end not after the start is
    [INVALID_DATE_RANGE], and this is checked before the bounds, whose
    failure is [DATE_OUT_OF_BOUNDS]. *)
Theorem validate_and_convert_dates_spec (start_date end_date : date_arg)
    (s e : Z) :
  convert_date start_date = Ok (Some s) ->
  convert_date end_date = Ok (Some e) ->
  let r := validate_and_convert_dates start_date end_date in
  (r = Ok (s, e) <-> s < e /\ min_date <= s /\ e <= max_date) /\
  (e <= s ->
   exists err, r = Raise err /\ cls err = ValidationError /\
               error_code err = Some "INVALID_DATE_RANGE") /\
  (s < e -> s < min_date \/ max_date < e ->
   exists err, r = Raise err /\ cls err = ValidationError /\
               error_code err = Some "DATE_OUT_OF_BOUNDS").
Proof.
  intros Hs He r. subst r. unfold validate_and_convert_dates.
  rewrite Hs, He.
  destruct (Z.leb_spec e s) as [Hle | Hlt].
  - split; [|split].
    + split; [discriminate | lia].
    + intros _. eexists. split; [reflexivity|]. split; reflexivity.
    + lia.
  - destruct (Z.ltb_spec s min_date) as [Hmin | Hmin]; cbn [orb].
    + split; [|split].
      * split; [discriminate | lia].
      * lia.
      * intros _ _. eexists. split; [reflexivity|]. split; reflexivity.
    + destruct (Z.ltb_spec max_date e) as [Hmax | Hmax].
      * split; [|split].
        -- split; [discriminate | lia].
        -- lia.
        -- intros _ _. eexists. split; [reflexivity|]. split; reflexivity.
      * split; [|split].
        -- split; [intros _; lia | reflexivity].
        -- lia.
        -- lia.
Qed.

Lemma validate_and_convert_dates_spec_witness :
  validate_and_convert_dates (DateTime Scenarios.jan_1_2023)
    (DateString (Some DataScenarios.jan_31_2023))
  = Ok (Scenarios.jan_1_2023, DataScenarios.jan_31_2023).
Proof.
  destruct (validate_and_convert_dates_spec (DateTime Scenarios.jan_1_2023)
              (DateString (Some DataScenarios.jan_31_2023))
              Scenarios.jan_1_2023 DataScenarios.jan_31_2023
              eq_refl eq_refl) as [[_ H] _].
  apply H. vm_compute. repeat split; congruence.
Defined.

(** A string that [strptime] refuses is reported as a [ValidationError]
    with code [INVALID_DATE_FORMAT], whatever the other date is, unless the
    start date already failed. *)
Lemma unparsable_date start_date end_date :
  start_date = DateString None \/
  (is_ok (convert_date start_date) = true /\ end_date = DateString None) ->
  exists err, validate_and_convert_dates start_date end_date = Raise err /\
              cls err = ValidationError /\
              error_code err = Some "INVALID_DATE_FORMAT".
Proof.
  intros [-> | [Hs ->]]; unfold validate_and_convert_dates.
  - eexists. split; [reflexivity|]. split; reflexivity.
  - destruct (convert_date start_date); [|discriminate].
    eexists. split; [reflexivity|]. split; reflexivity.
Qed.

Lemma omitted_date start_date end_date :
  start_date <> DateString None -> end_date <> DateString None ->
  start_date = DateNone \/ end_date = DateNone ->
  exists err, validate_and_convert_dates start_date end_date = Raise err /\
              cls err = Foreign "TypeError".
Proof.
  intros Hs He H. unfold validate_and_convert_dates.
  destruct start_date as [[s|] | s |]; try congruence;
    destruct end_date as [[e|] | e |]; try congruence;
    cbn; try (destruct H; discriminate); eauto.
Qed.

Section clients.
Variable clock : nat -> Z.
Variable fred_http : nat -> string -> gmap string pyval -> reply Fred.json.
Variable haver_http : nat -> string -> gmap string pyval -> reply Haver.json.

(** X6: A client that is not connected answers [get_data] and [get_metadata]
    with [ConnectionError], whatever the arguments (valid or not), and
    has then neither read the clock, nor slept, nor sent a request, nor
    changed. *)
Theorem not_connected_is_checked_first
    (fred : Fred.FREDDataSource) (haver : Haver.HaverDataSource) (w : World)
    variables start_date end_date kwargs :
  Fred.is_connected fred = false ->
  Haver.is_connected haver = false ->
  (exists e, Fred.get_data clock fred_http variables start_date end_date kwargs
               (fred, w) = (Raise e, (fred, w)) /\ cls e = ConnectionError) /\
  (exists e, Fred.get_metadata clock fred_http variables (fred, w)
             = (Raise e, (fred, w)) /\ cls e = ConnectionError) /\
  (exists e, Haver.get_data clock haver_http variables start_date end_date kwargs
               (haver, w) = (Raise e, (haver, w)) /\ cls e = ConnectionError) /\
  (exists e, Haver.get_metadata clock haver_http variables (haver, w)
             = (Raise e, (haver, w)) /\ cls e = ConnectionError).
Proof.
  intros Hf Hh.
  unfold Fred.get_data, Fred.get_metadata, Haver.get_data, Haver.get_metadata.
  unfold bind, the_self. rewrite Hf, Hh. cbn [negb throw].
  repeat split; eexists; split; reflexivity.
Qed.

Lemma fred_get_data_invalid (fred : Fred.FREDDataSource) (w : World)
    variables start_date end_date kwargs (e : exc) :
  Fred.is_connected fred = true ->
  validate_variable_codes variables = Raise e \/
  (is_ok (validate_variable_codes variables) = true /\
   validate_and_convert_dates start_date end_date = Raise e) ->
  Fred.get_data clock fred_http variables start_date end_date kwargs (fred, w)
    = (Raise e, (fred, w)).
Proof.
  intros Hf H. unfold Fred.get_data.
  unfold bind at 1. unfold the_self at 1. rewrite Hf. cbn [negb].
  unfold bind at 1, lift_result at 1.
  destruct H as [Hv | [Hv Hd]].
  - rewrite Hv. reflexivity.
  - destruct (validate_variable_codes variables) as [vl|]; [|discriminate].
    unfold bind at 1, lift_result at 1. rewrite Hd. reflexivity.
Qed.

Lemma haver_get_data_invalid (haver : Haver.HaverDataSource) (w : World)
    variables start_date end_date kwargs (e : exc) :
  Haver.is_connected haver = true ->
  validate_variable_codes variables = Raise e \/
  (is_ok (validate_variable_codes variables) = true /\
   validate_and_convert_dates start_date end_date = Raise e) ->
  Haver.get_data clock haver_http variables start_date end_date kwargs (haver, w)
    = (Raise e, (haver, w)).
Proof.
  intros Hf H. unfold Haver.get_data.
  unfold bind at 1. unfold the_self at 1. rewrite Hf. cbn [negb].
  unfold bind at 1, lift_result at 1.
  destruct H as [Hv | [Hv Hd]].
  - rewrite Hv. reflexivity.
  - destruct (validate_variable_codes variables) as [vl|]; [|discriminate].
    unfold bind at 1, lift_result at 1. rewrite Hd. reflexivity.
Qed.

(** X7: On a connected client [get_data] validates the variables, then the
    dates, before it does anything else: the first validator that fails
    ends the call with its own error, and the client has then neither read
    the clock, nor slept, nor sent a request. *)
Theorem get_data_validates_before_requests
    (fred : Fred.FREDDataSource) (haver : Haver.HaverDataSource) (w : World)
    variables start_date end_date kwargs (e : exc) :
  Fred.is_connected fred = true ->
  Haver.is_connected haver = true ->
  validate_variable_codes variables = Raise e \/
  (is_ok (validate_variable_codes variables) = true /\
   validate_and_convert_dates start_date end_date = Raise e) ->
  Fred.get_data clock fred_http variables start_date end_date kwargs (fred, w)
    = (Raise e, (fred, w)) /\
  Haver.get_data clock haver_http variables start_date end_date kwargs (haver, w)
    = (Raise e, (haver, w)).
Proof.
  intros Hf Hh H. split.
  - apply fred_get_data_invalid; assumption.
  - apply haver_get_data_invalid; assumption.
Qed.

(** X8: The dates of [get_data] default to [None], and the validator compares
    them: a call that leaves a date out raises a [TypeError], not a
    [ValidationError], before any request. *)
Theorem get_data_without_dates_is_a_type_error
    (fred : Fred.FREDDataSource) (haver : Haver.HaverDataSource) (w : World)
    variables start_date end_date kwargs :
  Fred.is_connected fred = true ->
  Haver.is_connected haver = true ->
  is_ok (validate_variable_codes variables) = true ->
  start_date <> DateString None -> end_date <> DateString None ->
  start_date = DateNone \/ end_date = DateNone ->
  exists e,
    cls e = Foreign "TypeError" /\
    isinstance e FederalReserveETLError = false /\
    Fred.get_data clock fred_http variables start_date end_date kwargs (fred, w)
      = (Raise e, (fred, w)) /\
    Haver.get_data clock haver_http variables start_date end_date kwargs (haver, w)
      = (Raise e, (haver, w)).
Proof.
  intros Hf Hh Hv Hs He Hnone.
  destruct (omitted_date start_date end_date Hs He Hnone) as (e & Hd & Hc).
  exists e. split; [exact Hc|]. split.
  { unfold isinstance. rewrite Hc. reflexivity. }
  split.
  - apply fred_get_data_invalid; [assumption|]. right. split; assumption.
  - apply haver_get_data_invalid; [assumption|]. right. split; assumption.
Qed.

(** [disconnect] never raises, touches nothing but the session and the
    connection flag, and is idempotent; the client it leaves answers
    [get_data] with [ConnectionError]. *)
Theorem disconnect_closes_the_client (fred : Fred.FREDDataSource) (w : World)
    variables start_date end_date kwargs :
  let after := Fred.set_is_connected false (Fred.set_session false fred) in
  Fred.disconnect (fred, w) = (Ok tt, (after, w)) /\
  Fred.disconnect (after, w) = (Ok tt, (after, w)) /\
  Fred.api_key after = Fred.api_key fred /\
  Fred.requests_this_minute after = Fred.requests_this_minute fred /\
  Fred.minute_window_start after = Fred.minute_window_start fred /\
  exists e,
    Fred.get_data clock fred_http variables start_date end_date kwargs (after, w)
      = (Raise e, (after, w)) /\ cls e = ConnectionError.
Proof.
  intros after. repeat split.
  eexists. split; reflexivity.
Qed.

End clients.

Lemma not_connected_is_checked_first_witness :
  exists e,
    Fred.get_data (Scenarios.steady_clock 0 1) Scenarios.fred_ok
      (OneVariable "FEDFUNDS") DateNone DateNone ∅
      (Scenarios.fred_client 120, world0)
    = (Raise e, (Scenarios.fred_client 120, world0)) /\ cls e = ConnectionError.
Proof.
  destruct (not_connected_is_checked_first (Scenarios.steady_clock 0 1)
              Scenarios.fred_ok (fun _ _ _ => NoConnection "down")
              (Scenarios.fred_client 120) Absent.haver_client world0
              (OneVariable "FEDFUNDS") DateNone DateNone ∅
              eq_refl eq_refl) as [H _].
  exact H.
Defined.

Lemma get_data_validates_before_requests_witness :
  exists e,
    Fred.get_data (Scenarios.steady_clock 0 1) Scenarios.fred_ok
      (OneVariable "   ") (DateTime Scenarios.jan_1_2023)
      (DateTime DataScenarios.jan_31_2023) ∅ (Absent.connected_fred, world0)
    = (Raise e, (Absent.connected_fred, world0)) /\ cls e = ValidationError.
Proof.
  eexists. split.
  - apply (get_data_validates_before_requests (Scenarios.steady_clock 0 1)
             Scenarios.fred_ok (fun _ _ _ => NoConnection "down")
             Absent.connected_fred Absent.connected_haver world0
             (OneVariable "   ") (DateTime Scenarios.jan_1_2023)
             (DateTime DataScenarios.jan_31_2023) ∅ _ eq_refl eq_refl).
    left. vm_compute. reflexivity.
  - reflexivity.
Defined.

Lemma get_data_without_dates_witness :
  exists e,
    cls e = Foreign "TypeError" /\
    Fred.get_data (Scenarios.steady_clock 0 1) Scenarios.fred_ok
      (OneVariable "FEDFUNDS") DateNone DateNone ∅ (Absent.connected_fred, world0)
    = (Raise e, (Absent.connected_fred, world0)).
Proof.
  destruct (get_data_without_dates_is_a_type_error (Scenarios.steady_clock 0 1)
              Scenarios.fred_ok (fun _ _ _ => NoConnection "down")
              Absent.connected_fred Absent.connected_haver world0
              (OneVariable "FEDFUNDS") DateNone DateNone ∅
              eq_refl eq_refl eq_refl)
    as (e & Hc & _ & Hf & _); [discriminate | discriminate | left; reflexivity |].
  exists e. split; assumption.
Defined.
End InputChecks.

(** ** The rate limiters *)

Module Limiters.

Ltac run_monad :=
  unfold bind, ret, throw, try_except, the_self, update_self, datetime_now,
    lift_result, count_request; cbn [fst snd].

Lemma seconds_nonneg (us : Z) : 0 <= us -> (0 <= seconds us)%Q.
Proof. intros H. unfold seconds, Qle. cbn. lia. Qed.

(** X10: The counter of the FRED limiter stays within the limit: from a count
    between 0 and a positive limit, a call leaves a count between 0 and the
    limit whether it returns or raises, and at least 1 when it returns. *)
Theorem fred_counter_stays_within_limit clock (self : Fred.FREDDataSource)
    (w : World) :
  0 < Fred.rate_limit self ->
  0 <= Fred.requests_this_minute self <= Fred.rate_limit self ->
  let out := Fred._enforce_rate_limit clock (self, w) in
  Fred.rate_limit out.2.1 = Fred.rate_limit self /\
  0 <= Fred.requests_this_minute out.2.1 <= Fred.rate_limit self /\
  (is_ok out.1 = true -> 1 <= Fred.requests_this_minute out.2.1).
Proof.
  intros Hpos Hcount out. subst out.
  destruct (Z.leb_spec Fred.minute (clock (ticks w) - Fred.minute_window_start self))
    as [Hnew | Hin].
  - rewrite FredLimiter.ok_new_window by assumption.
    unfold Scenarios.admitted. destruct self; cbn in *. lia.
  - destruct (Z.leb_spec (Fred.rate_limit self) (Fred.requests_this_minute self))
      as [Hfull | Hroom].
    + rewrite FredLimiter.raise_in_window by assumption.
      cbn. split; [reflexivity|]. split; [lia | discriminate].
    + rewrite FredLimiter.ok_in_window by assumption.
      unfold Scenarios.admitted. destruct self; cbn in *. lia.
Qed.

Lemma fred_counter_stays_within_limit_witness :
  Fred.requests_this_minute
    (Fred._enforce_rate_limit (Scenarios.steady_clock Scenarios.jan_1_2023 1000)
       (Scenarios.fred_client 2, world0)).2.1 <= 2.
Proof.
  destruct (fred_counter_stays_within_limit
              (Scenarios.steady_clock Scenarios.jan_1_2023 1000)
              (Scenarios.fred_client 2) world0) as (_ & H & _).
  - reflexivity.
  - cbn. lia.
  - apply H.
Defined.

(** X11: The FRED limiter sleeps only to keep requests half a second apart: a
    call sleeps at most once, never when it raises, and, the clock not
    being behind the last request, for no more than half a second. *)
Theorem fred_limiter_sleeps_at_most_half_a_second clock
    (self : Fred.FREDDataSource) (w : World) :
  Fred.last_request_time self <= clock (ticks w) ->
  let out := Fred._enforce_rate_limit clock (self, w) in
  sent out.2.2 = sent w /\
  (is_ok out.1 = false -> slept out.2.2 = slept w) /\
  (slept out.2.2 = slept w \/
   exists d, slept out.2.2 = slept w ++ [d] /\ (0 < d)%Q /\ (d <= 1 # 2)%Q).
Proof.
  intros Hlast out. subst out.
  assert (Hadm : forall start count,
    let s' := Scenarios.admitted clock self w start count in
    sent s'.2 = sent w /\
    (slept s'.2 = slept w \/
     exists d, slept s'.2 = slept w ++ [d] /\ (0 < d)%Q /\ (d <= 1 # 2)%Q)).
  { intros start count. unfold Scenarios.admitted. cbn [fst snd sent slept].
    split; [reflexivity|].
    destruct (Z.ltb_spec (clock (ticks w) - Fred.last_request_time self)
                Fred.half_second) as [Hs | Hs]; [|left; reflexivity].
    right. eexists. split; [reflexivity|].
    unfold seconds, Qlt, Qle, Fred.half_second in *. cbn. lia. }
  destruct (Z.leb_spec Fred.minute
              (clock (ticks w) - Fred.minute_window_start self)) as [Hnew | Hin].
  - destruct (Z.ltb_spec 0 (Fred.rate_limit self)) as [Hpos | Hnone].
    + rewrite FredLimiter.ok_new_window by assumption.
      destruct (Hadm (clock (ticks w)) 0) as [H1 H2].
      split; [exact H1|]. split; [discriminate | exact H2].
    + destruct (FredLimiter.raise_new_window clock self w Hnew Hnone)
        as (e & -> & _).
      cbn. split; [reflexivity|]. split; [reflexivity | left; reflexivity].
  - destruct (Z.leb_spec (Fred.rate_limit self) (Fred.requests_this_minute self))
      as [Hfull | Hroom].
    + rewrite FredLimiter.raise_in_window by assumption.
      cbn. split; [reflexivity|]. split; [reflexivity | left; reflexivity].
    + rewrite FredLimiter.ok_in_window by assumption.
      destruct (Hadm (Fred.minute_window_start self)
                  (Fred.requests_this_minute self)) as [H1 H2].
      split; [exact H1|]. split; [discriminate | exact H2].
Qed.

Lemma fred_limiter_sleeps_witness :
  sent (Fred._enforce_rate_limit (Scenarios.steady_clock Scenarios.jan_1_2023 1000)
          (Scenarios.fred_client 2, world0)).2.2 = 0%nat.
Proof.
  destruct (fred_limiter_sleeps_at_most_half_a_second
              (Scenarios.steady_clock Scenarios.jan_1_2023 1000)
              (Scenarios.fred_client 2) world0) as (H & _).
  - vm_compute. discriminate.
  - exact H.
Defined.

(** X12: The Haver limiter never raises and sends nothing: it reads the clock
    twice, records the second reading as the time of the last request, and
    sleeps at most once, for the part of the minimum interval that has not
    passed (no more than the interval, the clock not being behind the last
    request). *)
Theorem haver_limiter_never_raises clock (self : Haver.HaverDataSource)
    (w : World) :
  Haver.last_request_time self <= clock (ticks w) ->
  exists sl,
    Haver._enforce_rate_limit clock (self, w)
    = (Ok tt, (Haver.set_last_request_time (clock (S (ticks w))) self,
               mk_World (S (S (ticks w))) (sent w) sl)) /\
    (sl = slept w \/
     exists d, sl = slept w ++ [d] /\ (0 < d)%Q /\
               (d <= Haver.min_request_interval self)%Q).
Proof.
  intros Hlast. unfold Haver._enforce_rate_limit. run_monad.
  destruct w as [t n sl]. cbn [ticks sent slept] in *.
  set (elapsed := seconds (clock t - Haver.last_request_time self)).
  assert (He : (0 <= elapsed)%Q) by (apply seconds_nonneg; lia).
  destruct (Qle_bool (Haver.min_request_interval self) elapsed) eqn:E;
    cbn [negb fst snd ticks sent slept].
  - eexists. split; [reflexivity|]. left. reflexivity.
  - assert (Hlt : (elapsed < Haver.min_request_interval self)%Q).
    { apply Qnot_le_lt. intros H. apply Qle_bool_iff in H. congruence. }
    assert (Hpos : (0 < Haver.min_request_interval self - elapsed)%Q).
    { unfold Qminus. apply (proj1 (Qlt_minus_iff _ _)). exact Hlt. }
    rewrite Sleep.time_sleep_returns by (apply Qlt_le_weak; exact Hpos).
    cbn [fst snd ticks sent slept].
    eexists. split; [reflexivity|]. right. eexists. split; [reflexivity|].
    split.
    + exact Hpos.
    + apply Qle_minus_iff. unfold Qminus.
      assert (Heq : (Haver.min_request_interval self +
                     - (Haver.min_request_interval self + - elapsed) == elapsed)%Q)
        by ring.
      rewrite Heq. exact He.
Qed.

Lemma haver_limiter_never_raises_witness :
  (Haver._enforce_rate_limit (Scenarios.steady_clock Scenarios.jan_1_2023 1000)
     (Absent.haver_client, world0)).1 = Ok tt.
Proof.
  destruct (haver_limiter_never_raises
              (Scenarios.steady_clock Scenarios.jan_1_2023 1000)
              Absent.haver_client world0) as (sl & H & _).
  - vm_compute. discriminate.
  - rewrite H. reflexivity.
Defined.

(** *** The limiter of the base class *)

Lemma timedelta_seconds_range us :
  0 <= BaseClass.timedelta_seconds us < 86400.
Proof. unfold BaseClass.timedelta_seconds. apply Z.mod_pos_bound. lia. Qed.

(** X13: The limiter of the base class never raises and never sends; where it
    waits, it sleeps once, for a whole number of seconds between 1 and 60,
    and opens a new window; it leaves a time of the last request set. *)
Theorem base_limiter_never_raises clock (self : BaseClass.DataSourceState)
    (w : World) :
  exists self' w',
    BaseClass._enforce_rate_limit clock (self, w) = (Ok tt, (self', w')) /\
    BaseClass.rate_limit self' = BaseClass.rate_limit self /\
    BaseClass._last_request_time self' <> None /\
    sent w' = sent w /\
    ((slept w' = slept w /\ ticks w' = S (ticks w)) \/
     exists n, 1 <= n <= 60 /\ slept w' = slept w ++ [inject_Z n] /\
               ticks w' = S (S (ticks w)) /\
               BaseClass._request_count self' = 1 /\
               BaseClass._last_request_time self' = Some (clock (S (ticks w)))).
Proof.
  unfold BaseClass._enforce_rate_limit. run_monad.
  destruct w as [t n sl], self as [lim last cnt].
  cbn [ticks sent slept BaseClass._last_request_time BaseClass.rate_limit
       BaseClass._request_count].
  pose proof (timedelta_seconds_range (clock t - clock t)) as Hr0.
  destruct last as [last|]; cbn.
  - pose proof (timedelta_seconds_range (clock t - last)) as Hr.
    destruct (Fred.minute <? clock t - last) eqn:Enew; cbn.
    + destruct (lim <=? 0) eqn:Efull; cbn;
        [destruct (Z.ltb_spec 0 (60 - BaseClass.timedelta_seconds (clock t - clock t)))
           as [Ew | Ew];
         [rewrite Sleep.time_sleep_returns
            by (apply Sleep.whole_seconds_nonneg; lia)|]; cbn |];
        do 2 eexists; (split; [reflexivity|]); cbn;
        repeat split; try discriminate;
        try (left; split; reflexivity).
      right. eexists. split; [|repeat split]. lia.
    + destruct (lim <=? cnt) eqn:Efull; cbn;
        [destruct (Z.ltb_spec 0 (60 - BaseClass.timedelta_seconds (clock t - last)))
           as [Ew | Ew];
         [rewrite Sleep.time_sleep_returns
            by (apply Sleep.whole_seconds_nonneg; lia)|]; cbn |];
        do 2 eexists; (split; [reflexivity|]); cbn;
        repeat split; try discriminate;
        try (left; split; reflexivity).
      right. eexists. split; [|repeat split]. lia.
  - destruct (lim <=? 0) eqn:Efull; cbn;
      [destruct (Z.ltb_spec 0 (60 - BaseClass.timedelta_seconds (clock t - clock t)))
         as [Ew | Ew];
       [rewrite Sleep.time_sleep_returns
          by (apply Sleep.whole_seconds_nonneg; lia)|]; cbn |];
      do 2 eexists; (split; [reflexivity|]); cbn;
      repeat split; try discriminate;
      try (left; split; reflexivity).
    right. eexists. split; [|repeat split]. lia.
Qed.
End Limiters.

(** ** The base class: counting, the connection test *)

Module BaseClassProps.

Ltac run_monad :=
  unfold bind, ret, throw, try_except, the_self, update_self, datetime_now,
    lift_result, count_request; cbn [fst snd].

(** X14: While the clock moves forward and a call does not fall exactly 60
    seconds after the start of the window, the limiter of the base class
    keeps the count between 1 and a positive limit, so that
    [get_rate_limit_status] reports [used + remaining = limit]. *)
Theorem base_counter_stays_within_limit clock
    (self : BaseClass.DataSourceState) (w : World) :
  1 <= BaseClass.rate_limit self ->
  0 <= BaseClass._request_count self <= BaseClass.rate_limit self ->
  (forall last, BaseClass._last_request_time self = Some last ->
     0 <= clock (ticks w) - last /\ clock (ticks w) - last <> Fred.minute) ->
  let self' := (BaseClass._enforce_rate_limit clock (self, w)).2.1 in
  let status := BaseClass.get_rate_limit_status self' in
  1 <= BaseClass.used status <= BaseClass.limit status /\
  BaseClass.limit status = BaseClass.rate_limit self /\
  BaseClass.used status + BaseClass.remaining status = BaseClass.limit status.
Proof.
  intros Hlim Hcount Hclock self' status. subst status self'.
  unfold BaseClass._enforce_rate_limit, BaseClass.get_rate_limit_status.
  run_monad.
  destruct w as [t n sl], self as [lim last cnt].
  cbn [ticks sent slept BaseClass._last_request_time BaseClass.rate_limit
       BaseClass._request_count] in *.
  destruct last as [last|]; cbn.
  - destruct (Hclock last eq_refl) as [Hfwd Hedge].
    destruct (Z.ltb_spec Fred.minute (clock t - last)) as [Hnew | Hin]; cbn.
    + destruct (Z.leb_spec lim 0); [lia|]. cbn. lia.
    + destruct (Z.leb_spec lim cnt) as [Hfull | Hroom]; cbn.
      * assert (Hs : 0 <= BaseClass.timedelta_seconds (clock t - last) < 60).
        { unfold BaseClass.timedelta_seconds, Fred.minute in *.
          assert (0 <= (clock t - last) / 1000000 < 60).
          { split; [apply Z.div_pos; lia|].
            apply Z.div_lt_upper_bound; lia. }
          rewrite Z.mod_small by lia. lia. }
        destruct (Z.ltb_spec 0 (60 - BaseClass.timedelta_seconds (clock t - last)));
          [|lia].
        rewrite Sleep.time_sleep_returns
          by (apply Sleep.whole_seconds_nonneg; lia).
        cbn. lia.
      * cbn. lia.
  - destruct (Z.leb_spec lim 0); [lia|]. cbn. lia.
Qed.

Lemma base_counter_stays_within_limit_witness :
  let status self :=
    BaseClass.get_rate_limit_status
      (BaseClass._enforce_rate_limit (Scenarios.steady_clock 30000000 1000)
         (self, world0)).2.1 in
  (BaseClass.used (status (BaseClass.mk_state 5 (Some 0) 2)) = 3 /\
   BaseClass.remaining (status (BaseClass.mk_state 5 (Some 0) 2)) = 2) /\
  (BaseClass.used (status (BaseClass.mk_state 5 (Some 0) 5)) = 1 /\
   BaseClass.remaining (status (BaseClass.mk_state 5 (Some 0) 5)) = 4).
Proof.
  intros status. subst status. cbv beta.
  split.
  - destruct (base_counter_stays_within_limit
                (Scenarios.steady_clock 30000000 1000)
                (BaseClass.mk_state 5 (Some 0) 2) world0) as (_ & _ & H).
    + cbn. lia.
    + cbn. lia.
    + intros last [= <-]. vm_compute. split; discriminate.
    + split; [vm_compute; reflexivity|].
      cbv zeta in H. vm_compute in H |- *. lia.
  - destruct (base_counter_stays_within_limit
                (Scenarios.steady_clock 30000000 1000)
                (BaseClass.mk_state 5 (Some 0) 5) world0) as (_ & _ & H).
    + cbn. lia.
    + cbn. lia.
    + intros last [= <-]. vm_compute. split; discriminate.
    + split; [vm_compute; reflexivity|].
      cbv zeta in H. vm_compute in H |- *. lia.
Defined.

(** X15: Exactly 60 seconds after the start of the window the limiter of the
    base class neither opens a new window (the test is [>]) nor waits
    (the remaining time is 0): a call at the limit is let through, and the
    count passes the limit. *)
Theorem base_limiter_lets_through_at_sixty_seconds clock
    (self : BaseClass.DataSourceState) (w : World) (last : Z) :
  BaseClass._last_request_time self = Some last ->
  clock (ticks w) - last = Fred.minute ->
  BaseClass.rate_limit self <= BaseClass._request_count self ->
  BaseClass._enforce_rate_limit clock (self, w)
  = (Ok tt,
     (BaseClass.set__request_count (BaseClass._request_count self + 1) self,
      Scenarios.tick w)) /\
  BaseClass.rate_limit self < BaseClass._request_count self + 1 /\
  BaseClass.remaining
    (BaseClass.get_rate_limit_status
       (BaseClass.set__request_count (BaseClass._request_count self + 1) self))
  = 0.
Proof.
  intros Hlast Hedge Hfull.
  unfold BaseClass._enforce_rate_limit, BaseClass.get_rate_limit_status.
  run_monad.
  destruct w as [t n sl], self as [lim last' cnt].
  cbn [ticks sent slept BaseClass._last_request_time BaseClass.rate_limit
       BaseClass._request_count] in *.
  subst last'. cbn. rewrite Hedge, Z.ltb_irrefl. cbn.
  destruct (Z.leb_spec lim cnt); [|lia]. cbn. rewrite Hedge.
  change (0 <? 60 - BaseClass.timedelta_seconds Fred.minute) with false.
  cbn. split; [reflexivity|]. split; lia.
Qed.

Lemma base_limiter_lets_through_witness :
  BaseClass._request_count
    (BaseClass._enforce_rate_limit (Scenarios.steady_clock 60000000 1000)
       (BaseClass.mk_state 5 (Some 0) 5, world0)).2.1 = 6.
Proof.
  destruct (base_limiter_lets_through_at_sixty_seconds
              (Scenarios.steady_clock 60000000 1000)
              (BaseClass.mk_state 5 (Some 0) 5) world0 0) as (H & _).
  - reflexivity.
  - reflexivity.
  - cbn. lia.
  - rewrite H. reflexivity.
Defined.

Section test_connection.
Context {S : Type}.
Variable connect : M (S * World) (option bool).
Variable disconnect : M (S * World) unit.

Lemma test_connection_cases (s : S * World) :
  BaseClass.test_connection connect disconnect s =
    match connect s with
    | (Ok (Some true), s1) =>
        match disconnect s1 with
        | (Ok _, s2) => (Ok true, s2)
        | (Raise _, s2) => (Ok false, s2)
        end
    | (_, s1) => (Ok false, s1)
    end.
Proof.
  unfold BaseClass.test_connection. run_monad.
  destruct (connect s) as [[[[|]|]|e] s1]; cbn; try reflexivity.
  destruct (disconnect s1) as [[[]|e] s2]; reflexivity.
Qed.
End test_connection.

(** X16: [test_connection] never raises on either client.  It returns [True]
    exactly when [connect] returned [True], and has then disconnected:
    the client is left without session and not connected.  When [connect]
    fails, the client is left as the failed [connect] left it. *)
Theorem test_connection_never_raises clock
    (fred_http : nat -> string -> gmap string pyval -> reply Fred.json)
    (haver_http : nat -> string -> gmap string pyval -> reply Haver.json)
    (fred : Fred.FREDDataSource * World) (haver : Haver.HaverDataSource * World) :
  (exists b s',
     BaseClass.test_connection (Fred.connect clock fred_http) Fred.disconnect fred
       = (Ok b, s') /\
     (b = true <-> (Fred.connect clock fred_http fred).1 = Ok (Some true)) /\
     (b = true -> Fred.is_connected s'.1 = false /\ Fred.session s'.1 = false) /\
     (b = false -> s' = (Fred.connect clock fred_http fred).2)) /\
  (exists b s',
     BaseClass.test_connection (Haver.connect clock haver_http) Haver.disconnect
       haver = (Ok b, s') /\
     (b = true <-> (Haver.connect clock haver_http haver).1 = Ok (Some true)) /\
     (b = true -> Haver.is_connected s'.1 = false /\ Haver.session s'.1 = false) /\
     (b = false -> s' = (Haver.connect clock haver_http haver).2)).
Proof.
  split; rewrite test_connection_cases.
  - destruct (Fred.connect clock fred_http fred) as [[[[|]|]|e] [s1 w1]];
      cbn [fst snd];
      (do 2 eexists; split; [reflexivity|];
           repeat split; intros; try discriminate; congruence).
  - destruct (Haver.connect clock haver_http haver) as [[[[|]|]|e] [s1 w1]];
      cbn [fst snd];
      (do 2 eexists; split; [reflexivity|];
           repeat split; intros; try discriminate; congruence).
Qed.

(** *** [ErrorContext] *)

Section error_context.
Context {U A : Type}.
Variable clock : nat -> Z.
Variable cleanup : M ((option Z * U) * World) unit.

(** X17: [with ErrorContext(.., cleanup_func=cleanup): body]: when the body
    returns, its result is the result and the cleanup function is not
    called; when the body raises, the cleanup function runs once on the
    state the body left, and the exception of the body is raised again,
    also when the cleanup function itself raises. *)
Theorem error_context_runs_cleanup_on_failure_only
    (body : M ((option Z * U) * World) A) (u : U) (start : option Z) (w : World) :
  let entered : (option Z * U) * World :=
    ((Some (clock (ticks w)), u), Scenarios.tick w) in
  let closed (s : (option Z * U) * World) : (option Z * U) * World :=
    match s.1.1 with Some _ => (s.1, Scenarios.tick s.2) | None => s end in
  with_ (ErrorContext.__enter__ clock)
        (ErrorContext.__exit__ clock (Some cleanup)) body ((start, u), w)
  = match body entered with
    | (Ok a, s) => (Ok (Some a), closed s)
    | (Raise e, s) => (Raise e, (cleanup (closed s)).2)
    end.
Proof.
  intros entered closed. subst entered closed.
  unfold with_, ErrorContext.__enter__, ErrorContext.__exit__. run_monad.
  destruct w as [t n sl]. cbn.
  destruct (body _) as [[a|e] [[st u'] w']]; cbn.
  - destruct st; cbn; destruct w'; reflexivity.
  - destruct st; cbn; destruct w' as [t' n' sl']; unfold Scenarios.tick; cbn;
      match goal with |- context [cleanup ?s] =>
        destruct (cleanup s) as [[[]|e'] s3] end; reflexivity.
Qed.
End error_context.

End BaseClassProps.

(** ** Connecting *)

Module Connect.
Import RetryScenarios ConnectScenarios.

Ltac run_monad :=
  unfold bind, ret, throw, try_except, the_self, update_self, datetime_now,
    lift_result, count_request; cbn [fst snd].

Section always_failing.
Context {S A : Type}.
Variables (retry_count : Z) (retry_delay backoff_factor : Q).
Variable retriable_exceptions : list exc_class.
Variables func_name args_repr kwargs_repr : string.
Variable func : M (S * World) A.
Variable step : S -> S.
Variable P : exc -> Prop.
Hypothesis Hfunc :
  forall self w, exists e,
    func (self, w) = (Raise e, (step self, bump w)) /\
    isinstance_any e retriable_exceptions = true /\ P e.

Lemma attempts_always_failing :
  forall (n i : nat) (self : S) (w : World) (last : option exc),
  (forall j, (i <= j < i + n)%nat -> sleepable retry_delay backoff_factor j) ->
  Z.of_nat i + Z.of_nat n = retry_count ->
  exists e,
    attempts retry_count retry_delay backoff_factor retriable_exceptions
      func_name args_repr kwargs_repr func (Datatypes.S n) (Z.of_nat i) last
      (self, w)
    = (Raise e,
       (Nat.iter (Datatypes.S n) step self,
        mk_World (ticks w) (sent w + Datatypes.S n)
          (slept w ++ backoff_delays retry_delay backoff_factor i n))) /\
    P e.
Proof.
  induction n as [|n IH]; intros i self w last Hsleep Hcount.
  - destruct (Hfunc self w) as (e & Hrun & Hretry & He).
    exists e. split; [|exact He].
    cbn [attempts]. rewrite Hrun, Hretry.
    destruct (Z.of_nat i <? retry_count) eqn:E; [lia|].
    cbn [Nat.iter nat_rect]. unfold bump, backoff_delays. cbn [seq fmap list_fmap].
    rewrite app_nil_r, Nat.add_1_r. reflexivity.
  - destruct (Hfunc self w) as (e0 & Hrun & Hretry & _).
    remember (Datatypes.S n) as m eqn:Em.
    cbn [attempts]. rewrite Hrun, Hretry.
    destruct (Z.of_nat i <? retry_count) eqn:E; [|lia].
    unfold bind, lift_result. rewrite Retry.retry_sleep_time_is_backoff.
    rewrite Sleep.time_sleep_returns by (apply (Hsleep i); lia).
    cbn [fst snd]. subst m.
    replace (Z.of_nat i + 1) with (Z.of_nat (Datatypes.S i)) by lia.
    destruct (IH (Datatypes.S i) (step self)
                (mk_World (ticks (bump w)) (sent (bump w))
                   (slept (bump w) ++
                    [(retry_delay * backoff_factor ^ Z.of_nat i)%Q]))
                (Some e0)) as (e & Hrest & He).
    { intros j Hj. apply Hsleep. lia. }
    { lia. }
    exists e. split; [|exact He]. rewrite Hrest.
    rewrite <- (Nat.iter_succ_r (Datatypes.S n) step self). unfold bump.
    cbn [ticks sent slept].
    unfold backoff_delays. cbn [seq fmap list_fmap].
    rewrite <- app_assoc. cbn [app].
    replace (Datatypes.S (sent w) + Datatypes.S n)%nat
      with (sent w + Datatypes.S (Datatypes.S n))%nat by lia.
    reflexivity.
Qed.

Lemma wrapper_always_failing (self : S) (w : World) :
  (forall j, (j < Z.to_nat retry_count)%nat ->
     sleepable retry_delay backoff_factor j) ->
  0 <= retry_count ->
  exists e,
    wrapper retry_count retry_delay backoff_factor retriable_exceptions
      func_name args_repr kwargs_repr func (self, w)
    = (Raise e,
       (Nat.iter (Datatypes.S (Z.to_nat retry_count)) step self,
        mk_World (ticks w) (sent w + Datatypes.S (Z.to_nat retry_count))
          (slept w ++ backoff_delays retry_delay backoff_factor 0
                        (Z.to_nat retry_count)))) /\
    P e.
Proof.
  intros Hsleep Hc. unfold wrapper.
  replace (Z.to_nat (retry_count + 1)) with (Datatypes.S (Z.to_nat retry_count))
    by lia.
  apply (attempts_always_failing (Z.to_nat retry_count) 0%nat);
    [intros j Hj; apply Hsleep; lia | lia].
Qed.
End always_failing.

(** The delays of the two [connect] schedules are valid lengths. *)
Lemma connect_schedules_sleepable (j : nat) :
  (j < 3)%nat -> sleepable 1 2 j /\ sleepable 2 2 j.
Proof.
  intros Hj. destruct j as [|[|[|j]]]; [| | |lia];
    (split; apply Retry.sleepable_by_computation; vm_compute; reflexivity).
Qed.

Section clients.
Variable clock : nat -> Z.

Lemma fred_connect_body_unavailable http :
  (forall n url params, unavailable (http n url params)) ->
  forall (self : Fred.FREDDataSource) (w : World), exists e,
    Fred.connect_body clock http (self, w)
    = (Raise e, (Fred.set_session true self, bump w)) /\
    isinstance_any e default_retriable = true /\ cls e = ConnectionError.
Proof.
  intros Hhttp self [t n sl].
  unfold Fred.connect_body, Fred.session_get. run_monad. cbn.
  match goal with |- context [http ?a ?b ?c] =>
    pose proof (Hhttp a b c) as Hr;
    destruct (http a b c) as [msg | msg | msg | st body]
  end; cbn in Hr; try contradiction.
  - eexists. split; [reflexivity|]. split; reflexivity.
  - eexists. split; [reflexivity|]. split; reflexivity.
  - destruct (Z.eqb_spec st 400); [lia|]. cbn.
    unfold is_http_error.
    destruct (Z.leb_spec 400 st); [|lia].
    destruct (Z.ltb_spec st 600); [|lia]. cbn.
    destruct (Z.eqb_spec st 401); [lia|]. cbn.
    eexists. split; [reflexivity|]. split; reflexivity.
Qed.

Lemma haver_connect_body_unavailable http :
  (forall n url params, unavailable (http n url params)) ->
  forall (self : Haver.HaverDataSource) (w : World), exists e,
    Haver.connect_body clock http (self, w)
    = (Raise e, (Haver.set_session true self, bump w)) /\
    isinstance_any e default_retriable = true /\ cls e = ConnectionError.
Proof.
  intros Hhttp self [t n sl].
  unfold Haver.connect_body, Haver.session_get. run_monad. cbn.
  match goal with |- context [http ?a ?b ?c] =>
    pose proof (Hhttp a b c) as Hr;
    destruct (http a b c) as [msg | msg | msg | st body]
  end; cbn in Hr; try contradiction.
  - eexists. split; [reflexivity|]. split; reflexivity.
  - eexists. split; [reflexivity|]. split; reflexivity.
  - destruct (Z.eqb_spec st 401); [lia|].
    destruct (Z.eqb_spec st 403); [lia|].
    unfold is_http_error.
    destruct (Z.leb_spec 400 st); [|lia].
    destruct (Z.ltb_spec st 600); [|lia]. cbn.
    eexists. split; [reflexivity|]. split; reflexivity.
Qed.

(** X18: Against a server that is unavailable (each request meets no
    connection, a timeout or a 5xx status, not necessarily the same one),
    [connect] sends four requests, sleeping 1, 2 and 4 seconds between
    them on FRED and 2, 4 and 8 on Haver, and then raises
    [ConnectionError]; the client is left with a session, and its
    [is_connected] flag as it was before the call: a client that was not
    connected stays so. *)
Theorem connect_gives_up_after_four_requests
    (fred_http : nat -> string -> gmap string pyval -> reply Fred.json)
    (haver_http : nat -> string -> gmap string pyval -> reply Haver.json)
    (fred : Fred.FREDDataSource) (haver : Haver.HaverDataSource) (w : World) :
  (forall n url params, unavailable (fred_http n url params)) ->
  (forall n url params, unavailable (haver_http n url params)) ->
  (exists e fred', cls e = ConnectionError /\
     Fred.connect clock fred_http (fred, w)
     = (Raise e,
        (fred',
         mk_World (ticks w) (sent w + 4)
           (slept w ++ backoff_delays 1 2 0 3))) /\
     fred' = Fred.set_session true fred /\
     Fred.session fred' = true /\
     Fred.is_connected fred' = Fred.is_connected fred) /\
  (exists e haver', cls e = ConnectionError /\
     Haver.connect clock haver_http (haver, w)
     = (Raise e,
        (haver',
         mk_World (ticks w) (sent w + 4)
           (slept w ++ backoff_delays 2 2 0 3))) /\
     haver' = Haver.set_session true haver /\
     Haver.session haver' = true /\
     Haver.is_connected haver' = Haver.is_connected haver).
Proof.
  intros Hf Hh. split.
  - destruct (wrapper_always_failing 3 1 2 default_retriable "connect"
                "(FREDDataSource(...),)" "{}" (Fred.connect_body clock fred_http)
                (Fred.set_session true) (fun e => cls e = ConnectionError)
                (fred_connect_body_unavailable fred_http Hf) fred w)
      as (e & Hrun & Hc).
    + intros j Hj. apply connect_schedules_sleepable. exact Hj.
    + lia.
    + exists e, (Fred.set_session true fred). split; [exact Hc|].
      split; [exact Hrun|]. repeat split.
  - destruct (wrapper_always_failing 3 2 2 default_retriable "connect"
                "(HaverDataSource(...),)" "{}"
                (Haver.connect_body clock haver_http)
                (Haver.set_session true) (fun e => cls e = ConnectionError)
                (haver_connect_body_unavailable haver_http Hh) haver w)
      as (e & Hrun & Hc).
    + intros j Hj. apply connect_schedules_sleepable. exact Hj.
    + lia.
    + exists e, (Haver.set_session true haver). split; [exact Hc|].
      split; [exact Hrun|]. repeat split.
Qed.

(** X19: A refusal of the credentials is not retried: on a 401 (and on FRED a
    400 whose message names the API key, on Haver a 403) [connect] raises
    [AuthenticationError] after its first request, without sleeping, and
    the client stays not connected. *)
Theorem bad_credentials_are_not_retried
    (fred_http : nat -> string -> gmap string pyval -> reply Fred.json)
    (haver_http : nat -> string -> gmap string pyval -> reply Haver.json)
    (fred : Fred.FREDDataSource) (haver : Haver.HaverDataSource) (w : World)
    (rf : reply Fred.json) (rh : reply Haver.json) :
  (forall url params, fred_http (sent w) url params = rf) ->
  (forall url params, haver_http (sent w) url params = rh) ->
  ((exists body, rf = Response 401 body) \/
   (exists m ob ss, rf = Response 400 (Some (Fred.mk_json (Some m) ob ss)) /\
                    PyStr.contains "api_key" (PyStr.lower m) = true)) ->
  (exists body, rh = Response 401 body \/ rh = Response 403 body) ->
  (exists e, cls e = AuthenticationError /\
     Fred.connect clock fred_http (fred, w)
     = (Raise e, (Fred.set_session true fred, bump w))) /\
  (exists e, cls e = AuthenticationError /\
     Haver.connect clock haver_http (haver, w)
     = (Raise e, (Haver.set_session true haver, bump w))).
Proof.
  intros Hf Hh Hrf Hrh. destruct w as [t n sl]. cbn [sent] in *. split.
  - unfold Fred.connect, wrapper. change (Z.to_nat (3 + 1)) with 4%nat.
    cbn [attempts]. unfold Fred.connect_body, Fred.session_get. run_monad.
    cbn. rewrite Hf.
    destruct Hrf as [[body ->] | (m & ob & ss & -> & Hm)].
    + cbn. eexists. split; [|reflexivity]. reflexivity.
    + cbn. rewrite Hm. cbn. eexists. split; [|reflexivity]. reflexivity.
  - unfold Haver.connect, wrapper. change (Z.to_nat (3 + 1)) with 4%nat.
    cbn [attempts]. unfold Haver.connect_body, Haver.session_get. run_monad.
    cbn. rewrite Hh.
    destruct Hrh as [body [-> | ->]]; cbn;
      (eexists; split; [|reflexivity]; reflexivity).
Qed.

(** X20: A successful [connect] (a status below 400) returns [True] after one
    request and no sleep, and leaves the client connected.  On FRED the
    probe is counted: the window starts at the first reading of the clock
    with a count of 1. *)
Theorem connect_succeeds_and_counts_the_probe
    (fred_http : nat -> string -> gmap string pyval -> reply Fred.json)
    (haver_http : nat -> string -> gmap string pyval -> reply Haver.json)
    (fred : Fred.FREDDataSource) (haver : Haver.HaverDataSource) (w : World)
    (st : Z) (bf : option Fred.json) (bh : option Haver.json) :
  st < 400 ->
  (forall url params, fred_http (sent w) url params = Response st bf) ->
  (forall url params, haver_http (sent w) url params = Response st bh) ->
  (exists fred',
     Fred.connect clock fred_http (fred, w)
     = (Ok (Some true),
        (fred', mk_World (S (S (ticks w))) (S (sent w)) (slept w))) /\
     Fred.is_connected fred' = true /\ Fred.session fred' = true /\
     Fred.requests_this_minute fred' = 1 /\
     Fred.minute_window_start fred' = clock (ticks w) /\
     Fred.last_request_time fred' = clock (S (ticks w)) /\
     Fred.rate_limit fred' = Fred.rate_limit fred) /\
  (exists haver',
     Haver.connect clock haver_http (haver, w)
     = (Ok (Some true),
        (haver', mk_World (S (ticks w)) (S (sent w)) (slept w))) /\
     Haver.is_connected haver' = true /\ Haver.session haver' = true /\
     Haver.last_request_time haver' = clock (ticks w)).
Proof.
  intros Hst Hf Hh. destruct w as [t n sl]. cbn [sent ticks slept] in *. split.
  - unfold Fred.connect, wrapper. change (Z.to_nat (3 + 1)) with 4%nat.
    cbn [attempts]. unfold Fred.connect_body, Fred.session_get. run_monad.
    cbn. rewrite Hf.
    destruct (Z.eqb_spec st 400); [lia|]. cbn.
    unfold is_http_error. destruct (Z.leb_spec 400 st); [lia|]. cbn.
    eexists. split; [reflexivity|]. repeat split.
  - unfold Haver.connect, wrapper. change (Z.to_nat (3 + 1)) with 4%nat.
    cbn [attempts]. unfold Haver.connect_body, Haver.session_get. run_monad.
    cbn. rewrite Hh.
    destruct (Z.eqb_spec st 401); [lia|].
    destruct (Z.eqb_spec st 403); [lia|].
    unfold is_http_error. destruct (Z.leb_spec 400 st); [lia|]. cbn.
    eexists. split; [reflexivity|]. repeat split.
Qed.

End clients.
Lemma connect_gives_up_witness :
  exists e fred', cls e = ConnectionError /\
    Fred.connect (Scenarios.steady_clock 0 1) flaky_server
      (Scenarios.fred_client 120, world0)
    = (Raise e, (fred', mk_World 0 4 (backoff_delays 1 2 0 3))) /\
    Fred.is_connected fred' = false.
Proof.
  destruct (connect_gives_up_after_four_requests (Scenarios.steady_clock 0 1)
              flaky_server down
              (Scenarios.fred_client 120) Absent.haver_client world0)
    as [(e & fred' & Hc & Hrun & _ & _ & Hconn) _].
  - intros n url params. unfold flaky_server.
    destruct (Nat.even n); [exact I | cbn; lia].
  - intros n url params. exact I.
  - exists e, fred'. split; [exact Hc|]. split; [exact Hrun|].
    rewrite Hconn. reflexivity.
Defined.

Lemma bad_credentials_witness :
  exists e, cls e = AuthenticationError /\
    Haver.connect (Scenarios.steady_clock 0 1) (refusing 403)
      (Absent.haver_client, world0)
    = (Raise e, (Haver.set_session true Absent.haver_client, bump world0)).
Proof.
  destruct (bad_credentials_are_not_retried (Scenarios.steady_clock 0 1)
              (refusing 401) (refusing 403)
              (Scenarios.fred_client 120) Absent.haver_client world0
              (Response 401 None) (Response 403 None))
    as [_ H]; [reflexivity | reflexivity | left; eexists; reflexivity
              | eexists; right; reflexivity |].
  exact H.
Defined.

Lemma connect_succeeds_witness :
  exists fred',
    Fred.connect (Scenarios.steady_clock 0 1) Scenarios.fred_ok
      (Scenarios.fred_client 120, world0)
    = (Ok (Some true), (fred', mk_World 2 1 [])) /\
    Fred.requests_this_minute fred' = 1.
Proof.
  destruct (connect_succeeds_and_counts_the_probe (Scenarios.steady_clock 0 1)
              Scenarios.fred_ok (refusing 200)
              (Scenarios.fred_client 120) Absent.haver_client world0
              200 (Some (Fred.mk_json None None None)) None)
    as [(fred' & H & _ & _ & Hc & _) _]; [lia | reflexivity | reflexivity |].
  exists fred'. split; assumption.
Defined.
End Connect.

(** ** From observations to series *)

Module Parse.
Import ParseScenarios ConnectScenarios.

Ltac run_monad :=
  unfold bind, ret, throw, try_except, the_self, update_self, datetime_now,
    time_sleep, modify, lift_result, count_request; cbn [fst snd].

Lemma fred_parse_clean obs : forall dates values,
  Forall (fun o => poisons o = false) obs ->
  Fred.parse_observations obs dates values
  = Ok (dates ++ (omap numeric obs).*1, values ++ (omap numeric obs).*2).
Proof.
  induction obs as [|o obs IH]; intros dates values Hall.
  - cbn. rewrite !app_nil_r. reflexivity.
  - apply Forall_cons in Hall as [Ho Hall].
    destruct o as [[| |d] [| | | |q]];
      cbn [Fred.parse_observations omap list_omap numeric poisons
           Fred.date Fred.value] in *;
      try discriminate; rewrite IH by exact Hall; try reflexivity.
    cbn [fmap list_fmap fst snd]. rewrite <- !app_assoc. reflexivity.
Qed.

(** The lengths of the two lists drift apart by one for each observation
    whose date parses and whose value is not a number. *)
Lemma fred_parse_lengths obs : forall dates values dates' values',
  (length values <= length dates)%nat ->
  Fred.parse_observations obs dates values = Ok (dates', values') ->
  (length values' <= length dates')%nat /\
  (length values < length dates \/ Exists (fun o => poisons o = true) obs ->
   length values' < length dates')%nat.
Proof.
  induction obs as [|o obs IH]; intros dates values dates' values' Hle.
  - cbn. intros [= <- <-]. split; [exact Hle|].
    intros [H | H]; [exact H | inversion H].
  - cbn [Fred.parse_observations].
    assert (Hskip :
      poisons o = false ->
      Fred.parse_observations obs dates values = Ok (dates', values') ->
      (length values' <= length dates')%nat /\
      (length values < length dates \/ Exists (fun o => poisons o = true) (o :: obs) ->
       length values' < length dates')%nat).
    { intros Ho Hrun. destruct (IH _ _ _ _ Hle Hrun) as [H1 H2].
      split; [exact H1|]. intros [H | H]; [auto|].
      apply Exists_cons in H as [H | H]; [congruence | auto]. }
    destruct o as [[| |d] [| | | |q]];
      cbn [poisons Fred.date Fred.value] in *;
      try (apply Hskip; reflexivity).
    + (* an unreadable value: the date is already appended *)
      intros Hrun.
      apply IH in Hrun; [|rewrite length_app; cbn; lia].
      destruct Hrun as [H1 H2]. split; [exact H1|]. intros _. apply H2. left.
      rewrite length_app. cbn. lia.
    + discriminate.
    + intros Hrun.
      apply IH in Hrun; [|rewrite !length_app; cbn; lia].
      destruct Hrun as [H1 H2]. split; [exact H1|]. intros [H | H].
      * apply H2. left. rewrite !length_app. cbn. lia.
      * apply Exists_cons in H as [H | H]; [discriminate|]. apply H2. auto.
Qed.

Lemma fred_parse_raises obs : forall dates values e,
  Fred.parse_observations obs dates values = Raise e ->
  cls e = Foreign "TypeError".
Proof.
  induction obs as [|o obs IH]; intros dates values e; cbn.
  - discriminate.
  - destruct (Fred.date o) as [| |d], (Fred.value o) as [| | | |q];
      try apply IH. intros [= <-]. reflexivity.
Qed.

Lemma zip_fst_snd {A B} (l : list (A * B)) : zip l.*1 l.*2 = l.
Proof. induction l as [|[a b] l IH]; cbn; [|rewrite IH]; reflexivity. Qed.

Section fetch.
Variable http : nat -> string -> gmap string pyval -> reply Fred.json.
Variable haver_http : nat -> string -> gmap string pyval -> reply Haver.json.

Lemma fred_fetch_response (self : Fred.FREDDataSource) (w : World)
    series_id start_date end_date kwargs st data :
  Fred.session self = true ->
  (forall url params, http (sent w) url params = Response st (Some data)) ->
  is_http_error st = false ->
  Fred._fetch_series_observations http series_id start_date end_date kwargs
    (self, w)
  = match Fred.observations data with
    | None =>
        (Raise (new_DataRetrievalError
                  ("Invalid FRED API response format for series " +:+ series_id)
                  (Some [series_id]) None (Some st) None ∅), (self, bump w))
    | Some [] => (Ok empty_Series, (self, bump w))
    | Some obs =>
        match Fred.parse_observations obs [] [] with
        | Raise e => (Raise e, (self, bump w))
        | Ok (dates, values) =>
            match dates with
            | [] => (Ok empty_Series, (self, bump w))
            | _ => (new_Series values dates, (self, bump w))
            end
        end
    end.
Proof.
  intros Hs Hhttp Hst. unfold Fred._fetch_series_observations, Fred.session_get.
  run_monad. destruct w as [t n sl]. cbn [sent] in *. rewrite Hs. cbn.
  rewrite Hhttp. unfold fetch_json. rewrite Hst.
  destruct (Fred.observations data) as [[|o obs]|]; try reflexivity.
  destruct (Fred.parse_observations (o :: obs) [] []) as [[dates values]|e];
    [|reflexivity].
  destruct dates; reflexivity.
Qed.

(** X21: The series [_fetch_series_observations] returns holds the observations
    whose date and value both parse, in the order of the response:
    entries without a date or a value, with an unreadable date, or with
    the value ['.'] are left out, and the request is the only effect. *)
Theorem fred_series_holds_the_numeric_observations
    (self : Fred.FREDDataSource) (w : World)
    series_id start_date end_date kwargs st data obs :
  Fred.session self = true ->
  (forall url params, http (sent w) url params = Response st (Some data)) ->
  is_http_error st = false ->
  Fred.observations data = Some obs ->
  Forall (fun o => poisons o = false) obs ->
  Fred._fetch_series_observations http series_id start_date end_date kwargs
    (self, w)
  = (Ok (omap numeric obs), (self, bump w)).
Proof.
  intros Hs Hhttp Hst Hobs Hclean.
  rewrite (fred_fetch_response self w _ _ _ _ st data Hs Hhttp Hst), Hobs.
  destruct obs as [|o obs]; [reflexivity|].
  rewrite fred_parse_clean by exact Hclean. cbn [app].
  destruct (omap numeric (o :: obs)) as [|p l] eqn:E; [reflexivity|].
  rewrite <- E. destruct ((omap numeric (o :: obs)).*1) eqn:E1.
  { rewrite E in E1. discriminate. }
  rewrite <- E1. unfold new_Series.
  rewrite bool_decide_true by (rewrite !length_fmap; reflexivity).
  rewrite zip_fst_snd. reflexivity.
Qed.

(** X22: One observation whose date parses and whose value is neither a number
    nor ['.'] loses the whole series: [_fetch_series_observations] raises
    a [ValueError] or a [TypeError], which is no error of the hierarchy. *)
Theorem fred_unreadable_value_fails_the_series
    (self : Fred.FREDDataSource) (w : World)
    series_id start_date end_date kwargs st data obs :
  Fred.session self = true ->
  (forall url params, http (sent w) url params = Response st (Some data)) ->
  is_http_error st = false ->
  Fred.observations data = Some obs ->
  Exists (fun o => poisons o = true) obs ->
  exists e,
    Fred._fetch_series_observations http series_id start_date end_date kwargs
      (self, w) = (Raise e, (self, bump w)) /\
    (cls e = Foreign "ValueError" \/ cls e = Foreign "TypeError") /\
    isinstance e FederalReserveETLError = false.
Proof.
  intros Hs Hhttp Hst Hobs Hbad.
  rewrite (fred_fetch_response self w _ _ _ _ st data Hs Hhttp Hst), Hobs.
  destruct obs as [|o obs]; [inversion Hbad|].
  destruct (Fred.parse_observations (o :: obs) [] []) as [[dates values]|e] eqn:E.
  - destruct (fred_parse_lengths _ [] [] _ _ (Nat.le_refl 0) E) as [_ Hlt].
    specialize (Hlt (or_intror Hbad)).
    destruct dates as [|d dates]; [cbn in Hlt; lia|].
    unfold new_Series. rewrite bool_decide_false by lia.
    eexists. split; [reflexivity|]. split; [left|]; reflexivity.
  - pose proof (fred_parse_raises _ _ _ _ E) as Hc.
    exists e. split; [reflexivity|]. split; [right; exact Hc|].
    unfold isinstance. rewrite Hc. reflexivity.
Qed.

End fetch.
(** *** Haver *)

Lemma haver_parse_spec entries : forall dates values,
  (length values <= length dates)%nat ->
  let out := Haver.parse_entries entries dates values in
  (length out.2 <= length out.1)%nat /\
  (Forall (fun e => haver_poisons e = false) entries ->
   out = (dates ++ (omap haver_numeric entries).*1,
          values ++ (omap haver_numeric entries).*2)) /\
  (length values < length dates \/
   Exists (fun e => haver_poisons e = true) entries ->
   length out.2 < length out.1)%nat.
Proof.
  induction entries as [|e entries IH]; intros dates values Hle.
  - cbn. rewrite !app_nil_r. split; [exact Hle|]. split; [reflexivity|].
    intros [H | H]; [exact H | inversion H].
  - cbn [Haver.parse_entries omap list_omap].
    unfold haver_poisons, haver_numeric, date_str.
    destruct e as [[[d|d|]|] [[d'|d'|]|] tm [[q|]|]];
      cbn [Haver.e_date Haver.e_period Haver.e_value mbind option_bind
           parsed_date];
      try (destruct (IH dates values Hle) as (H1 & H2 & H3);
           split; [exact H1|]; split;
           [intros Hall; apply Forall_cons in Hall as [_ Hall];
            exact (H2 Hall)
           |intros [H | H]; [auto|];
            apply Exists_cons in H as [H | H]; [discriminate | auto]]);
      try (destruct (IH (dates ++ [d]) (values ++ [q])) as (H1 & H2 & H3);
           [rewrite !length_app; cbn; lia|];
           split; [exact H1|]; split;
           [intros Hall; apply Forall_cons in Hall as [_ Hall];
            rewrite (H2 Hall); cbn [fmap list_fmap fst snd];
            rewrite <- !app_assoc; reflexivity
           |intros [H | H];
            [apply H3; left; rewrite !length_app; cbn; lia|];
            apply Exists_cons in H as [H | H]; [discriminate | auto]]);
      try (destruct (IH (dates ++ [d']) (values ++ [q])) as (H1 & H2 & H3);
           [rewrite !length_app; cbn; lia|];
           split; [exact H1|]; split;
           [intros Hall; apply Forall_cons in Hall as [_ Hall];
            rewrite (H2 Hall); cbn [fmap list_fmap fst snd];
            rewrite <- !app_assoc; reflexivity
           |intros [H | H];
            [apply H3; left; rewrite !length_app; cbn; lia|];
            apply Exists_cons in H as [H | H]; [discriminate | auto]]);
      try (destruct (IH (dates ++ [d]) values) as (H1 & H2 & H3);
           [rewrite !length_app; cbn; lia|];
           split; [exact H1|]; split;
           [intros Hall; apply Forall_cons in Hall as [Hc _]; discriminate
           |intros _; apply H3; left; rewrite !length_app; cbn; lia]);
      try (destruct (IH (dates ++ [d']) values) as (H1 & H2 & H3);
           [rewrite !length_app; cbn; lia|];
           split; [exact H1|]; split;
           [intros Hall; apply Forall_cons in Hall as [Hc _]; discriminate
           |intros _; apply H3; left; rewrite !length_app; cbn; lia]).
Qed.

Section haver_fetch.
Variable http : nat -> string -> gmap string pyval -> reply Haver.json.

Lemma haver_fetch_response (self : Haver.HaverDataSource) (w : World)
    series_code database start_date end_date kwargs st response :
  Haver.session self = true ->
  (forall url params, http (sent w) url params = Response st (Some response)) ->
  is_http_error st = false ->
  Haver._fetch_series_data http series_code database start_date end_date kwargs
    (self, w)
  = match Haver.data response with
    | None =>
        (Raise (new_DataRetrievalError
                  ("Invalid Haver API response format for series " +:+ series_code)
                  (Some [series_code]) None (Some st) None ∅), (self, bump w))
    | Some [] => (Ok empty_Series, (self, bump w))
    | Some series_data =>
        let '(dates, values) := Haver.parse_entries series_data [] [] in
        match dates with
        | [] => (Ok empty_Series, (self, bump w))
        | _ => (new_Series values dates, (self, bump w))
        end
    end.
Proof.
  intros Hs Hhttp Hst. unfold Haver._fetch_series_data, Haver.session_get.
  run_monad. destruct w as [t n sl]. cbn [sent] in *. rewrite Hs. cbn.
  rewrite Hhttp. unfold fetch_json. rewrite Hst.
  destruct (Haver.data response) as [[|o obs]|]; try reflexivity.
  destruct (Haver.parse_entries (o :: obs) [] []) as [dates values].
  destruct dates; reflexivity.
Qed.

(** X23: The series [_fetch_series_data] returns holds the entries whose date
    (['date'], else ['period']) and value both parse, in the order of the
    response; one entry whose date parses and whose value does not loses
    the whole series to a [ValueError], which is no error of the
    hierarchy. *)
Theorem haver_series_holds_the_numeric_entries
    (self : Haver.HaverDataSource) (w : World)
    series_code database start_date end_date kwargs st response entries :
  Haver.session self = true ->
  (forall url params, http (sent w) url params = Response st (Some response)) ->
  is_http_error st = false ->
  Haver.data response = Some entries ->
  let out := Haver._fetch_series_data http series_code database start_date
               end_date kwargs (self, w) in
  out.2 = (self, bump w) /\
  (Forall (fun e => haver_poisons e = false) entries ->
   out.1 = Ok (omap haver_numeric entries)) /\
  (Exists (fun e => haver_poisons e = true) entries ->
   exists e, out.1 = Raise e /\ cls e = Foreign "ValueError" /\
             isinstance e FederalReserveETLError = false).
Proof.
  intros Hs Hhttp Hst Hdata out. subst out.
  rewrite (haver_fetch_response self w _ _ _ _ _ st response Hs Hhttp Hst), Hdata.
  destruct entries as [|e0 entries].
  { split; [reflexivity|]. split; [reflexivity|]. intros H. inversion H. }
  destruct (haver_parse_spec (e0 :: entries) [] [] (Nat.le_refl 0))
    as (_ & Hclean & Hbad).
  remember (e0 :: entries) as es eqn:Ees.
  remember (omap haver_numeric es) as pts eqn:Epts.
  assert (Hes : match es with [] => False | _ :: _ => True end)
    by (subst es; exact I).
  clear Ees Hdata.
  destruct (Haver.parse_entries es [] []) as [dates values].
  destruct es as [|e1 es]; [contradiction|].
  split; [destruct dates; reflexivity|]. split.
  - intros Hall. specialize (Hclean Hall).
    rewrite !app_nil_l in Hclean. injection Hclean as -> ->.
    destruct pts as [|p l]; [reflexivity|].
    change ((p :: l).*1) with (p.1 :: l.*1).
    cbv beta iota. unfold fst at 1. unfold new_Series.
    rewrite bool_decide_true by (cbn; rewrite !length_fmap; reflexivity).
    change (zip (p.1 :: l.*1) (p :: l).*2) with (zip (p :: l).*1 (p :: l).*2).
    rewrite zip_fst_snd. reflexivity.
  - intros Hex. specialize (Hbad (or_intror Hex)).
    destruct dates as [|d dates]; [cbn in Hbad; lia|].
    unfold new_Series. cbn [fst snd] in *. rewrite bool_decide_false by lia.
    eexists. split; [reflexivity|]. split; reflexivity.
Qed.
End haver_fetch.

Lemma fred_series_witness :
  Fred._fetch_series_observations DataScenarios.fred_two_series "DGS10"
    "2023-01-01" "2023-01-31" ∅ (Absent.connected_fred, world0)
  = (Ok [(DataScenarios.jan_3_2023, 379 # 100);
         (DataScenarios.jan_4_2023, 369 # 100)],
     (Absent.connected_fred, bump world0)).
Proof.
  pose (obs := [Fred.mk_observation (Fred.DateOk DataScenarios.jan_2_2023)
                  Fred.ValueDot;
                Fred.mk_observation (Fred.DateOk DataScenarios.jan_3_2023)
                  (Fred.ValueNum (379 # 100));
                Fred.mk_observation (Fred.DateOk DataScenarios.jan_4_2023)
                  (Fred.ValueNum (369 # 100))]).
  pose (http := always 200 (Fred.mk_json None (Some obs) None)
                : nat -> string -> gmap string pyval -> reply Fred.json).
  change (Fred._fetch_series_observations DataScenarios.fred_two_series "DGS10"
            "2023-01-01" "2023-01-31" ∅ (Absent.connected_fred, world0))
    with (Fred._fetch_series_observations http "DGS10"
            "2023-01-01" "2023-01-31" ∅ (Absent.connected_fred, world0)).
  apply (fred_series_holds_the_numeric_observations http
           Absent.connected_fred world0 "DGS10" "2023-01-01" "2023-01-31" ∅
           200 (Fred.mk_json None (Some obs) None) obs).
  - reflexivity.
  - reflexivity.
  - reflexivity.
  - reflexivity.
  - repeat constructor.
Defined.
Lemma fred_unreadable_value_witness :
  exists e,
    Fred._fetch_series_observations
      (always 200
         (Fred.mk_json None
            (Some [Fred.mk_observation (Fred.DateOk DataScenarios.jan_2_2023)
                     Fred.ValueBad]) None))
      "DGS10" "2023-01-01" "2023-01-31" ∅ (Absent.connected_fred, world0)
    = (Raise e, (Absent.connected_fred, bump world0)).
Proof.
  destruct (fred_unreadable_value_fails_the_series
              (always 200
                 (Fred.mk_json None
                    (Some [Fred.mk_observation
                             (Fred.DateOk DataScenarios.jan_2_2023)
                             Fred.ValueBad]) None))
              Absent.connected_fred world0 "DGS10" "2023-01-01" "2023-01-31" ∅
              200 _ _ eq_refl (fun _ _ => eq_refl) eq_refl eq_refl)
    as (e & H & _).
  - constructor. reflexivity.
  - exists e. exact H.
Defined.

Lemma haver_series_witness :
  (Haver._fetch_series_data
     (always 200
        (Haver.mk_json None
           (Some [Haver.mk_entry None (Some (Haver.DateYearMonth
                                               Scenarios.jan_1_2023))
                    false (Some (Haver.ValueNum (5 # 2)))]) None))
     "GDP" "USECON" "2023-01-01" "2023-01-31" ∅
     (Absent.connected_haver, world0)).1
  = Ok [(Scenarios.jan_1_2023, 5 # 2)].
Proof.
  destruct (haver_series_holds_the_numeric_entries
              (always 200
                 (Haver.mk_json None
                    (Some [Haver.mk_entry None
                             (Some (Haver.DateYearMonth Scenarios.jan_1_2023))
                             false (Some (Haver.ValueNum (5 # 2)))]) None))
              Absent.connected_haver world0 "GDP" "USECON" "2023-01-01"
              "2023-01-31" ∅ 200 _ _ eq_refl (fun _ _ => eq_refl) eq_refl
              eq_refl)
    as (_ & H & _).
  apply H. repeat constructor.
Defined.
End Parse.

(** ** The table [get_data] builds *)

Module Table.
Import TableScenarios.

Lemma series_at_head d q (s : Series) : Series_at ((d, q) :: s) d = Some q.
Proof.
  unfold Series_at. cbn [List.find fst]. rewrite bool_decide_true by reflexivity.
  reflexivity.
Qed.

Lemma series_at_tail d q (s : Series) d' :
  d' <> d -> Series_at ((d, q) :: s) d' = Series_at s d'.
Proof.
  intros Hne. unfold Series_at. cbn [List.find fst].
  rewrite bool_decide_false by congruence. reflexivity.
Qed.

(** On its own dates a series without duplicate dates has its values. *)
Lemma series_at_own_index (s : Series) :
  NoDup (Series_index s) ->
  Series_at s <$> Series_index s = Some <$> Series_values s.
Proof.
  unfold Series_index, Series_values.
  induction s as [|[d q] s IH]; intros Hnd; [reflexivity|].
  cbn [fmap list_fmap fst snd] in *. apply NoDup_cons in Hnd as [Hd Hnd].
  rewrite series_at_head. f_equal. rewrite <- IH by exact Hnd.
  apply list_fmap_ext. intros i d' Hi. apply series_at_tail.
  intros ->. apply Hd. eapply list_elem_of_lookup_2. exact Hi.
Qed.

Lemma dict_set_fresh {V} k (v : V) d :
  k ∉ Dict.keys d -> Dict.set k v d = d ++ [(k, v)].
Proof.
  unfold Dict.keys. induction d as [|[k' v'] d IH]; intros Hk; [reflexivity|].
  cbn [Dict.set fmap list_fmap fst] in *.
  rewrite not_elem_of_cons in Hk. destruct Hk as [Hne Hk].
  rewrite bool_decide_false by congruence. rewrite IH by exact Hk. reflexivity.
Qed.

Lemma dict_lookup_in {V} k (v : V) d :
  NoDup (Dict.keys d) -> (k, v) ∈ d -> Dict.lookup k d = Some v.
Proof.
  unfold Dict.keys. induction d as [|[k' v'] d IH]; intros Hnd Hin.
  - inversion Hin.
  - cbn [fmap list_fmap fst] in Hnd. apply NoDup_cons in Hnd as [Hk Hnd].
    cbn [Dict.lookup]. apply elem_of_cons in Hin as [Heq | Hin].
    + injection Heq as -> ->. rewrite bool_decide_true by reflexivity.
      reflexivity.
    + rewrite bool_decide_false.
      * apply IH; assumption.
      * intros ->. apply Hk. apply list_elem_of_fmap. exists (k, v). auto.
Qed.

Lemma setitem_conforms df k (s : Series) :
  index df <> [] ->
  NoDup (Series_index s) ->
  k ∉ column_names df ->
  setitem df k s
  = Ok (mk_DataFrame (index df) (columns df ++ [conformed (index df) (k, s)])).
Proof.
  intros Hidx Hnd Hk. unfold setitem.
  assert (He : ensure_valid_index df s = df).
  { unfold ensure_valid_index. destruct (index df); [congruence | reflexivity]. }
  rewrite He. unfold reindex_for_setitem, reindex.
  rewrite (bool_decide_false (index df = [])) by exact Hidx.
  rewrite orb_false_r.
  destruct (bool_decide_reflect (Series_index s = index df)) as [Heq | Hne].
  - rewrite <- Heq, <- series_at_own_index by exact Hnd.
    rewrite dict_set_fresh by exact Hk. reflexivity.
  - rewrite bool_decide_true by exact Hnd.
    rewrite dict_set_fresh by exact Hk. reflexivity.
Qed.

Lemma combine_conforms items : forall df,
  index df <> [] ->
  Forall (fun p => NoDup (Series_index p.2)) items ->
  NoDup items.*1 ->
  (forall k, k ∈ items.*1 -> k ∉ column_names df) ->
  combine items df
  = Ok (mk_DataFrame (index df) (columns df ++ (conformed (index df) <$> items))).
Proof.
  induction items as [|[k s] items IH]; intros df Hidx Hall Hnd Hfresh.
  - cbn. rewrite app_nil_r. destruct df; reflexivity.
  - apply Forall_cons in Hall as [Hs Hall].
    cbn [fmap list_fmap fst] in Hnd. apply NoDup_cons in Hnd as [Hk Hnd].
    cbn [combine]. rewrite setitem_conforms; [|exact Hidx|exact Hs|].
    2:{ apply Hfresh. apply list_elem_of_here. }
    rewrite IH; [| exact Hidx | exact Hall | exact Hnd |].
    + cbn [index columns fmap list_fmap]. rewrite <- app_assoc. reflexivity.
    + intros k' Hk'. unfold column_names, Dict.keys. cbn [columns].
      rewrite fmap_app, elem_of_app. cbn. rewrite list_elem_of_singleton.
      intros [H | ->]; [|exact (Hk Hk')].
      apply (Hfresh k'); [right; exact Hk' | exact H].
Qed.

(** X24: The table is a left join on the first series: [combine], applied to
    series with distinct names of which the first is not empty, none with
    a repeated date, returns a table whose rows are the dates of the first
    series, in its order, and whose columns are the series in their order;
    the column of each series holds, at each of those dates, the value the
    series has on that date, and NaN where it has none.  What a later
    series has on other dates is not in the table. *)
Theorem table_is_a_left_join (k0 : string) (s0 : Series)
    (items : list (string * Series)) :
  Series_empty s0 = false ->
  NoDup ((k0, s0) :: items).*1 ->
  Forall (fun p => NoDup (Series_index p.2)) ((k0, s0) :: items) ->
  exists df,
    combine ((k0, s0) :: items) empty_DataFrame = Ok df /\
    index df = Series_index s0 /\
    column_names df = k0 :: items.*1 /\
    (forall k s, (k, s) ∈ (k0, s0) :: items ->
       Dict.lookup k (columns df) = Some (Series_at s <$> Series_index s0)) /\
    (forall k s d, (k, s) ∈ (k0, s0) :: items -> d ∈ Series_index s0 ->
       at_ df k d = Some (Series_at s d)).
Proof.
  intros Hne Hnd Hall.
  pose proof Hnd as Hnd'. pose proof Hall as Hall'.
  apply Forall_cons in Hall as [Hs0 Hall].
  cbn [fmap list_fmap fst] in Hnd. apply NoDup_cons in Hnd as [Hk0 Hnd].
  cbn [snd] in Hs0.
  assert (Hfirst : setitem empty_DataFrame k0 s0
                   = Ok (mk_DataFrame (Series_index s0)
                           [conformed (Series_index s0) (k0, s0)])).
  { destruct s0 as [|p s0]; [discriminate|].
    unfold setitem, ensure_valid_index, reindex_for_setitem.
    cbn [index empty_DataFrame columns fmap list_fmap].
    rewrite bool_decide_true by reflexivity. cbn [orb Dict.set].
    unfold conformed. cbn [fst snd].
    rewrite <- series_at_own_index by exact Hs0. reflexivity. }
  assert (Hidx : Series_index s0 <> []).
  { destruct s0; [discriminate Hne | discriminate]. }
  set (cols := conformed (Series_index s0) <$> ((k0, s0) :: items)).
  assert (Hrun : combine ((k0, s0) :: items) empty_DataFrame
                 = Ok (mk_DataFrame (Series_index s0) cols)).
  { cbn [combine]. rewrite Hfirst.
    rewrite combine_conforms; [reflexivity | exact Hidx | exact Hall | exact Hnd |].
    intros k Hk. unfold column_names, Dict.keys. cbn.
    rewrite list_elem_of_singleton. intros ->. exact (Hk0 Hk). }
  assert (Hkeys : Dict.keys cols = k0 :: items.*1).
  { unfold cols, Dict.keys. rewrite <- list_fmap_compose.
    change (k0 :: items.*1) with (((k0, s0) :: items).*1).
    apply list_fmap_ext. intros _ [k s] _. reflexivity. }
  assert (Hcol : forall k s, (k, s) ∈ (k0, s0) :: items ->
            Dict.lookup k cols = Some (Series_at s <$> Series_index s0)).
  { intros k s Hin. apply dict_lookup_in.
    - rewrite Hkeys. exact Hnd'.
    - unfold cols. apply list_elem_of_fmap. exists (k, s). split; [reflexivity|].
      exact Hin. }
  exists (mk_DataFrame (Series_index s0) cols).
  split; [exact Hrun|]. split; [reflexivity|]. split; [exact Hkeys|].
  split; [exact Hcol|].
  intros k s d Hin Hd. unfold at_. cbn [columns index].
  rewrite (Hcol k s Hin).
  clear -Hd. induction (Series_index s0) as [|d' idx IH]; [inversion Hd|].
  cbn [fmap list_fmap zip zip_with List.find fst].
  destruct (bool_decide_reflect (d' = d)) as [-> | Hne]; [reflexivity|].
  apply IH. apply elem_of_cons in Hd as [-> | Hd]; [congruence | exact Hd].
Qed.

Lemma table_is_a_left_join_witness :
  exists df,
    combine [("FEDFUNDS", [(Scenarios.jan_1_2023, 433 # 100)]);
             ("DGS10", [(DataScenarios.jan_3_2023, 379 # 100)])]
      empty_DataFrame = Ok df /\
    index df = [Scenarios.jan_1_2023] /\
    Dict.lookup "DGS10" (columns df) = Some [None].
Proof.
  destruct (table_is_a_left_join "FEDFUNDS" [(Scenarios.jan_1_2023, 433 # 100)]
              [("DGS10", [(DataScenarios.jan_3_2023, 379 # 100)])])
    as (df & Hrun & Hidx & _ & Hcol & _).
  - reflexivity.
  - cbn. apply NoDup_cons. split.
    + rewrite list_elem_of_singleton. discriminate.
    + apply NoDup_singleton.
  - constructor; [cbn; apply NoDup_singleton|].
    constructor; [cbn; apply NoDup_singleton | constructor].
  - exists df. split; [exact Hrun|]. split; [exact Hidx|].
    rewrite (Hcol "DGS10" [(DataScenarios.jan_3_2023, 379 # 100)]).
    + reflexivity.
    + right. apply list_elem_of_here.
Defined.
End Table.

(** ** More on the factory *)

Module FactoryMore.
Import Factory FactoryScenarios CredentialScenarios.

Lemma config_key_of msg key :
  PyStr.truthy key = true ->
  context (new_ConfigurationError msg (Some key) None None ∅) !! "config_key"
  = Some (PStr key).
Proof.
  intros Hk. unfold new_ConfigurationError, set_if_truthy. cbn.
  rewrite Hk. apply lookup_insert_eq.
Qed.

(** X25: [create_data_source] lets no other exception out: whatever the
    arguments and the environment, a call that does not return a client
    raises [ConfigurationError], without error code, whose [config_key] is
    [source_type] when the identifier is refused and
    [source_instantiation] for every failure after that, a missing
    credential included. *)
Theorem create_data_source_raises_only_configuration_errors environ
    source_type config kwargs e :
  create_data_source environ source_type config kwargs = Raise e ->
  cls e = ConfigurationError /\
  error_code e = None /\
  (context e !! "config_key" = Some (PStr "source_type") \/
   (context e !! "config_key" = Some (PStr "source_instantiation") /\
    exists s, source_type = PStr s /\
              is_Some (Dict.lookup (PyStr.strip s) DATA_SOURCE_REGISTRY))).
Proof.
  unfold create_data_source.
  destruct source_type as [| z | s | l];
    try (intros [= <-]; split; [reflexivity|]; split; [reflexivity|]; left;
         apply config_key_of; reflexivity).
  destruct (negb (PyStr.truthy s)).
  { intros [= <-]. split; [reflexivity|]. split; [reflexivity|]. left.
    apply config_key_of. reflexivity. }
  destruct (Dict.lookup (PyStr.strip s) DATA_SOURCE_REGISTRY) as [c|] eqn:El.
  - destruct (match c with
              | FREDDataSource => _
              | HaverDataSource => _
              end) as [i | e']; [discriminate|].
    intros [= <-]. split; [reflexivity|]. split; [reflexivity|]. right.
    split; [apply config_key_of; reflexivity|].
    exists s. split; [reflexivity|]. rewrite El. eauto.
  - intros [= <-]. split; [reflexivity|]. split; [reflexivity|]. left.
    apply config_key_of. reflexivity.
Qed.

Lemma create_data_source_raises_witness :
  exists e,
    create_data_source ∅ (PStr "fred") None ∅ = Raise e /\
    cls e = ConfigurationError /\ error_code e = None.
Proof.
  pose proof (create_data_source_raises_only_configuration_errors ∅
                (PStr "fred") None ∅) as H.
  destruct (create_data_source ∅ (PStr "fred") None ∅) as [i|e] eqn:E.
  - vm_compute in E. discriminate E.
  - exists e. split; [reflexivity|].
    destruct (H e eq_refl) as (Hc & Hn & _). split; assumption.
Defined.

Lemma valid_key_is_truthy k :
  Fred._validate_api_key (PStr k) = Ok k -> PyStr.truthy k = true.
Proof.
  unfold Fred._validate_api_key. destruct (PyStr.truthy k); [reflexivity|].
  discriminate.
Qed.

Lemma first_given_truthy l k :
  first_given l = Some k -> PyStr.truthy k = true.
Proof.
  unfold first_given. induction l as [|[s|] l IH]; cbn; try discriminate.
  - destruct (PyStr.truthy s) eqn:E; [|exact IH].
    cbn. intros [= <-]. exact E.
  - exact IH.
Qed.

Lemma py_or_first_given (a b c : option string) :
  py_or (py_or (str_or_none a) (str_or_none b)) (str_or_none c)
  = match first_given [a; b; c] with
    | Some k => PStr k
    | None => str_or_none c
    end.
Proof.
  unfold first_given, py_or, str_or_none.
  destruct a as [a|], b as [b|], c as [c|];
    cbn [List.find py_truthy mbind option_bind id];
    repeat (match goal with
            | |- context [PyStr.truthy ?x] => destruct (PyStr.truthy x) eqn:?
            end;
            cbn [List.find py_truthy mbind option_bind id];
            repeat match goal with
                   | H : PyStr.truthy _ = _ |- _ => rewrite H
                   end;
            cbn [List.find py_truthy mbind option_bind id]);
    reflexivity.
Qed.

(** X26: The FRED key is the first that is given and not empty among the
    keyword argument, the configuration and the environment, in that
    order: a valid key found there makes the client, whatever the later
    places hold; when none holds one the factory raises
    [ConfigurationError]. *)
Theorem fred_key_precedence (from_kwargs from_config from_env : option string)
    (config : DataSourceConfig) :
  let created :=
    create_data_source (fred_env from_env) (PStr "fred")
      (Some (with_api_key from_config config)) (fred_kwargs from_kwargs) in
  match first_given [from_kwargs; from_config; from_env] with
  | Some k =>
      Fred._validate_api_key (PStr k) = Ok k ->
      exists self, created = Ok (FredInstance self) /\ Fred.api_key self = k /\
                   Fred.is_connected self = false
  | None => exists e, created = Raise e /\ cls e = ConfigurationError
  end.
Proof.
  intros created. subst created. unfold create_data_source.
  cbn [PyStr.truthy negb]. change (PyStr.strip "fred") with "fred".
  cbn [Dict.lookup DATA_SOURCE_REGISTRY]. rewrite bool_decide_true by reflexivity.
  cbn [default]. unfold _create_fred_source.
  assert (Hk : get_or_none (fred_kwargs from_kwargs) "api_key"
               = str_or_none from_kwargs).
  { unfold get_or_none, fred_kwargs. destruct from_kwargs as [k|]; cbn.
    - rewrite lookup_insert_eq. reflexivity.
    - rewrite lookup_empty. reflexivity. }
  assert (He : getenv (fred_env from_env) "FRED_API_KEY" = str_or_none from_env).
  { unfold getenv, fred_env. destruct from_env as [k|]; cbn.
    - rewrite lookup_insert_eq. reflexivity.
    - rewrite lookup_empty. reflexivity. }
  assert (Hd : delete "api_key" (fred_kwargs from_kwargs) = ∅).
  { unfold fred_kwargs. destruct from_kwargs as [k|].
    - rewrite delete_insert_eq, delete_empty. reflexivity.
    - apply delete_empty. }
  rewrite Hk, He, Hd.
  change (cfg_api_key (id (with_api_key from_config config))) with from_config.
  rewrite py_or_first_given.
  destruct (first_given [from_kwargs; from_config; from_env]) as [k|] eqn:Ef.
  - intros Hvalid. cbn [py_truthy]. rewrite (first_given_truthy _ _ Ef).
    cbn [negb]. unfold unexpected_keyword. rewrite map_to_list_empty.
    unfold Fred.__init__. rewrite Hvalid.
    eexists. split; [reflexivity|]. split; reflexivity.
  - assert (Hc : py_truthy (str_or_none from_env) = false).
    { unfold first_given in Ef. cbn [List.find] in Ef.
      destruct from_kwargs as [a|]; [destruct (PyStr.truthy a); [discriminate|]|];
        (destruct from_config as [b|];
         [destruct (PyStr.truthy b); [discriminate|]|]);
        (destruct from_env as [c|]; [|reflexivity]);
        cbn; destruct (PyStr.truthy c); try discriminate; reflexivity. }
    rewrite Hc. cbn [negb]. eexists. split; reflexivity.
Qed.

(** X27: A Haver client cannot be made with a rate limit of 0: the interval
    between requests is [1.0 / rate_limit], and the constructor raises
    [ZeroDivisionError], which the factory reports as a
    [ConfigurationError]; any other limit gives a client whose interval is
    its inverse, a negative one included. *)
Theorem haver_rate_limit_of_zero (u p : string) (r : Z)
    (config : DataSourceConfig) :
  3 <= PyStr.len (PyStr.strip u) ->
  6 <= PyStr.len p ->
  let made := Haver.__init__ (PStr u) (PStr p) (Some (with_rate_limit r config)) in
  (r = 0 ->
   (exists e, made = Raise e /\ cls e = Foreign "ZeroDivisionError") /\
   (exists e, create_data_source ∅ (PStr "haver")
                (Some (with_rate_limit r config)) (credentials u p) = Raise e /\
              cls e = ConfigurationError)) /\
  (r <> 0 ->
   exists self, made = Ok self /\ Haver.rate_limit self = r /\
                Haver.min_request_interval self = (1 / inject_Z r)%Q).
Proof.
  intros Hu Hp made. subst made.
  pose proof (FactoryProps.stripped_long_is_truthy u 3 ltac:(lia) Hu) as Htu.
  pose proof (FactoryProps.long_is_truthy p 6 ltac:(lia) Hp) as Htp.
  assert (Hinit : Haver.__init__ (PStr u) (PStr p)
                    (Some (with_rate_limit r config))
                  = if r =? 0
                    then Raise (foreign "ZeroDivisionError" "float division by zero")
                    else Ok (Haver.mk_Haver "Unknown Source" (PyStr.strip u) p
                               (default "https://api.haver.com/v1"
                                  (cfg_base_url config))
                               r (default 45 (cfg_timeout config))
                               false false 0 (1 / inject_Z r)%Q)).
  { unfold Haver.__init__, Haver._validate_username, Haver._validate_password.
    rewrite Htu, Htp. cbn [negb].
    destruct (PyStr.len (PyStr.strip u) <? 3) eqn:E1; [lia|].
    destruct (PyStr.len p <? 6) eqn:E2; [lia|].
    reflexivity. }
  split.
  - intros ->. split.
    + rewrite Hinit. eexists. split; reflexivity.
    + unfold create_data_source. cbn [PyStr.truthy negb].
      change (PyStr.strip "haver") with "haver".
      cbn [Dict.lookup DATA_SOURCE_REGISTRY].
      rewrite bool_decide_false by discriminate.
      rewrite bool_decide_true by reflexivity.
      cbn [default]. unfold _create_haver_source.
      destruct (FactoryProps.credentials_lookup u p) as (-> & -> & ->).
      unfold py_or. cbn [py_truthy]. rewrite Htu, Htp. cbn [negb py_truthy].
      rewrite Htu, Htp. cbn [negb].
      unfold unexpected_keyword. rewrite map_to_list_empty.
      unfold id. rewrite Hinit. cbn [py_truthy]. rewrite Htu, Htp.
      cbn. eexists. split; reflexivity.
  - intros Hr. rewrite Hinit. destruct (Z.eqb_spec r 0); [contradiction|].
    eexists. split; [reflexivity|]. split; reflexivity.
Qed.

Lemma haver_rate_limit_of_zero_witness :
  exists e,
    Haver.__init__ (PStr "test_user") (PStr "test_password")
      (Some (with_rate_limit 0 empty_config)) = Raise e /\
    cls e = Foreign "ZeroDivisionError".
Proof.
  destruct (haver_rate_limit_of_zero "test_user" "test_password" 0 empty_config)
    as [H _]; [vm_compute; discriminate | vm_compute; discriminate |].
  destruct (H eq_refl) as [H1 _]. exact H1.
Defined.
Lemma fred_key_precedence_witness :
  exists self,
    create_data_source (fred_env (Some "ffffffffffffffffffffffffffffffff"))
      (PStr "fred")
      (Some (with_api_key (Some "cccccccccccccccccccccccccccccccc") empty_config))
      (fred_kwargs (Some Scenarios.a_key)) = Ok (FredInstance self) /\
    Fred.api_key self = Scenarios.a_key.
Proof.
  pose proof (fred_key_precedence (Some Scenarios.a_key)
                (Some "cccccccccccccccccccccccccccccccc")
                (Some "ffffffffffffffffffffffffffffffff") empty_config) as H.
  cbv zeta in H.
  change (first_given [Some Scenarios.a_key;
                       Some "cccccccccccccccccccccccccccccccc";
                       Some "ffffffffffffffffffffffffffffffff"])
    with (Some Scenarios.a_key) in H.
  destruct H as (self & Hrun & Hkey & _); [vm_compute; reflexivity|].
  exists self. split; assumption.
Defined.
End FactoryMore.

(** ** What [get_metadata] returns *)

Module MetadataMore.

Section loop.
Context {S : Type}.
Variable fetch : string -> gmap string VariableMetadata ->
                 M (S * World) (gmap string VariableMetadata).
Variable P : gmap string VariableMetadata -> Prop.

(** The loop never raises, and keeps what every iteration keeps. *)
Lemma metadata_loop_invariant (vs : list string) :
  (forall u, u ∈ vs -> forall m s m' s',
     P m -> fetch u m s = (Ok m', s') -> P m') ->
  forall m s, P m ->
    exists m' s', metadata_loop fetch vs m s = (Ok m', s') /\ P m'.
Proof.
  induction vs as [|u vs IH]; intros Hfetch m s Hm.
  - exists m, s. split; [reflexivity | exact Hm].
  - cbn [metadata_loop]. unfold bind, try_except.
    destruct (fetch u m s) as [[m1 | e] s1] eqn:E.
    + apply IH.
      * intros u' Hu'. apply Hfetch. right. exact Hu'.
      * eapply Hfetch; [apply list_elem_of_here | exact Hm | exact E].
    + unfold ret. apply IH; [|exact Hm].
      intros u' Hu'. apply Hfetch. right. exact Hu'.
Qed.
End loop.

Section clients.
Variable clock : nat -> Z.
Variable fred_http : nat -> string -> gmap string pyval -> reply Fred.json.
Variable haver_http : nat -> string -> gmap string pyval -> reply Haver.json.

Lemma fred_fetch_sets_its_key u m s m' s' :
  Fred.fetch_metadata clock fred_http u m s = (Ok m', s') ->
  m' = m \/ exists info, m' = <[u := Fred.metadata_of u info]> m.
Proof.
  unfold Fred.fetch_metadata. unfold bind at 1.
  destruct (Fred._enforce_rate_limit clock s) as [[[] | e] [self1 w1]];
    [|discriminate].
  unfold bind at 1. unfold the_self at 1.
  unfold bind at 1. unfold Fred.session_get.
  unfold bind at 1. unfold the_self at 1.
  destruct (Fred.session self1); [|discriminate].
  unfold bind, count_request, ret, throw, lift_result.
  match goal with |- context [fred_http ?a ?b ?c] =>
    destruct (fred_http a b c) as [msg | msg | msg | status body]
  end; cbn [fetch_json]; try discriminate.
  destruct (is_http_error status); [discriminate|].
  destruct body as [data|]; [|discriminate].
  destruct (Fred.validate_response data); [|discriminate].
  destruct (Fred.seriess data) as [[|info rest]|];
    intros [= <- <-]; eauto.
Qed.

Lemma haver_fetch_sets_its_key u m s m' s' :
  Haver.fetch_metadata clock haver_http u m s = (Ok m', s') ->
  m' = m \/ exists info, m' = <[u := Haver.metadata_of u info]> m.
Proof.
  unfold Haver.fetch_metadata. unfold bind at 1.
  destruct (Haver._enforce_rate_limit clock s) as [[[] | e] [self1 w1]];
    [|discriminate].
  unfold bind at 1. unfold the_self at 1.
  unfold bind at 1. unfold Haver.session_get.
  unfold bind at 1. unfold the_self at 1.
  destruct (Haver.session self1); [|discriminate].
  unfold bind, count_request, ret, throw, lift_result.
  match goal with |- context [haver_http ?a ?b ?c] =>
    destruct (haver_http a b c) as [msg | msg | msg | status body]
  end; cbn [fetch_json]; try discriminate.
  destruct (is_http_error status); [discriminate|].
  destruct body as [data|]; [|discriminate].
  destruct (Haver.validate_response data); [|discriminate].
  destruct (Haver.metadata data) as [info|];
    intros [= <- <-]; eauto.
Qed.

(** X28: On a connected client and for valid variables [get_metadata] never
    raises, whatever the server does: it returns a mapping whose keys are
    among the normalized codes asked for, and the record under a key
    carries that key as its code and the name of the source. *)
Theorem get_metadata_returns_records_of_the_codes_asked_for
    (fred : Fred.FREDDataSource) (haver : Haver.HaverDataSource) (w : World)
    variables variable_list :
  Fred.is_connected fred = true ->
  Haver.is_connected haver = true ->
  validate_variable_codes variables = Ok variable_list ->
  (exists m s',
     Fred.get_metadata clock fred_http variables (fred, w) = (Ok m, s') /\
     forall k x, m !! k = Some x ->
       k ∈ variable_list /\ md_code x = k /\ md_source x = "FRED") /\
  (exists m s',
     Haver.get_metadata clock haver_http variables (haver, w) = (Ok m, s') /\
     forall k x, m !! k = Some x ->
       k ∈ variable_list /\ md_code x = k /\ md_source x = "Haver").
Proof.
  intros Hf Hh Hv. split.
  - unfold Fred.get_metadata. unfold bind at 1. unfold the_self at 1.
    rewrite Hf. cbn [negb]. unfold bind at 1, lift_result at 1. rewrite Hv.
    apply (metadata_loop_invariant (Fred.fetch_metadata clock fred_http)
             (fun m => forall k x, m !! k = Some x ->
                k ∈ variable_list /\ md_code x = k /\ md_source x = "FRED")).
    + intros u Hu m s m' s' Hm Hfetch.
      destruct (fred_fetch_sets_its_key _ _ _ _ _ Hfetch) as [-> | [info ->]];
        [exact Hm|].
      intros k x. destruct (decide (k = u)) as [-> | Hne].
      * rewrite lookup_insert_eq. intros [= <-]. auto.
      * rewrite lookup_insert_ne by congruence. apply Hm.
    + intros k x. rewrite lookup_empty. discriminate.
  - unfold Haver.get_metadata. unfold bind at 1. unfold the_self at 1.
    rewrite Hh. cbn [negb]. unfold bind at 1, lift_result at 1. rewrite Hv.
    apply (metadata_loop_invariant (Haver.fetch_metadata clock haver_http)
             (fun m => forall k x, m !! k = Some x ->
                k ∈ variable_list /\ md_code x = k /\ md_source x = "Haver")).
    + intros u Hu m s m' s' Hm Hfetch.
      destruct (haver_fetch_sets_its_key _ _ _ _ _ Hfetch) as [-> | [info ->]];
        [exact Hm|].
      intros k x. destruct (decide (k = u)) as [-> | Hne].
      * rewrite lookup_insert_eq. intros [= <-]. auto.
      * rewrite lookup_insert_ne by congruence. apply Hm.
    + intros k x. rewrite lookup_empty. discriminate.
Qed.

End clients.

Lemma get_metadata_returns_records_witness :
  exists m s',
    Fred.get_metadata (Scenarios.steady_clock Scenarios.jan_1_2023 1000000)
      (Absent.fred_knows "FEDFUNDS") (VariableList [PStr "fedfunds"; PStr "XYZ"])
      (Absent.connected_fred, world0) = (Ok m, s') /\
    forall k x, m !! k = Some x ->
      k ∈ ["FEDFUNDS"; "XYZ"] /\ md_code x = k /\ md_source x = "FRED".
Proof.
  destruct (get_metadata_returns_records_of_the_codes_asked_for
              (Scenarios.steady_clock Scenarios.jan_1_2023 1000000)
              (Absent.fred_knows "FEDFUNDS") (fun _ _ _ => NoConnection "down")
              Absent.connected_fred Absent.connected_haver world0
              (VariableList [PStr "fedfunds"; PStr "XYZ"]) ["FEDFUNDS"; "XYZ"]
              eq_refl eq_refl eq_refl) as [H _].
  exact H.
Defined.
End MetadataMore.

(** ** Identifiers and codes: the registry check and the command line *)

Module Spelling.
Import Factory FactoryScenarios VariableCodes Spaces.

(** *** Characters *)

Lemma space_is_not_upper a :
  PyStr.isspace_char a = true -> PyStr.lower_char a = a.
Proof.
  destruct a as [b0 b1 b2 b3 b4 b5 b6 b7].
  destruct b0, b1, b2, b3, b4, b5, b6, b7; vm_compute;
    first [reflexivity | discriminate].
Qed.

Lemma code_char_is_not_space a :
  code_char a = true -> PyStr.isspace_char a = false.
Proof.
  destruct a as [b0 b1 b2 b3 b4 b5 b6 b7].
  destruct b0, b1, b2, b3, b4, b5, b6, b7; vm_compute;
    first [reflexivity | discriminate].
Qed.

Lemma upper_char_idempotent a :
  PyStr.upper_char (PyStr.upper_char a) = PyStr.upper_char a.
Proof.
  destruct a as [b0 b1 b2 b3 b4 b5 b6 b7].
  destruct b0, b1, b2, b3, b4, b5, b6, b7; vm_compute; reflexivity.
Qed.

Lemma alnum_is_code_char a : PyStr.isalnum_char a = true -> code_char a = true.
Proof. unfold code_char. intros ->. reflexivity. Qed.

(** *** Strings *)

Lemma rstrip_no_space s : no_space s = true -> PyStr.rstrip s = s.
Proof.
  unfold no_space. induction s as [|a s IH]; [reflexivity|].
  cbn [PyStr.forall_chars PyStr.rstrip]. intros H.
  apply andb_true_iff in H as [Ha Hs]. rewrite (IH Hs).
  destruct s; [|reflexivity].
  destruct (PyStr.isspace_char a); [discriminate | reflexivity].
Qed.

Lemma strip_no_space s : no_space s = true -> PyStr.strip s = s.
Proof.
  intros H. unfold PyStr.strip.
  assert (Hl : PyStr.lstrip s = s).
  { destruct s as [|a s]; [reflexivity|]. cbn in *.
    destruct (PyStr.isspace_char a); [discriminate | reflexivity]. }
  rewrite Hl. apply rstrip_no_space. exact H.
Qed.

Lemma lower_no_space s : no_space (PyStr.lower s) = true -> no_space s = true.
Proof.
  unfold no_space, PyStr.lower. induction s as [|a s IH]; [reflexivity|].
  cbn [PyStr.map_chars PyStr.forall_chars]. intros H.
  apply andb_true_iff in H as [Ha Hs]. rewrite (IH Hs), andb_true_r.
  destruct (PyStr.isspace_char a) eqn:E; [|reflexivity].
  rewrite (space_is_not_upper a E), E in Ha. discriminate.
Qed.

Lemma upper_idempotent s : PyStr.upper (PyStr.upper s) = PyStr.upper s.
Proof.
  unfold PyStr.upper. induction s as [|a s IH]; [reflexivity|].
  cbn [PyStr.map_chars]. rewrite upper_char_idempotent, IH. reflexivity.
Qed.

Lemma code_chars_no_space s :
  PyStr.forall_chars code_char s = true -> no_space s = true.
Proof.
  unfold no_space. induction s as [|a s IH]; [reflexivity|].
  cbn [PyStr.forall_chars]. intros H. apply andb_true_iff in H as [Ha Hs].
  rewrite (code_char_is_not_space a Ha), (IH Hs). reflexivity.
Qed.

(** A string that is alphanumeric once [_] and [-] are removed has only
    letters, digits, [_] and [-]. *)
Lemma replace_isalnum_code_chars s :
  PyStr.isalnum (PyStr.remove_char "-" (PyStr.remove_char "_" s)) = true ->
  PyStr.forall_chars code_char s = true.
Proof.
  unfold PyStr.isalnum. intros H. apply andb_true_iff in H as [_ H].
  unfold PyStr.remove_char in H.
  induction s as [|a s IH]; [reflexivity|].
  cbn [PyStr.forall_chars PyStr.filter_chars] in *.
  unfold code_char at 1.
  destruct (Ascii.eqb a "_") eqn:E1; cbn [negb] in H.
  { rewrite (IH H). destruct (PyStr.isalnum_char a); reflexivity. }
  cbn [PyStr.filter_chars] in H.
  destruct (Ascii.eqb a "-") eqn:E2; cbn [negb] in H.
  { rewrite (IH H). destruct (PyStr.isalnum_char a); reflexivity. }
  cbn [PyStr.forall_chars] in H. apply andb_true_iff in H as [Ha Hs].
  rewrite Ha, (IH Hs). reflexivity.
Qed.

(** *** [validate_source_config] *)

Lemma available_keys :
  Dict.keys Registry.get_available_sources = ["fred"; "haver"].
Proof. vm_compute. reflexivity. Qed.

Lemma class_by_lower_case s c :
  PyStr.lower s = match c with
                  | FREDDataSource => "fred"
                  | HaverDataSource => "haver"
                  end ->
  Registry.registry_get s (Dict.lookup (PyStr.lower s) DATA_SOURCE_REGISTRY)
  = Some c.
Proof.
  intros Hl. unfold Registry.registry_get.
  rewrite (FactoryProps.registry_lookup s).
  destruct (bool_decide_reflect (s ∈ spellings FREDDataSource)) as [Hf | Hf].
  { pose proof (FactoryProps.lower_of_spelling _ _ Hf) as H.
    destruct c; [reflexivity | congruence]. }
  destruct (bool_decide_reflect (s ∈ spellings HaverDataSource)) as [Hh | Hh].
  { pose proof (FactoryProps.lower_of_spelling _ _ Hh) as H.
    destruct c; [congruence | reflexivity]. }
  rewrite Hl. destruct c; reflexivity.
Qed.

(** X29: [validate_source_config] compares the identifier in lower case, and
    does not trim it: with the default configuration it accepts every
    spelling of [fred] and [haver], in any mix of cases, and refuses every
    other identifier with [ConfigurationError].  [create_data_source]
    knows six spellings only, so that an identifier in another mix of
    cases is accepted by the first and refused by the second, whatever
    credentials come with it. *)
Theorem validate_source_config_ignores_case (s : string) :
  (PyStr.lower s = "fred" \/ PyStr.lower s = "haver" ->
   Registry.validate_source_config s empty_config = Ok true) /\
  (PyStr.lower s <> "fred" -> PyStr.lower s <> "haver" ->
   exists e, Registry.validate_source_config s empty_config = Raise e /\
             cls e = ConfigurationError /\
             message e = "Unknown source type: " +:+ s) /\
  (PyStr.lower s = "fred" \/ PyStr.lower s = "haver" ->
   s ∉ spellings FREDDataSource -> s ∉ spellings HaverDataSource ->
   forall environ config kwargs, exists e,
     create_data_source environ (PStr s) config kwargs = Raise e /\
     cls e = ConfigurationError).
Proof.
  split; [|split].
  - intros Hl. unfold Registry.validate_source_config.
    rewrite available_keys.
    rewrite bool_decide_true
      by (rewrite !elem_of_cons; destruct Hl as [-> | ->]; auto).
    cbn [negb].
    destruct Hl as [Hl | Hl].
    + rewrite (class_by_lower_case s FREDDataSource Hl). reflexivity.
    + rewrite (class_by_lower_case s HaverDataSource Hl). reflexivity.
  - intros Hf Hh. unfold Registry.validate_source_config.
    rewrite available_keys.
    rewrite bool_decide_false
      by (rewrite !elem_of_cons, elem_of_nil; intuition congruence).
    cbn [negb]. eexists. split; [reflexivity|]. split; reflexivity.
  - intros Hl Hf Hh environ config kwargs.
    assert (Hs : PyStr.strip s = s).
    { apply strip_no_space, lower_no_space.
      destruct Hl as [-> | ->]; reflexivity. }
    unfold create_data_source.
    assert (Ht : PyStr.truthy s = true).
    { destruct s; [destruct Hl; discriminate | reflexivity]. }
    rewrite Ht, Hs. cbn [negb].
    rewrite (FactoryProps.registry_lookup s).
    rewrite !bool_decide_false by assumption.
    eexists. split; reflexivity.
Qed.

Lemma validate_source_config_ignores_case_witness :
  Registry.validate_source_config "fReD" empty_config = Ok true /\
  exists e,
    create_data_source ∅ (PStr "fReD") None
      (<["api_key" := PStr Scenarios.a_key]> ∅) = Raise e /\
    cls e = ConfigurationError.
Proof.
  destruct (validate_source_config_ignores_case "fReD") as (Hok & _ & Hno).
  split.
  - apply Hok. left. reflexivity.
  - apply Hno.
    + left. reflexivity.
    + unfold spellings. rewrite !elem_of_cons, elem_of_nil.
      intuition discriminate.
    + unfold spellings. rewrite !elem_of_cons, elem_of_nil.
      intuition discriminate.
Defined.

(** *** [parse_variables] *)

Lemma basic_validation_passes variables :
  Cli.basic_validation variables = None ->
  Forall (fun var => PyStr.len var <= 50 /\
                     PyStr.forall_chars code_char var = true) variables.
Proof.
  induction variables as [|var rest IH]; [constructor|].
  cbn [Cli.basic_validation].
  destruct (Z.ltb_spec 50 (PyStr.len var)) as [Hlong | Hlen]; [discriminate|].
  destruct (PyStr.isalnum _) eqn:E; [|discriminate]. cbn [negb].
  intros Hrest. constructor; [|exact (IH Hrest)].
  split; [lia | exact (replace_isalnum_code_chars _ E)].
Qed.

Lemma validate_normal_codes codes :
  Forall (fun s => complaint (PStr s) = None /\ normal_form s = s) codes ->
  validate_variable_codes (VariableList (PStr <$> codes)) = Ok codes.
Proof.
  intros Hall. unfold validate_variable_codes, var_list.
  rewrite ValidateVariableCodes.validate_loop_spec.
  assert (Hc : omap complaint (PStr <$> codes) = []).
  { induction Hall as [|s l [Hs _] _ IH]; [reflexivity|].
    cbn [fmap list_fmap omap list_omap]. rewrite Hs. exact IH. }
  assert (Ha : omap accepted (PStr <$> codes) = codes).
  { clear Hc. induction Hall as [|s l [Hs Hn] _ IH]; [reflexivity|].
    cbn [fmap list_fmap omap list_omap]. unfold accepted at 1.
    rewrite Hs, Hn. f_equal. exact IH. }
  rewrite Hc, Ha. reflexivity.
Qed.

(** X30: What [parse_variables] returns is a list of codes, not empty, each of
    1 to 50 letters (none in lower case), digits, [_] and [-]; and
    [validate_variable_codes], which [get_data] applies next, returns
    that list unchanged. *)
Theorem parse_variables_gives_valid_codes (variable_string : string)
    (variables : list string) :
  Cli.parse_variables variable_string = Ok variables ->
  variables <> [] /\
  Forall (fun var => 1 <= PyStr.len var <= 50 /\
                     PyStr.forall_chars code_char var = true /\
                     PyStr.upper var = var) variables /\
  validate_variable_codes (VariableList (PStr <$> variables)) = Ok variables.
Proof.
  unfold Cli.parse_variables.
  destruct (_ || _); [discriminate|].
  set (cleaned := (fun var => PyStr.upper (PyStr.strip var)) <$>
                  Cli.split "," variable_string).
  destruct (filter (fun var => PyStr.truthy var = true) cleaned)
    as [|v vs] eqn:Ef; [discriminate|].
  destruct (Cli.basic_validation (v :: vs)) as [e|] eqn:Eb; [discriminate|].
  intros [= <-].
  pose proof (basic_validation_passes _ Eb) as Hbasic.
  assert (Hall : Forall (fun var => 1 <= PyStr.len var <= 50 /\
                                    PyStr.forall_chars code_char var = true /\
                                    PyStr.upper var = var) (v :: vs)).
  { rewrite <- Ef in Hbasic |- *. apply Forall_forall. intros var Hin.
    rewrite Forall_forall in Hbasic. destruct (Hbasic var Hin) as [Hlen Hch].
    apply list_elem_of_filter in Hin as [Ht Hin].
    split; [|split; [exact Hch|]].
    - split; [|exact Hlen]. destruct var; [discriminate|].
      unfold PyStr.len. cbn. lia.
    - unfold cleaned in Hin. apply list_elem_of_fmap in Hin as (x & -> & _).
      apply upper_idempotent. }
  split; [discriminate|]. split; [exact Hall|].
  apply validate_normal_codes. eapply Forall_impl; [exact Hall|].
  intros var (Hlen & Hch & Hup). cbn beta.
  assert (Hn : normal_form var = var).
  { unfold normal_form. rewrite strip_no_space by (apply code_chars_no_space, Hch).
    exact Hup. }
  split; [|exact Hn].
  unfold complaint. rewrite Hn.
  rewrite bool_decide_false
    by (intros ->; unfold PyStr.len in Hlen; cbn in Hlen; lia).
  rewrite bool_decide_false by lia. reflexivity.
Qed.

Lemma parse_variables_gives_valid_codes_witness :
  validate_variable_codes (VariableList (PStr <$> ["FEDFUNDS"; "DGS10"]))
  = Ok ["FEDFUNDS"; "DGS10"].
Proof.
  destruct (parse_variables_gives_valid_codes " fedfunds, ,dgs10 "
              ["FEDFUNDS"; "DGS10"]) as (_ & _ & H).
  - vm_compute. reflexivity.
  - exact H.
Defined.
End Spelling.

(** ** The exceptions of [get_data] *)

Module GetDataExceptions.
Import DataScenarios.

Lemma validate_variable_codes_raises variables e :
  validate_variable_codes variables = Raise e -> cls e = ValidationError.
Proof.
  unfold validate_variable_codes.
  destruct (validate_loop _ _ _) as [validated invalid].
  destruct invalid; [discriminate|]. intros [= <-]. reflexivity.
Qed.

Lemma validate_and_convert_dates_raises start_date end_date e :
  validate_and_convert_dates start_date end_date = Raise e ->
  cls e = ValidationError \/ cls e = Foreign "TypeError".
Proof.
  unfold validate_and_convert_dates.
  destruct start_date as [[s|] | s |], end_date as [[t|] | t |];
    cbn [convert_date];
    try (intros [= <-]; auto);
    destruct (_ <=? _); try (intros [= <-]; auto);
    destruct (_ || _); intros [= <-]; auto.
Qed.

Lemma setitem_raises df k s e :
  setitem df k s = Raise e -> cls e = Foreign "ValueError".
Proof.
  unfold setitem, reindex_for_setitem, reindex.
  destruct (_ || _); [discriminate|].
  destruct (bool_decide _); [discriminate|]. intros [= <-]. reflexivity.
Qed.

Lemma combine_raises items : forall df e,
  combine items df = Raise e -> cls e = Foreign "ValueError".
Proof.
  induction items as [|[k s] items IH]; intros df e; cbn [combine].
  - discriminate.
  - destruct (setitem df k s) as [df1 | e1] eqn:E.
    + apply IH.
    + intros [= <-]. exact (setitem_raises _ _ _ _ E).
Qed.

Section clients.
Variable clock : nat -> Z.
Variable fred_http : nat -> string -> gmap string pyval -> reply Fred.json.
Variable haver_http : nat -> string -> gmap string pyval -> reply Haver.json.

(** X9: The exceptions of [get_data], on either client and for any
    arguments: [ConnectionError] (not connected), [ValidationError] or
    [TypeError] (the arguments), [DataRetrievalError] (no variable yielded
    data) and [ValueError] (pandas, on a repeated date).  Whatever goes
    wrong for one variable stays inside the loop: [get_data] never raises
    [RateLimitError] or [AuthenticationError], and no exception of the
    transport. *)
Theorem get_data_raises_only_these
    (fred : Fred.FREDDataSource) (haver : Haver.HaverDataSource) (w : World)
    variables start_date end_date kwargs :
  let allowed := [ConnectionError; ValidationError; Foreign "TypeError";
                  DataRetrievalError; Foreign "ValueError"] in
  (forall e, (Fred.get_data clock fred_http variables start_date end_date
                kwargs (fred, w)).1 = Raise e -> cls e ∈ allowed) /\
  (forall e, (Haver.get_data clock haver_http variables start_date end_date
                kwargs (haver, w)).1 = Raise e -> cls e ∈ allowed).
Proof.
  intros allowed. subst allowed. split; intros e.
  - unfold Fred.get_data. unfold bind at 1. unfold the_self at 1.
    destruct (Fred.is_connected fred); cbn [negb].
    2:{ intros [= <-]. rewrite !elem_of_cons. auto. }
    unfold bind at 1, lift_result at 1.
    destruct (validate_variable_codes variables) as [vl | e1] eqn:Ev.
    2:{ intros [= <-]. rewrite (validate_variable_codes_raises _ _ Ev).
        rewrite !elem_of_cons. auto. }
    unfold bind at 1, lift_result at 1.
    destruct (validate_and_convert_dates start_date end_date) as [dates | e1]
      eqn:Ed.
    2:{ intros [= <-].
        destruct (validate_and_convert_dates_raises _ _ _ Ed) as [-> | ->];
          rewrite !elem_of_cons; auto. }
    unfold bind at 1.
    destruct (GetData.collect_stores
                (fred_attempt clock fred_http (Calendar.strftime dates.1)
                   (Calendar.strftime dates.2) kwargs)
                vl [] [] (fred, w)) as (failed & s' & Hrun).
    unfold fred_attempt in Hrun at 1. rewrite Hrun. cbn [fst].
    destruct (stored _ []) as [|p l] eqn:Es.
    + intros [= <-]. rewrite !elem_of_cons. auto.
    + unfold lift_result. cbn [fst]. intros Hc.
      rewrite (combine_raises _ _ _ Hc). rewrite !elem_of_cons. auto 10.
  - unfold Haver.get_data. unfold bind at 1. unfold the_self at 1.
    destruct (Haver.is_connected haver); cbn [negb].
    2:{ intros [= <-]. rewrite !elem_of_cons. auto. }
    unfold bind at 1, lift_result at 1.
    destruct (validate_variable_codes variables) as [vl | e1] eqn:Ev.
    2:{ intros [= <-]. rewrite (validate_variable_codes_raises _ _ Ev).
        rewrite !elem_of_cons. auto. }
    unfold bind at 1, lift_result at 1.
    destruct (validate_and_convert_dates start_date end_date) as [dates | e1]
      eqn:Ed.
    2:{ intros [= <-].
        destruct (validate_and_convert_dates_raises _ _ _ Ed) as [-> | ->];
          rewrite !elem_of_cons; auto. }
    unfold bind at 1.
    destruct (GetData.collect_stores
                (haver_attempt clock haver_http
                   (default "USECON" (py_str <$> kwargs !! "database"))
                   (Calendar.strftime dates.1)
                   (Calendar.strftime dates.2) kwargs)
                vl [] [] (haver, w)) as (failed & s' & Hrun).
    unfold haver_attempt in Hrun at 1. rewrite Hrun. cbn [fst].
    destruct (stored _ []) as [|p l] eqn:Es.
    + intros [= <-]. rewrite !elem_of_cons. auto.
    + unfold lift_result. cbn [fst]. intros Hc.
      rewrite (combine_raises _ _ _ Hc). rewrite !elem_of_cons. auto 10.
Qed.

End clients.
End GetDataExceptions.
